(** * version_from_tag: version model and validation rule engine

    A shallow embedding of [src/version_from_tag.py].  Python integers are
    [Z]; strings are [string], read as sequences of 8-bit code points;
    attributes that may hold [None] are [option]s.  Functions that can raise
    return a sum whose right side is the exception; functions that touch the
    module global [warning_msgs], run a program, write a file or print
    thread a [World] through an exception-state monad.  The machine is an
    oracle: what it answers may depend on everything the script asked of it
    before, and any answer may be an exception of the library. *)

From Stdlib Require Import ZArith List String Ascii Bool Lia.
From Stdlib Require Import Numbers.DecimalString.
From Stdlib Require DecimalZ DecimalPos.
Import ListNotations.

Local Open Scope list_scope.
Local Open Scope string_scope.
Local Open Scope Z_scope.

(** ** Exceptions and results *)

(** What the interpreter's library raises when the machine does not
    co-operate: [open] and [subprocess.run] raise OSError
    (FileNotFoundError, PermissionError and the like), and text that does
    not decode or encode raises UnicodeError (UnicodeDecodeError from
    [subprocess.run] in text mode, UnicodeEncodeError from [print]). *)
Inductive library_error : Type :=
| OSError (strerror : string)
| UnicodeError (reason : string).

Inductive exn : Type :=
| VersionTagError (error_code : Z) (error_msg : string)
| AttributeError (attribute : string)
| UnboundLocalError (variable : string)
| ValueError (msg : string)
| IndexError
| CommandError (error_msg : string)
| LibraryError (e : library_error).

Definition res (A : Type) : Type := (A + exn)%type.

Definition ok {A : Type} (a : A) : res A := inl a.
Definition raise {A : Type} (e : exn) : res A := inr e.

Definition rbind {A B : Type} (r : res A) (f : A -> res B) : res B :=
  match r with
  | inl a => f a
  | inr e => inr e
  end.

Notation "'let?' x ':=' r 'in' k" := (rbind r (fun x => k))
  (at level 10, x name, r at level 100, k at level 200).

(** ** Pieces of the Python runtime the script relies on *)

Module Py.

Definition quote : string := String (ascii_of_nat 34) EmptyString.
Definition nl : string := String (ascii_of_nat 10) EmptyString.

(** [str(n)] and ["{}".format(n)], ["{:d}".format(n)] for an integer. *)
Definition str_int (n : Z) : string := NilZero.string_of_int (Z.to_int n).

(** ["{:02d}".format(n)]: zero padding up to width two, sign included. *)
Definition fmt_02d (n : Z) : string :=
  if (0 <=? n) && (n <? 10) then "0" ++ str_int n else str_int n.

(** [str(x)] of an attribute holding a string or [None]. *)
Definition str_opt (o : option string) : string :=
  match o with
  | Some s => s
  | None => "None"
  end.

(** Truth value of a string: empty strings are false. *)
Definition truthy (s : string) : bool :=
  match s with
  | EmptyString => false
  | String _ _ => true
  end.

Definition is_digit (c : ascii) : bool :=
  let n := nat_of_ascii c in (48 <=? n)%nat && (n <=? 57)%nat.

(** [int(s)] on a non-empty string of ASCII digits; the other spellings
    [int] accepts never reach it in this program and raise here. *)
Fixpoint digits_value (acc : Z) (s : string) : option Z :=
  match s with
  | EmptyString => Some acc
  | String c s' =>
      if is_digit c
      then digits_value (acc * 10 + (Z.of_nat (nat_of_ascii c) - 48)) s'
      else None
  end.

Definition int (s : string) : res Z :=
  match s with
  | EmptyString => raise (ValueError "invalid literal for int()")
  | String _ _ =>
      match digits_value 0 s with
      | Some n => ok n
      | None => raise (ValueError "invalid literal for int()")
      end
  end.

(** [s[:n]] *)
Definition slice_to (n : nat) (s : string) : string := substring 0 n s.

(** [l[i]] *)
Definition item {A : Type} (l : list A) (i : nat) : res A :=
  match nth_error l i with
  | Some a => ok a
  | None => raise IndexError
  end.

(** Code points below 256 for which [str.isspace] is true. *)
Definition is_space (c : ascii) : bool :=
  let n := nat_of_ascii c in
  ((9 <=? n) && (n <=? 13) || (28 <=? n) && (n <=? 32)
   || (n =? 133) || (n =? 160))%nat.

Fixpoint lstrip (s : string) : string :=
  match s with
  | EmptyString => EmptyString
  | String c s' => if is_space c then lstrip s' else s
  end.

Fixpoint rstrip (s : string) : string :=
  match s with
  | EmptyString => EmptyString
  | String c s' =>
      match rstrip s' with
      | EmptyString => if is_space c then EmptyString else String c EmptyString
      | t => String c t
      end
  end.

Definition strip (s : string) : string := rstrip (lstrip s).

(** Line boundaries of [str.splitlines] below code point 256. *)
Definition is_linebreak (c : ascii) : bool :=
  let n := nat_of_ascii c in
  ((10 <=? n) && (n <=? 13) || (28 <=? n) && (n <=? 30) || (n =? 133))%nat.

(** [cur] is the line read so far; carriage return followed by line feed
    is one boundary. *)
Fixpoint splitlines_from (cur : string) (s : string) : list string :=
  match s with
  | EmptyString =>
      match cur with
      | EmptyString => []
      | String _ _ => [cur]
      end
  | String c s' =>
      if is_linebreak c then
        cur :: match s' with
               | String c' s'' =>
                   if ((nat_of_ascii c =? 13) && (nat_of_ascii c' =? 10))%nat
                   then splitlines_from EmptyString s''
                   else splitlines_from EmptyString s'
               | EmptyString => []
               end
      else splitlines_from (cur ++ String c EmptyString) s'
  end.

Definition splitlines (s : string) : list string :=
  splitlines_from EmptyString s.

(** [s.split(sep)] for a one-character separator. *)
Fixpoint split_from (sep : ascii) (cur : string) (s : string) : list string :=
  match s with
  | EmptyString => [cur]
  | String c s' =>
      if Ascii.eqb c sep then cur :: split_from sep EmptyString s'
      else split_from sep (cur ++ String c EmptyString) s'
  end.

Definition split (sep : ascii) (s : string) : list string :=
  split_from sep EmptyString s.

(** [s.replace(old, new)] for a non-empty [old]: occurrences are replaced
    left to right without overlap; [skip] counts the characters of a
    replaced occurrence still to pass over. *)
Fixpoint replace_from (old new : string) (skip : nat) (s : string) : string :=
  match s with
  | EmptyString => EmptyString
  | String c s' =>
      match skip with
      | S k => replace_from old new k s'
      | O =>
          if prefix old s
          then new ++ replace_from old new (String.length old - 1) s'
          else String c (replace_from old new O s')
      end
  end.

Definition replace (old new s : string) : string := replace_from old new O s.

(** [repr] of a string, for code points below 256. *)
Fixpoint contains (c : ascii) (s : string) : bool :=
  match s with
  | EmptyString => false
  | String c' s' => Ascii.eqb c c' || contains c s'
  end.

Definition hex_digit (n : nat) : ascii :=
  if (n <? 10)%nat then ascii_of_nat (48 + n) else ascii_of_nat (87 + n).

Definition is_printable (c : ascii) : bool :=
  let n := nat_of_ascii c in
  negb ((n <? 32) || (127 <=? n) && (n <=? 160) || (n =? 173))%nat.

Definition repr_char (q : ascii) (c : ascii) : string :=
  let n := nat_of_ascii c in
  if Ascii.eqb c q || (n =? 92)%nat then String "\" (String c EmptyString)
  else if (n =? 9)%nat then "\t"
  else if (n =? 10)%nat then "\n"
  else if (n =? 13)%nat then "\r"
  else if is_printable c then String c EmptyString
  else String "\" (String "x"
         (String (hex_digit (n / 16)) (String (hex_digit (n mod 16)) EmptyString))).

Fixpoint repr_body (q : ascii) (s : string) : string :=
  match s with
  | EmptyString => EmptyString
  | String c s' => repr_char q c ++ repr_body q s'
  end.

Definition repr_str (s : string) : string :=
  let q := if contains "'" s && negb (contains (ascii_of_nat 34) s)
           then ascii_of_nat 34 else "'"%char in
  String q (repr_body q s ++ String q EmptyString).

(** [str(l)] of a list of strings. *)
Definition repr_list (l : list string) : string :=
  "[" ++ String.concat ", " (map repr_str l) ++ "]".

End Py.

(** ** The regular expressions of module [re] that the script uses

    Literals, character ranges, concatenation, greedy option, counted
    repetition and numbered capture groups, matched by backtracking from
    the start of the subject as [Pattern.match] does. *)

Module Re.

Inductive regex : Type :=
| Eps
| Chr (c : ascii)
| Rng (lo hi : ascii)
| Cat (r1 r2 : regex)
| Opt (r : regex)
| Rep (r : regex) (n : nat)
| Grp (i : nat) (r : regex).

Fixpoint lit (s : string) : regex :=
  match s with
  | EmptyString => Eps
  | String c s' => Cat (Chr c) (lit s')
  end.

(** The pattern text a regex stands for. *)
Fixpoint show (r : regex) : string :=
  match r with
  | Eps => EmptyString
  | Chr c => String c EmptyString
  | Rng lo hi => "[" ++ String lo ("-" ++ String hi "]")
  | Cat r1 r2 => show r1 ++ show r2
  | Opt r => show r ++ "?"
  | Rep r n => show r ++ "{" ++ Py.str_int (Z.of_nat n) ++ "}"
  | Grp _ r => "(" ++ show r ++ ")"
  end.

(** Captured groups, most recent binding first. *)
Definition captures : Type := list (nat * string).

Fixpoint group (i : nat) (caps : captures) : option string :=
  match caps with
  | [] => None
  | (j, g) :: caps' => if Nat.eqb i j then Some g else group i caps'
  end.

(** What was read between subject [s] and its suffix [rest]. *)
Definition consumed (s rest : string) : string :=
  substring 0 (String.length s - String.length rest) s.

Definition in_rng (lo hi c : ascii) : bool :=
  ((nat_of_ascii lo <=? nat_of_ascii c) && (nat_of_ascii c <=? nat_of_ascii hi))%nat.

(** [run r s caps k]: match [r] at the start of [s], then hand the rest of
    the subject and the captures to [k]; when [k] fails, backtrack. *)
Fixpoint run {A : Type} (r : regex) (s : string) (caps : captures)
    (k : string -> captures -> option A) {struct r} : option A :=
  match r with
  | Eps => k s caps
  | Chr c =>
      match s with
      | String c' s' => if Ascii.eqb c c' then k s' caps else None
      | EmptyString => None
      end
  | Rng lo hi =>
      match s with
      | String c' s' => if in_rng lo hi c' then k s' caps else None
      | EmptyString => None
      end
  | Cat r1 r2 => run r1 s caps (fun s1 caps1 => run r2 s1 caps1 k)
  | Opt r' =>
      match run r' s caps k with
      | Some a => Some a
      | None => k s caps
      end
  | Rep r' n =>
      (fix rep (n : nat) (s : string) (caps : captures) : option A :=
         match n with
         | O => k s caps
         | S n' => run r' s caps (fun s1 caps1 => rep n' s1 caps1)
         end) n s caps
  | Grp i r' =>
      run r' s caps (fun s1 caps1 => k s1 ((i, consumed s s1) :: caps1))
  end.

(** [re.compile(r).match(s)]: the captures of a match anchored at the
    start of [s] only, or [None]. *)
Definition match_ (r : regex) (s : string) : option captures :=
  run r s [] (fun _ caps => Some caps).

Fixpoint ngroups (r : regex) : nat :=
  match r with
  | Eps | Chr _ | Rng _ _ => O
  | Cat r1 r2 => (ngroups r1 + ngroups r2)%nat
  | Opt r' | Rep r' _ => ngroups r'
  | Grp _ r' => S (ngroups r')
  end.

(** [match_obj.groups(default)] *)
Definition groups (r : regex) (default : string) (caps : captures) : list string :=
  map (fun i => match group i caps with Some g => g | None => default end)
      (seq 1 (ngroups r)).

(** [matches r p caps caps']: [r] matches the whole of [p] and turns the
    captures [caps] into [caps']. *)
Inductive matches : regex -> string -> captures -> captures -> Prop :=
| m_eps caps : matches Eps EmptyString caps caps
| m_chr c caps : matches (Chr c) (String c EmptyString) caps caps
| m_rng lo hi c caps :
    in_rng lo hi c = true -> matches (Rng lo hi) (String c EmptyString) caps caps
| m_cat r1 r2 s1 s2 caps caps1 caps2 :
    matches r1 s1 caps caps1 -> matches r2 s2 caps1 caps2 ->
    matches (Cat r1 r2) (s1 ++ s2) caps caps2
| m_opt_some r s caps caps1 : matches r s caps caps1 -> matches (Opt r) s caps caps1
| m_opt_none r caps : matches (Opt r) EmptyString caps caps
| m_rep_O r caps : matches (Rep r O) EmptyString caps caps
| m_rep_S r n s1 s2 caps caps1 caps2 :
    matches r s1 caps caps1 -> matches (Rep r n) s2 caps1 caps2 ->
    matches (Rep r (S n)) (s1 ++ s2) caps caps2
| m_grp i r s caps caps1 :
    matches r s caps caps1 -> matches (Grp i r) s caps ((i, s) :: caps1).

End Re.

(** ** class Version *)

Record Version : Type := __init__ {
  _major_ver : Z;
  _minor_ver : Z;
  _build_num : Z;
  _creatordate : option string;
  _sw_article_num : option Z;
  _sha1 : option string;
  _tag_name : option string
}.

(** The attribute [_version] is set once, by the constructor, from the three
    numbers and never assigned again: it is a function of them. *)
Definition _version (v : Version) : Z :=
  _major_ver v * 10000 + _minor_ver v * 100 + _build_num v.

Definition first_test_version : Z := 900000.

(** [Version(major, minor, build)] with the defaulted arguments left out. *)
Definition Version3 (major_ver minor_ver build_num : Z) : Version :=
  __init__ major_ver minor_ver build_num None None None None.

Definition next (self : Version) (roll : string) : res Version :=
  rbind
    (if String.eqb roll "roll_major" then
       ok (_version self + 10000 - (_version self mod 10000))
     else if String.eqb roll "roll_minor" then
       ok (_version self + 100 - (_version self mod 100))
     else if String.eqb roll "roll_build" then
       ok (_version self + 1)
     else raise (UnboundLocalError "next_ver"))
    (fun next_ver =>
       let next_major := next_ver / 10000 in
       let next_minor := next_ver mod 10000 / 100 in
       let next_build := next_ver mod 100 in
       ok (__init__ next_major next_minor next_build
             (_creatordate self) (_sw_article_num self) (_sha1 self) None)).

(** [is_kind] returns a boolean for the two known kinds and falls off the
    end, returning [None], for any other string. *)
Definition is_kind (self : Version) (kind : string) : option bool :=
  if String.eqb kind "release" then Some (_version self <? first_test_version)
  else if String.eqb kind "test" then Some (_version self >? first_test_version)
  else None.

(** Truth value of what [is_kind] returns: [None] is false. *)
Definition holds (o : option bool) : bool :=
  match o with
  | Some b => b
  | None => false
  end.

Definition kind (self : Version) : string :=
  if _version self <? first_test_version then "release" else "test".

Definition __eq__ (self other : Version) : bool :=
  _version self =? _version other.

Definition __gt__ (self other : Version) : bool :=
  _version self >? _version other.

Definition __lt__ (self other : Version) : bool :=
  _version self <? _version other.

(** The body reads [self.verison], an attribute no [Version] has. *)
Definition __ge__ (self other : Version) : res bool :=
  raise (AttributeError "verison").

Definition __le__ (self other : Version) : bool :=
  _version self <=? _version other.

Definition __ne__ (self other : Version) : bool :=
  negb (_version self =? _version other).

Definition __str__ (self : Version) : string :=
  Py.str_int (_major_ver self) ++ "." ++ Py.fmt_02d (_minor_ver self)
    ++ "." ++ Py.fmt_02d (_build_num self).

(** The ranges the data model gives the three numbers. *)
Definition in_range (v : Version) : Prop :=
  0 <= _major_ver v /\ 0 <= _minor_ver v <= 99 /\ 0 <= _build_num v <= 99.


(** ** Module-level constants *)

(** [version_tag_regex =
     "(1000[0-9]{4})/V([1-9]?[0-9]{1})_([0-9]{2})(_([0-9][0-9]))?"] *)
Definition version_tag_regex : Re.regex :=
  let digit := Re.Rng "0" "9" in
  Re.Cat (Re.Grp 1 (Re.Cat (Re.lit "1000") (Re.Rep digit 4)))
  (Re.Cat (Re.lit "/V")
  (Re.Cat (Re.Grp 2 (Re.Cat (Re.Opt (Re.Rng "1" "9")) (Re.Rep digit 1)))
  (Re.Cat (Re.Chr "_")
  (Re.Cat (Re.Grp 3 (Re.Rep digit 2))
          (Re.Opt (Re.Grp 4 (Re.Cat (Re.Chr "_")
                               (Re.Grp 5 (Re.Cat digit digit))))))))).

Definition valid_sw_article_nums : list Z :=
  [10006000; 10006001; 10006010; 10006020; 10006030].

(** ** Tag parsing *)

Definition parse_version_tag (version_tag : string) : res (option (Z * Z * Z * Z)) :=
  match Re.match_ version_tag_regex version_tag with
  | Some match_obj =>
      let groups := Re.groups version_tag_regex "00" match_obj in
      let? g0 := Py.item groups 0 in
      let? sw_article_num := Py.int g0 in
      let? g1 := Py.item groups 1 in
      let? major_ver := Py.int g1 in
      let? g2 := Py.item groups 2 in
      let? minor_ver := Py.int g2 in
      let? g4 := Py.item groups 4 in
      let? build_num := Py.int g4 in
      ok (Some (sw_article_num, major_ver, minor_ver, build_num))
  | None => ok None
  end.

(** Returns [True] or falls off the end; only its truth value is used. *)
Definition is_sw_article_num_valid (sw_article_num : Z) : bool :=
  existsb (Z.eqb sw_article_num) valid_sw_article_nums.

(** ** Mutable state and the monad of the rule engine *)

Inductive check : Type :=
| AlreadyUsed
| SkippedAVersion
| TagIsLightweight
| MultipleVersions
| LocalChanges
| VersionAndNonversionTag.

(** What the script asks of the machine: to run a program from an argument
    vector, to run a command line through the shell, to write a text to a
    file, to print a text. *)
Inductive request : Type :=
| Program (argv : list string)
| CommandLine (command : string)
| FileWrite (path content : string)
| Output (text : string).

(** [warning_msgs] is the module global; [files] lists what the script
    itself has written with [open], oldest first, as (path, content);
    [stdout] lists what it has printed.  [requests] lists everything it has
    asked of the machine, oldest first, whether the machine did it or
    failed.  [entered] is a history variable: every check function records
    its own name on entry and nothing ever reads the field. *)
Record World : Type := {
  warning_msgs : list string;
  files : list (string * string);
  stdout : list string;
  entered : list check;
  requests : list request
}.

Definition M (A : Type) : Type := World -> res A * World.

Definition ret {A : Type} (a : A) : M A := fun w => (ok a, w).

Definition throw {A : Type} (e : exn) : M A := fun w => (raise e, w).

Definition bind {A B : Type} (m : M A) (f : A -> M B) : M B :=
  fun w =>
    match m w with
    | (inl a, w') => f a w'
    | (inr e, w') => (inr e, w')
    end.

Definition lift {A : Type} (r : res A) : M A := fun w => (r, w).

Notation "x <- m ;; k" := (bind m (fun x => k))
  (at level 61, m at next level, right associativity).
Notation "m ;; k" := (bind m (fun _ => k))
  (at level 61, right associativity).

(** [warning_msgs.append(msg)] *)
Definition warn (msg : string) : M unit :=
  fun w => (ok tt, {| warning_msgs := warning_msgs w ++ [msg];
                      files := files w;
                      stdout := stdout w;
                      entered := entered w;
                      requests := requests w |}).

Definition enter (c : check) : M unit :=
  fun w => (ok tt, {| warning_msgs := warning_msgs w;
                      files := files w;
                      stdout := stdout w;
                      entered := entered w ++ [c];
                      requests := requests w |}).

(** [warning_msgs = []] on the global *)
Definition reset_warnings : M unit :=
  fun w => (ok tt, {| warning_msgs := [];
                      files := files w;
                      stdout := stdout w;
                      entered := entered w;
                      requests := requests w |}).

Definition get_warnings : M (list string) :=
  fun w => (ok (warning_msgs w), w).

(** A [for] loop run for its effects; it ends at the first exception. *)
Fixpoint for_ {A : Type} (l : list A) (body : A -> M unit) : M unit :=
  match l with
  | [] => ret tt
  | x :: l' => body x ;; for_ l' body
  end.

(** [try: body except VersionTagError as e: handler(e)] *)
Definition try_except {A : Type} (body : M A) (handler : Z -> string -> M A) : M A :=
  fun w =>
    match body w with
    | (inr (VersionTagError error_code error_msg), w') => handler error_code error_msg w'
    | other => other
    end.

(** ** The machine, as the script sees it

    The script cannot see the state of the machine: the repository, the
    file system, the locale, whether git is installed.  It only sees
    answers.  An answer is a function of the request and of the requests
    made before it, so that writing a file or running a command line may
    change what git says afterwards; and an answer may be an exception of
    the library instead of a result.  [run_argv] answers [subprocess.run]
    on an argument vector with the standard output (the exit status is not
    looked at); [run_shell] answers a shell command line with exit status
    and standard output; [write_to] answers the [with open(path, "w")]
    block that writes a text; [print_out] answers [print]. *)

Definition answer (A : Type) : Type := (A + library_error)%type.

Record OS : Type := {
  run_argv : list request -> list string -> answer string;
  run_shell : list request -> string -> answer (Z * string);
  write_to : list request -> string -> string -> answer unit;
  print_out : list request -> string -> answer unit
}.

Definition of_answer {A : Type} (a : answer A) : res A :=
  match a with
  | inl x => ok x
  | inr e => raise (LibraryError e)
  end.

(** The world once a request has been made. *)
Definition asked (r : request) (w : World) : World :=
  {| warning_msgs := warning_msgs w;
     files := files w;
     stdout := stdout w;
     entered := entered w;
     requests := requests w ++ [r] |}.

(** [subprocess.run(argv, stdout=subprocess.PIPE,
    universal_newlines=True).stdout] *)
Definition subprocess_run (os : OS) (argv : list string) : M string :=
  fun w => (of_answer (run_argv os (requests w) argv), asked (Program argv) w).

(** helpers.run_git_cmd *)
Definition run_git_cmd (os : OS) (command : string) : M string :=
  fun w =>
    (let? completed_process :=
       of_answer (run_shell os (requests w) ("git " ++ command)) in
     if negb (fst completed_process =? 0)
     then raise (CommandError ("Git failed while running '" ++ command ++ "'"))
     else ok (snd completed_process),
     asked (CommandLine ("git " ++ command)) w).

(** [with open(path, "w") as file: file.write(content)].  When the block
    raises, no file is recorded, whatever [open] has done to the file
    before. *)
Definition write_file (os : OS) (path content : string) : M unit :=
  fun w =>
    match write_to os (requests w) path content with
    | inl _ => (ok tt, {| warning_msgs := warning_msgs w;
                          files := files w ++ [(path, content)];
                          stdout := stdout w;
                          entered := entered w;
                          requests := requests w ++ [FileWrite path content] |})
    | inr e => (raise (LibraryError e), asked (FileWrite path content) w)
    end.

(** [print(output)] *)
Definition print (os : OS) (output : string) : M unit :=
  fun w =>
    match print_out os (requests w) output with
    | inl _ => (ok tt, {| warning_msgs := warning_msgs w;
                          files := files w;
                          stdout := stdout w ++ [output];
                          entered := entered w;
                          requests := requests w ++ [Output output] |})
    | inr e => (raise (LibraryError e), asked (Output output) w)
    end.

(** ** Reading the repository *)

(** A [for] loop that builds a value and may raise. *)
Fixpoint rfold {A S : Type} (body : S -> A -> res S) (l : list A) (s : S) : res S :=
  match l with
  | [] => ok s
  | x :: l' => let? s' := body s x in rfold body l' s'
  end.

Definition get_versions_from_tags (os : OS) : M (list Version) :=
  process_stdout <-
    subprocess_run os
      ["git"; "for-each-ref"; "--sort=refname";
       "--format=%(creatordate:unix);%(object);%(objectname);%(refname)"] ;;
  lift
    (rfold
       (fun versions line =>
          let split_line := Py.split ";" line in
          let? creatordate_field := Py.item split_line 0 in
          let? object_field := Py.item split_line 1 in
          let? objectname_field := Py.item split_line 2 in
          let? refname_field := Py.item split_line 3 in
          let sha1 := if negb (String.eqb object_field "")
                      then object_field else objectname_field in
          let tag_name := Py.replace "refs/tags/" "" refname_field in
          let? parsed_tag := parse_version_tag tag_name in
          match parsed_tag with
          | Some (sw_article_num, major_ver, minor_ver, build_num) =>
              if is_sw_article_num_valid sw_article_num
              then ok (versions ++ [__init__ major_ver minor_ver build_num
                                      (Some creatordate_field) (Some sw_article_num)
                                      (Some sha1) (Some tag_name)])%list
              else ok versions
          | None => ok versions
          end)
       (Py.splitlines process_stdout) []).

(** [version.sha1 == head_sha1]: an absent commit id equals no string. *)
Definition sha1_is (version : Version) (head_sha1 : string) : bool :=
  match _sha1 version with
  | Some s => String.eqb s head_sha1
  | None => false
  end.

(** [l.remove(x)]: drops the first item that compares equal to [x], with
    the items' own [__eq__]; raises when there is none. *)
Fixpoint list_remove (x : Version) (l : list Version) : res (list Version) :=
  match l with
  | [] => raise (ValueError "list.remove(x): x not in list")
  | item :: l' =>
      if __eq__ item x then ok l'
      else let? r := list_remove x l' in ok (item :: r)
  end.

(** The caller's list [versions] is changed in place; the model returns it
    next to the function's own result. *)
Definition get_head_versions (versions : list Version) (head_sha1 : string)
  : res (option (list Version) * list Version) :=
  let head_versions :=
    fold_left (fun head_versions version =>
                 if sha1_is version head_sha1
                 then (head_versions ++ [version])%list else head_versions)
              versions [] in
  if (0 <? Z.of_nat (List.length head_versions)) then
    let? versions' :=
      rfold (fun versions head_version => list_remove head_version versions)
            head_versions versions in
    ok (Some head_versions, versions')
  else ok (None, versions).

Definition get_head_sha1 (os : OS) : M string :=
  process_stdout <-
    subprocess_run os ["git"; "rev-list"; "--max-count=1"; "HEAD"] ;;
  let sha1_head := Py.strip process_stdout in
  ret sha1_head.

Definition get_head_has_local_changes (os : OS) : M (string * string) :=
  d <- run_git_cmd os "diff" ;;
  let workingtree_changes := Py.strip d in
  dc <- run_git_cmd os "diff --cached" ;;
  let index_changes := Py.strip dc in
  ret (workingtree_changes, index_changes).

Definition get_head_nonversion_tags (os : OS) : M (list string) :=
  head_tags <- run_git_cmd os "tag --points-at HEAD" ;;
  lift (rfold (fun nonversion_tags head_tag =>
                 let? p := parse_version_tag head_tag in
                 match p with
                 | None => ok (nonversion_tags ++ [head_tag])%list
                 | Some _ => ok nonversion_tags
                 end)
              (Py.splitlines head_tags) []).

(** ** The six checks *)

Definition check_head_version_already_used
    (head_version : Version) (prev_versions : list Version) : M unit :=
  enter AlreadyUsed ;;
  for_ prev_versions (fun version =>
    if __eq__ version head_version
    then throw (VersionTagError 1
                  ("The version " ++ __str__ head_version ++ " has already been used"))
    else ret tt).

Definition check_head_has_multiple_versions (head_versions : list Version) : M unit :=
  enter MultipleVersions ;;
  for_ head_versions (fun version =>
    h0 <- lift (Py.item head_versions 0) ;;
    if __ne__ version h0
    then throw (VersionTagError 3
                  ("HEAD seems to be tagged with multiple versions. At least the tag "
                   ++ Py.str_opt (_tag_name version) ++ " and "
                   ++ Py.str_opt (_tag_name h0) ++ " have different versions."))
    else ret tt).

(** The loop that looks for the most recent previous version of a kind:
    its body, then the loop from [Version(0, 0, 0)]. *)
Definition search_step (head_version_kind : string)
    (most_recent_version prev_version : Version) : Version :=
  if holds (is_kind prev_version head_version_kind)
     && __gt__ prev_version most_recent_version
  then prev_version else most_recent_version.

Definition most_recent_version (head_version_kind : string)
    (prev_versions : list Version) : Version :=
  fold_left (search_step head_version_kind) prev_versions (Version3 0 0 0).

(** [x in l] *)
Definition contains_version (x : Version) (l : list Version) : bool :=
  existsb (fun item => __eq__ item x) l.

Definition check_head_version_skipped_a_version
    (head_version : Version) (prev_versions : list Version) : M unit :=
  enter SkippedAVersion ;;
  let head_version_kind := kind head_version in
  let most_recent_version := most_recent_version head_version_kind prev_versions in
  if __le__ head_version most_recent_version then
    warn ("HEAD is tagged with version " ++ __str__ head_version
          ++ " but the most recent version is " ++ __str__ most_recent_version
          ++ ". Was this the intention (you might have checked out an earlier commit)?")
  else if String.eqb (kind head_version) "release" then
    v0 <- lift (next most_recent_version "roll_major") ;;
    v1 <- lift (next most_recent_version "roll_minor") ;;
    v2 <- lift (next most_recent_version "roll_build") ;;
    let valid_next_versions := [v0; v1; v2] in
    if __gt__ head_version most_recent_version
       && negb (contains_version head_version valid_next_versions)
    then throw (VersionTagError 5
                  ("You skipped a release version, the next version should be either "
                   ++ __str__ v0 ++ ", " ++ __str__ v1 ++ ", or " ++ __str__ v2 ++ "."))
    else ret tt
  else
    v0 <- lift (next most_recent_version "roll_minor") ;;
    v1 <- lift (next most_recent_version "roll_build") ;;
    let valid_next_versions := [v0; v1] in
    if negb (contains_version head_version valid_next_versions)
    then throw (VersionTagError 5
                  ("You skipped a test version, the next version should be either "
                   ++ __str__ v0 ++ " or " ++ __str__ v1 ++ "."))
    else ret tt.

Definition check_tag_is_lightweight (os : OS) (head_versions : list Version) : M unit :=
  enter TagIsLightweight ;;
  for_ head_versions (fun head_version =>
    objecttype <- run_git_cmd os
                    ("for-each-ref --format=" ++ Py.quote ++ "%(objecttype)"
                     ++ Py.quote ++ " refs/tags/"
                     ++ Py.str_opt (_tag_name head_version)) ;;
    if String.eqb (Py.strip objecttype) "commit"
    then throw (VersionTagError 4
                  ("You assigned a lightweight tag ("
                   ++ Py.str_opt (_tag_name head_version)
                   ++ ") to HEAD, you should use annotated tags (git tag -a)"))
    else ret tt).

Definition check_head_has_local_changes
    (workingtree_has_changes index_has_changes : string) : M unit :=
  enter LocalChanges ;;
  (if negb (String.eqb workingtree_has_changes "")
   then throw (VersionTagError 2
                 "HEAD is tagged but has local changes. This is not allowed.")
   else ret tt) ;;
  if negb (String.eqb index_has_changes "")
  then throw (VersionTagError 2
                "HEAD is tagged but has staged changes. This is not allowed.")
  else ret tt.

Definition check_head_has_version_and_nonversion_tag (os : OS) : M unit :=
  enter VersionAndNonversionTag ;;
  head_tags <- run_git_cmd os "tag --points-at HEAD" ;;
  non_version_tags <-
    lift (rfold (fun non_version_tags head_tag =>
                   let? p := parse_version_tag head_tag in
                   match p with
                   | None => ok (non_version_tags ++ [head_tag])%list
                   | Some _ => ok non_version_tags
                   end)
                (Py.splitlines head_tags) []) ;;
  if (0 <? Z.of_nat (List.length non_version_tags))
  then warn ("HEAD was tagged with both version and non-version tags. Was this the intent? The non-version tags are: "
             ++ Py.repr_list non_version_tags)
  else ret tt.

(** ** Output *)

Definition version_file_content (major_ver minor_ver : Z) (revisionhash : string) : string :=
  "//--------------------------------------------------------------------------------------------------" ++ Py.nl
  ++ "// Notes:" ++ Py.nl
  ++ "// This file is autogenerated by the Python script " ++ Py.quote
  ++ "version_from_tag.py" ++ Py.quote ++ " invoked during building." ++ Py.nl
  ++ "// Do not edit this file as changes will be overwritten during building." ++ Py.nl
  ++ "//--------------------------------------------------------------------------------------------------" ++ Py.nl
  ++ "#ifndef _SWPACKAGEVERSION_H_" ++ Py.nl
  ++ "#define _SWPACKAGEVERSION_H_" ++ Py.nl
  ++ "#define SW_VER_MAJOR " ++ Py.str_int major_ver ++ Py.nl
  ++ "#define SW_VER_MINOR " ++ Py.str_int minor_ver ++ Py.nl
  ++ "#define SW_REVISIONHASH " ++ Py.quote ++ revisionhash ++ Py.quote ++ Py.nl
  ++ "#endif".

Definition write_version_file (os : OS) (target_file : string)
    (head_versions : option (list Version)) (head_sha1 : string)
    (workingtree_has_changes index_has_changes : string) : M unit :=
  let has_local_changes :=
    Py.truthy workingtree_has_changes || Py.truthy index_has_changes in
  numbers <-
    match head_versions with
    | None => ret (90, 0)
    | Some hvs =>
        h0 <- lift (Py.item hvs 0) ;;
        h0' <- lift (Py.item hvs 0) ;;
        ret (_major_ver h0, _minor_ver h0')
    end ;;
  let file_content :=
    version_file_content (fst numbers) (snd numbers)
      (if has_local_changes then "+" ++ head_sha1 else Py.slice_to 12 head_sha1) in
  write_file os target_file file_content.

Definition print_version_information (os : OS) (versions : list Version)
    (head_versions : option (list Version)) (head_sha1 : string) : M unit :=
  head_version_str <-
    match head_versions with
    | None => ret "90.00.00"
    | Some hvs => h0 <- lift (Py.item hvs 0) ;; ret (__str__ h0)
    end ;;
  print os ("############################################################" ++ Py.nl
            ++ "Software version info." ++ Py.nl
            ++ "Building commit " ++ Py.slice_to 12 head_sha1
            ++ ", tagged with version " ++ head_version_str ++ "." ++ Py.nl
            ++ "############################################################").

(** ** Orchestration *)

Definition check_head (os : OS) (versions : list Version)
    (head_versions : option (list Version)) (head_sha1 : string)
    (workingtree_has_changes index_has_changes : string) : M unit :=
  match head_versions with
  | Some hvs =>
      h0 <- lift (Py.item hvs 0) ;;
      check_head_version_already_used h0 versions ;;
      h0' <- lift (Py.item hvs 0) ;;
      check_head_version_skipped_a_version h0' versions ;;
      check_tag_is_lightweight os hvs ;;
      check_head_has_multiple_versions hvs ;;
      check_head_has_local_changes workingtree_has_changes index_has_changes ;;
      check_head_has_version_and_nonversion_tag os
  | None => ret tt
  end.

(** What [run] does once the registry and the working-tree state are read:
    the [try] statement and the [return]. *)
Definition run_checks_and_write (os : OS) (target_file : string)
    (versions : list Version) (head_versions : option (list Version))
    (head_sha1 workingtree_changes index_changes : string)
  : M (Z * option string * list string) :=
  outcome <-
    try_except
      (check_head os versions head_versions head_sha1 workingtree_changes index_changes ;;
       write_version_file os target_file head_versions head_sha1
         workingtree_changes index_changes ;;
       print_version_information os versions head_versions head_sha1 ;;
       ret (0, None))
      (fun error_code error_msg => ret (error_code, Some error_msg)) ;;
  w <- get_warnings ;;
  ret (fst outcome, snd outcome, w).

Definition run (os : OS) (target_file : string) : M (Z * option string * list string) :=
  reset_warnings ;;
  versions <- get_versions_from_tags os ;;
  head_sha1 <- get_head_sha1 os ;;
  split_versions <- lift (get_head_versions versions head_sha1) ;;
  let head_versions := fst split_versions in
  let versions := snd split_versions in
  changes <- get_head_has_local_changes os ;;
  run_checks_and_write os target_file versions head_versions head_sha1
    (fst changes) (snd changes).

(** How [main] ends: it returns, it leaves through [sys.exit], or an
    exception of [run] or of [print] goes through it. *)
Inductive termination : Type :=
| Returned
| Exited (status : Z)
| Raised (e : exn).

Definition main (os : OS) (target_file : string) (w : World) : termination * World :=
  match (outcome <- run os target_file ;;
         let error_code := fst (fst outcome) in
         let error_msg := snd (fst outcome) in
         let warning_msgs := snd outcome in
         for_ warning_msgs (fun warning_msg => print os ("WARNING: " ++ warning_msg)) ;;
         if negb (error_code =? 0)
         then print os ("ERROR: " ++ Py.str_opt error_msg) ;; ret (Some error_code)
         else ret None) w with
  | (inl None, w') => (Returned, w')
  | (inl (Some status), w') => (Exited status, w')
  | (inr e, w') => (Raised e, w')
  end.

(** ** Vocabulary of the properties *)

(** The three rolls and the step each takes on the order key. *)
Definition rolls : list (string * Z) :=
  [("roll_major", 10000); ("roll_minor", 100); ("roll_build", 1)].

(** Worlds after an effect. *)
Definition entered_in (c : check) (w : World) : World := snd (enter c w).

Definition warned (msg : string) (w : World) : World := snd (warn msg w).

(** ** Sample data used by the examples *)

Definition sample_world : World :=
  {| warning_msgs := []; files := []; stdout := []; entered := [];
     requests := [] |}.

(** Version 1.00.00 under two tag names on two commits. *)
Definition sample_v1_c1 : Version :=
  __init__ 1 0 0 None (Some 10006000) (Some "c1") (Some "10006000/V1_00_00").

Definition sample_v1_c2 : Version :=
  __init__ 1 0 0 None (Some 10006001) (Some "c2") (Some "10006001/V1_00_00").

(** The result [next] builds from the flat number [next_ver]. *)
Definition rolled (self : Version) (next_ver : Z) : Version :=
  __init__ (next_ver / 10000) (next_ver mod 10000 / 100) (next_ver mod 100)
    (_creatordate self) (_sw_article_num self) (_sha1 self) None.

(** In the spec's words: [m] is the maximum-order-key version among the
    historical versions whose kind is [k]. *)
Definition most_recent_of_kind (k : string) (historical : list Version)
    (m : Version) : Prop :=
  In m historical /\ kind m = k
  /\ forall v, In v historical -> kind v = k -> _version v <= _version m.

(** The same, with the historical versions classified by [is_kind], as the
    search classifies them. *)
Definition most_recent_by_is_kind (k : string) (historical : list Version)
    (m : Version) : Prop :=
  In m historical /\ holds (is_kind m k) = true
  /\ forall v, In v historical -> holds (is_kind v k) = true ->
               _version v <= _version m.

(** The texts of the skip check. *)
Definition skipped_release_msg (v0 v1 v2 : Version) : string :=
  "You skipped a release version, the next version should be either "
  ++ __str__ v0 ++ ", " ++ __str__ v1 ++ ", or " ++ __str__ v2 ++ ".".

Definition skipped_test_msg (v0 v1 : Version) : string :=
  "You skipped a test version, the next version should be either "
  ++ __str__ v0 ++ " or " ++ __str__ v1 ++ ".".

Definition earlier_checkout_msg (head_version most_recent : Version) : string :=
  "HEAD is tagged with version " ++ __str__ head_version
  ++ " but the most recent version is " ++ __str__ most_recent
  ++ ". Was this the intention (you might have checked out an earlier commit)?".

(** The world after a file was written, and after a text was printed. *)
Definition written (path content : string) (w : World) : World :=
  {| warning_msgs := warning_msgs w;
     files := files w ++ [(path, content)];
     stdout := stdout w;
     entered := entered w;
     requests := requests w ++ [FileWrite path content] |}.

Definition printed (output : string) (w : World) : World :=
  {| warning_msgs := warning_msgs w;
     files := files w;
     stdout := stdout w ++ [output];
     entered := entered w;
     requests := requests w ++ [Output output] |}.

(** The six checks of [check_head] for head versions [hvs] with first item
    [h0], each under its name, in the order of the source. *)
Definition pipeline (os : OS) (versions hvs : list Version) (h0 : Version)
    (workingtree_has_changes index_has_changes : string) : list (check * M unit) :=
  [ (AlreadyUsed, check_head_version_already_used h0 versions);
    (SkippedAVersion, check_head_version_skipped_a_version h0 versions);
    (TagIsLightweight, check_tag_is_lightweight os hvs);
    (MultipleVersions, check_head_has_multiple_versions hvs);
    (LocalChanges,
     check_head_has_local_changes workingtree_has_changes index_has_changes);
    (VersionAndNonversionTag, check_head_has_version_and_nonversion_tag os) ].

Definition check_order : list check :=
  [AlreadyUsed; SkippedAVersion; TagIsLightweight; MultipleVersions;
   LocalChanges; VersionAndNonversionTag].

(** Checks run one after the other, stopping at the first exception. *)
Fixpoint in_order (cs : list (check * M unit)) : M unit :=
  match cs with
  | [] => ret tt
  | c :: cs' => snd c ;; in_order cs'
  end.

(** The header and the summary [run] produces for given head versions. *)
Definition header_numbers (head_versions : option (list Version)) : Z * Z :=
  match head_versions with
  | Some (h0 :: _) => (_major_ver h0, _minor_ver h0)
  | _ => (90, 0)
  end.

Definition revisionhash (head_sha1 workingtree_has_changes index_has_changes : string)
  : string :=
  if Py.truthy workingtree_has_changes || Py.truthy index_has_changes
  then "+" ++ head_sha1 else Py.slice_to 12 head_sha1.

Definition summary (head_versions : option (list Version)) (head_sha1 : string) : string :=
  "############################################################" ++ Py.nl
  ++ "Software version info." ++ Py.nl
  ++ "Building commit " ++ Py.slice_to 12 head_sha1
  ++ ", tagged with version "
  ++ match head_versions with
     | Some (h0 :: _) => __str__ h0
     | _ => "90.00.00"
     end
  ++ "." ++ Py.nl
  ++ "############################################################".

(** In the spec's words: the generated header, line by line. *)
Definition header_lines (major_ver minor_ver : Z) (revisionhash : string) : list string :=
  [ "//--------------------------------------------------------------------------------------------------";
    "// Notes:";
    ("// This file is autogenerated by the Python script " ++ Py.quote
       ++ "version_from_tag.py" ++ Py.quote ++ " invoked during building.")%string;
    "// Do not edit this file as changes will be overwritten during building.";
    "//--------------------------------------------------------------------------------------------------";
    "#ifndef _SWPACKAGEVERSION_H_";
    "#define _SWPACKAGEVERSION_H_";
    ("#define SW_VER_MAJOR " ++ Py.str_int major_ver)%string;
    ("#define SW_VER_MINOR " ++ Py.str_int minor_ver)%string;
    ("#define SW_REVISIONHASH " ++ Py.quote ++ revisionhash ++ Py.quote)%string;
    "#endif" ].

(** [preserves R m]: whatever [m] does, initial and final world are related
    by [R]. *)
Definition preserves {A : Type} (R : World -> World -> Prop) (m : M A) : Prop :=
  forall w r w', m w = (r, w') -> R w w'.

Definition same_entered (w w' : World) : Prop := entered w' = entered w.

Definition same_output (w w' : World) : Prop :=
  files w' = files w /\ stdout w' = stdout w.

(** Warnings are only ever appended. *)
Definition grown_warnings (w w' : World) : Prop :=
  exists added, warning_msgs w' = (warning_msgs w ++ added)%list.

(** A machine on which every git command succeeds and prints nothing, and
    every file is written and every text printed. *)
Definition quiet_os : OS :=
  {| run_argv := fun _ _ => inl "";
     run_shell := fun _ _ => inl (0, "");
     write_to := fun _ _ _ => inl tt;
     print_out := fun _ _ => inl tt |}.

(** Releases 1.00.00 and 1.01.00, and a later history up to 2.05.01. *)
Definition sample_releases : list Version := [Version3 1 0 0; Version3 1 1 0].

Definition sample_later_releases : list Version :=
  [Version3 1 0 0; Version3 2 0 0; Version3 2 5 1; Version3 3 0 0].

(** How many versions of a list have order key [k]. *)
Definition count_order_key (k : Z) (l : list Version) : nat :=
  List.length (filter (fun v => _version v =? k) l).

(** In the spec's words: the recognized shape of a version tag,
    [<8-digit product code starting with "1000">/V<major 1-2 digits>_<minor
    2 digits>[_<build 2 digits>]], as the four templates it allows, each a
    list of tests on the successive characters. *)
Definition literally (s : string) : list (ascii -> bool) :=
  map Ascii.eqb (list_ascii_of_string s).

Definition digits (n : nat) : list (ascii -> bool) := repeat Py.is_digit n.

Definition shape_template (major_digits : nat) (with_build : bool)
  : list (ascii -> bool) :=
  (literally "1000" ++ digits 4 ++ literally "/V" ++ digits major_digits
   ++ literally "_" ++ digits 2
   ++ (if with_build then literally "_" ++ digits 2 else []))%list.

Fixpoint fits (template : list (ascii -> bool)) (s : string) : bool :=
  match template, s with
  | [], EmptyString => true
  | test :: template', String c s' => test c && fits template' s'
  | _, _ => false
  end.

Definition tag_shape (s : string) : bool :=
  existsb (fun template => fits template s)
    [shape_template 1 false; shape_template 1 true;
     shape_template 2 false; shape_template 2 true].



Fixpoint all_digits (s : string) : bool :=
  match s with
  | EmptyString => true
  | String c s' => Py.is_digit c && all_digits s'
  end.

(** The code of the error a check raises, 0 when it returns. *)
Definition error_code_of (outcome : res unit * World) : Z :=
  match fst outcome with
  | inr (VersionTagError error_code _) => error_code
  | _ => 0
  end.

(** A scripted repository for the examples: tags as (name, commit,
    annotated), listed in the order of their names, HEAD at [head], and the
    two diffs.  Nothing the script does changes its answers, and every
    file is written and every text printed. *)
Definition objecttype_cmd (tag_name : string) : string :=
  "git for-each-ref --format=" ++ Py.quote ++ "%(objecttype)" ++ Py.quote
  ++ " refs/tags/" ++ tag_name.

Definition scripted_os (tags : list (string * string * bool)) (head : string)
    (workingtree_diff index_diff : string) : OS :=
  {| run_argv := fun _ argv =>
       match argv with
       | [_; "for-each-ref"; _; _] =>
           inl (String.concat ""
                  (map (fun t : string * string * bool =>
                          let '(name, commit, annotated) := t in
                          "1600000000;" ++ (if annotated then commit else "") ++ ";"
                          ++ (if annotated then "t" ++ commit else commit)
                          ++ ";refs/tags/" ++ name ++ Py.nl)
                       tags))
       | _ => inl (head ++ Py.nl)
       end;
     run_shell := fun _ command =>
       if String.eqb command "git diff" then inl (0, workingtree_diff)
       else if String.eqb command "git diff --cached" then inl (0, index_diff)
       else if String.eqb command "git tag --points-at HEAD" then
         inl (0, String.concat ""
                   (map (fun t : string * string * bool => fst (fst t) ++ Py.nl)
                        (filter (fun t : string * string * bool =>
                                   String.eqb (snd (fst t)) head) tags)))
       else
         match find (fun t : string * string * bool =>
                       String.eqb command (objecttype_cmd (fst (fst t)))) tags with
         | Some (_, _, true) => inl (0, "tag" ++ Py.nl)
         | Some (_, _, false) => inl (0, "commit" ++ Py.nl)
         | None => inl (0, "")
         end;
     write_to := fun _ _ _ => inl tt;
     print_out := fun _ _ => inl tt |}.

(** The number a decimal digit stands for. *)
Definition digit_val (c : ascii) : Z := Z.of_nat (nat_of_ascii c) - 48.

(** The text of the build group for what follows the minor number: the two
    digits after an underscore, or the default. *)
Definition build_text (rest : string) : string :=
  match rest with
  | String u (String b1 (String b2 _)) =>
      if Ascii.eqb "_" u && Py.is_digit b1 && Py.is_digit b2
      then String b1 (String b2 EmptyString) else "00"
  | _ => "00"
  end.

(** A major number as the pattern takes it: one digit, or two of which the
    first is not zero. *)
Definition major_text (major : string) : bool :=
  match major with
  | String m EmptyString => Py.is_digit m
  | String m1 (String m2 EmptyString) => Re.in_rng "1" "9" m1 && Py.is_digit m2
  | _ => false
  end.

(** ** The registry *)

(** The command [get_versions_from_tags] runs. *)
Definition for_each_ref_argv : list string :=
  ["git"; "for-each-ref"; "--sort=refname";
   "--format=%(creatordate:unix);%(object);%(objectname);%(refname)"].

Fixpoint count_char (c : ascii) (s : string) : nat :=
  match s with
  | EmptyString => O
  | String c' s' => ((if Ascii.eqb c' c then 1 else 0) + count_char c s')%nat
  end.

(** A line with the four fields the loop reads. *)
Definition has_four_fields (line : string) : bool :=
  (3 <=? count_char ";" line)%nat.

(** What the registry holds of a version read from a tag. *)
Definition registered (v : Version) : Prop :=
  exists creatordate sw_article_num sha1 tag_name,
    _creatordate v = Some creatordate
    /\ _sw_article_num v = Some sw_article_num
    /\ _sha1 v = Some sha1
    /\ _tag_name v = Some tag_name
    /\ In sw_article_num valid_sw_article_nums
    /\ parse_version_tag tag_name
       = ok (Some (sw_article_num, _major_ver v, _minor_ver v, _build_num v)).

(** The body of the loop of [get_versions_from_tags]. *)
Definition registry_step (versions : list Version) (line : string)
  : res (list Version) :=
  let split_line := Py.split ";" line in
  let? creatordate_field := Py.item split_line 0 in
  let? object_field := Py.item split_line 1 in
  let? objectname_field := Py.item split_line 2 in
  let? refname_field := Py.item split_line 3 in
  let sha1 := if negb (String.eqb object_field "")
              then object_field else objectname_field in
  let tag_name := Py.replace "refs/tags/" "" refname_field in
  let? parsed_tag := parse_version_tag tag_name in
  match parsed_tag with
  | Some (sw_article_num, major_ver, minor_ver, build_num) =>
      if is_sw_article_num_valid sw_article_num
      then ok (versions ++ [__init__ major_ver minor_ver build_num
                              (Some creatordate_field) (Some sw_article_num)
                              (Some sha1) (Some tag_name)])%list
      else ok versions
  | None => ok versions
  end.

(** [version.sha1 == head_sha1] and its negation, as tests on a version. *)
Definition on_head (head_sha1 : string) (version : Version) : bool :=
  sha1_is version head_sha1.

Definition off_head (head_sha1 : string) (version : Version) : bool :=
  negb (sha1_is version head_sha1).

(** The world after lines were printed. *)
Definition printed_all (lines : list string) (w : World) : World :=
  {| warning_msgs := warning_msgs w;
     files := files w;
     stdout := stdout w ++ lines;
     entered := entered w;
     requests := requests w ++ map Output lines |}.

(** What [main] prints after [run]. *)
Definition report (error_code : Z) (error_msg : option string)
    (warnings : list string) : list string :=
  (map (fun warning_msg => ("WARNING: " ++ warning_msg)%string) warnings
   ++ (if error_code =? 0 then []
       else [("ERROR: " ++ Py.str_opt error_msg)%string]))%list.

(** The order keys the skip check accepts above the most recent version
    with order key [m], for a head version of the given kind. *)
Definition successor_keys (head_version_kind : string) (m : Z) : list Z :=
  if String.eqb head_version_kind "release"
  then [m + 10000 - m mod 10000; m + 100 - m mod 100; m + 1]
  else [m + 100 - m mod 100; m + 1].

(** Repositories with one tag, 1.00.00 on commit c1: annotated with HEAD on
    it, lightweight with HEAD on it, and annotated with HEAD on another
    commit of a working tree with changes. *)
Definition sample_annotated_os : OS :=
  scripted_os [("10006000/V1_00_00", "c1", true)] "c1" "" "".

Definition sample_lightweight_os : OS :=
  scripted_os [("10006000/V1_00_00", "c1", false)] "c1" "" "".

Definition sample_untagged_os : OS :=
  scripted_os [("10006000/V1_00_00", "c1", true)] "c2" "diff --git a/f b/f" "".

(** The version the registry holds for that tag. *)
Definition sample_registered : Version :=
  __init__ 1 0 0 (Some "1600000000") (Some 10006000) (Some "c1")
    (Some "10006000/V1_00_00").

(** ** The checks, in the words of the properties *)

(** The texts of the other checks. *)
Definition multiple_versions_msg (version h0 : Version) : string :=
  "HEAD seems to be tagged with multiple versions. At least the tag "
  ++ Py.str_opt (_tag_name version) ++ " and " ++ Py.str_opt (_tag_name h0)
  ++ " have different versions.".

Definition lightweight_msg (head_version : Version) : string :=
  "You assigned a lightweight tag (" ++ Py.str_opt (_tag_name head_version)
  ++ ") to HEAD, you should use annotated tags (git tag -a)".

Definition stray_tags_msg (non_version_tags : list string) : string :=
  "HEAD was tagged with both version and non-version tags. Was this the intent? The non-version tags are: "
  ++ Py.repr_list non_version_tags.

(** The warning the skip check appends for a head version at or below the
    most recent previous version of its kind, when it appends one. *)
Definition skip_warning (head_version : Version) (prev_versions : list Version)
  : list string :=
  if __le__ head_version (most_recent_version (kind head_version) prev_versions)
  then [earlier_checkout_msg head_version
          (most_recent_version (kind head_version) prev_versions)]
  else [].

Definition is_skip_check (c : check * M unit) : bool :=
  match fst c with
  | SkippedAVersion => true
  | _ => false
  end.

(** The world after several requests. *)
Definition asked_all (asks : list request) (w : World) : World :=
  {| warning_msgs := warning_msgs w;
     files := files w;
     stdout := stdout w;
     entered := entered w;
     requests := requests w ++ asks |}.

(** The query for the object type of the tag of a head version, and what
    git answers to it when it is made after the requests [past] and after
    the queries for the head versions [before]. *)
Definition objecttype_request (head_version : Version) : request :=
  CommandLine (objecttype_cmd (Py.str_opt (_tag_name head_version))).

Definition objecttype_answer (os : OS) (past : list request)
    (before : list Version) (head_version : Version) : answer (Z * string) :=
  run_shell os (past ++ map objecttype_request before)
    (objecttype_cmd (Py.str_opt (_tag_name head_version))).

(** [parse_version_tag(tag) == None] *)
Definition is_nonversion_tag (tag : string) : bool :=
  match parse_version_tag tag with
  | inl None => true
  | _ => false
  end.

(** Frames: the warnings are as they were; requests are only ever
    appended. *)
Definition same_warnings (w w' : World) : Prop := warning_msgs w' = warning_msgs w.

Definition grown_requests (w w' : World) : Prop :=
  exists asks, requests w' = (requests w ++ asks)%list.

(** The exceptions a computation lets out are all of one sort. *)
Definition raises_only {A : Type} (P : exn -> Prop) (m : M A) : Prop :=
  forall w e w', m w = (raise e, w') -> P e.

(** The script's own error with a code from 1 to 5, a failed git command,
    or an exception of the library. *)
Definition check_error (e : exn) : Prop :=
  (exists error_code error_msg,
      1 <= error_code <= 5 /\ e = VersionTagError error_code error_msg)
  \/ (exists error_msg, e = CommandError error_msg)
  \/ (exists l, e = LibraryError l).

(** What the annotation check makes of git's answer about the tag of a
    head version: the exception it raises, if it raises one. *)
Definition objecttype_verdict (a : answer (Z * string)) (head_version : Version)
  : option exn :=
  match a with
  | inr e => Some (LibraryError e)
  | inl (returncode, process_stdout) =>
      if negb (returncode =? 0) then
        Some (CommandError
                ("Git failed while running 'for-each-ref --format="
                 ++ Py.quote ++ "%(objecttype)" ++ Py.quote ++ " refs/tags/"
                 ++ Py.str_opt (_tag_name head_version) ++ "'"))
      else if String.eqb (Py.strip process_stdout) "commit" then
        Some (VersionTagError 4 (lightweight_msg head_version))
      else None
  end.

(** Git answers about each of the head versions [before], queried one
    after the other after the requests [past], with an object type other
    than [commit]. *)
Definition all_annotated (os : OS) (past : list request) (before : list Version)
  : Prop :=
  forall earlier head_version later,
    before = (earlier ++ head_version :: later)%list ->
    exists process_stdout,
      objecttype_answer os past earlier head_version = inl (0, process_stdout)
      /\ Py.strip process_stdout <> "commit".

(** The request the stray-tag check makes. *)
Definition points_at_head : request := CommandLine "git tag --points-at HEAD".

(** What [run] does once the checks have passed in world [w]: it writes
    the header, prints the summary and returns code 0, no message and the
    warnings; writing or printing may raise instead, and then nothing
    after it is done. *)
Definition write_and_report (os : OS) (target_file content output : string)
    (w : World) : res (Z * option string * list string) * World :=
  match write_to os (requests w) target_file content with
  | inr e => (raise (LibraryError e), asked (FileWrite target_file content) w)
  | inl _ =>
      match print_out os (requests w ++ [FileWrite target_file content]) output with
      | inr e =>
          (raise (LibraryError e),
           asked (Output output) (written target_file content w))
      | inl _ =>
          (ok (0, None, warning_msgs w),
           printed output (written target_file content w))
      end
  end.

(** A repository with annotated tags 1.00.00 on commit c1 and 2.00.00 on
    commit c2, HEAD on c1, and a change staged in the index. *)
Definition sample_earlier_staged_os : OS :=
  scripted_os [("10006000/V1_00_00", "c1", true); ("10006000/V2_00_00", "c2", true)]
    "c1" "" "diff --git a/f b/f".

(** The world after warnings were appended, checks entered and requests
    made. *)
Definition noted (w : World) (warnings : list string) (checks : list check)
    (asks : list request) : World :=
  {| warning_msgs := warning_msgs w ++ warnings;
     files := files w;
     stdout := stdout w;
     entered := entered w ++ checks;
     requests := requests w ++ asks |}.

(** A computation that, started in [w], returns normally exactly when [P]
    holds, and then leaves [w']. *)
Definition decides_at (m : M unit) (w : World) (P : Prop) (w' : World) : Prop :=
  (fst (m w) = ok tt <-> P) /\ (P -> m w = (ok tt, w')).

(** The warning of the stray-tag check when git lists the tags on HEAD
    after the requests [past], if it appends one. *)
Definition stray_warning (os : OS) (past : list request) : list string :=
  match run_shell os past "git tag --points-at HEAD" with
  | inl (_, process_stdout) =>
      match filter is_nonversion_tag (Py.splitlines process_stdout) with
      | [] => []
      | stray => [stray_tags_msg stray]
      end
  | inr _ => []
  end.

(** [key] is the greatest of 0 and the order keys of the versions of
    [historical] that [is_kind] takes for kind [k]. *)
Definition most_recent_key (k : string) (historical : list Version) (key : Z)
  : Prop :=
  (key = 0
   \/ exists m, In m historical /\ holds (is_kind m k) = true /\ _version m = key)
  /\ 0 <= key
  /\ forall v, In v historical -> holds (is_kind v k) = true -> _version v <= key.

(** What the six checks ask of the versions on HEAD, the first of which is
    [h0], of the list [remaining] that [get_head_versions] leaves, of the
    two diffs and of git, when they start after the requests [past]. *)
Definition obeys_the_rules (os : OS) (past : list request)
    (remaining head_versions : list Version) (h0 : Version) (wt ix : string)
  : Prop :=
  (forall version, In version remaining -> _version version <> _version h0)
  /\ (exists key,
         most_recent_key (kind h0) remaining key
         /\ (_version h0 <= key \/ In (_version h0) (successor_keys (kind h0) key)))
  /\ all_annotated os past head_versions
  /\ (forall head_version,
         In head_version head_versions -> _version head_version = _version h0)
  /\ (wt = "" /\ ix = "")
  /\ exists process_stdout,
      run_shell os (past ++ map objecttype_request head_versions)
        "git tag --points-at HEAD"
      = inl (0, process_stdout).

(** The exceptions [run] lets through: an IndexError of the registry, a
    failed git command, or an exception of the library. *)
Definition passes_through_run (e : exn) : Prop :=
  e = IndexError
  \/ (exists error_msg, e = CommandError error_msg)
  \/ (exists l, e = LibraryError l).

(** The commands [get_head_sha1] and [get_head_has_local_changes] run. *)
Definition rev_list_argv : list string :=
  ["git"; "rev-list"; "--max-count=1"; "HEAD"].

(** Two worlds in which the same requests have been made and the same
    warnings are held, and which have added the same files, output and
    checks to the worlds [a] and [b] they come from. *)
Definition alike (a b w1 w2 : World) : Prop :=
  requests w1 = requests w2
  /\ warning_msgs w1 = warning_msgs w2
  /\ exists new_files output checks,
      files w1 = (files a ++ new_files)%list
      /\ files w2 = (files b ++ new_files)%list
      /\ stdout w1 = (stdout a ++ output)%list
      /\ stdout w2 = (stdout b ++ output)%list
      /\ entered w1 = (entered a ++ checks)%list
      /\ entered w2 = (entered b ++ checks)%list.

(** A computation that does the same in two such worlds. *)
Definition uniform {A : Type} (a b : World) (m : M A) : Prop :=
  forall w1 w2,
    alike a b w1 w2 ->
    fst (m w1) = fst (m w2) /\ alike a b (snd (m w1)) (snd (m w2)).

(** The repository of [sample_annotated_os] with the header tracked by
    git: once the header has been written, [git diff] reports it. *)
Definition sample_tracked_header_os : OS :=
  {| run_argv := run_argv sample_annotated_os;
     run_shell := fun past command =>
       if String.eqb command "git diff"
          && existsb (fun r => match r with
                               | FileWrite _ _ => true
                               | _ => false
                               end) past
       then inl (0, "diff --git a/SwPackageVersion.h b/SwPackageVersion.h")
       else run_shell sample_annotated_os past command;
     write_to := write_to sample_annotated_os;
     print_out := print_out sample_annotated_os |}.

(** * Properties *)

(** ** Strings *)

Section Strings.

Lemma append_assoc (s1 s2 s3 : string) : (s1 ++ s2) ++ s3 = s1 ++ (s2 ++ s3).
Proof. induction s1 as [| c s1 IH]; simpl; [reflexivity | rewrite IH; reflexivity]. Qed.

Lemma append_empty_r (s : string) : s ++ "" = s.
Proof. induction s as [| c s IH]; simpl; [reflexivity | rewrite IH; reflexivity]. Qed.

Lemma length_append (s1 s2 : string) :
  String.length (s1 ++ s2) = (String.length s1 + String.length s2)%nat.
Proof. induction s1 as [| c s1 IH]; simpl; [reflexivity | rewrite IH; reflexivity]. Qed.

Lemma substring_0_append (s1 s2 : string) :
  substring 0 (String.length s1) (s1 ++ s2) = s1.
Proof. induction s1 as [| c s1 IH]; simpl; [destruct s2 | rewrite IH]; reflexivity. Qed.

Lemma length_slice_to (n : nat) (s : string) :
  String.length (Py.slice_to n s) = Nat.min n (String.length s).
Proof.
  unfold Py.slice_to. revert s.
  induction n as [| n IH]; intros [| c s]; simpl; try reflexivity.
  rewrite IH. reflexivity.
Qed.

End Strings.

(** ** Version: comparisons *)

Section Comparisons.

Implicit Types a b c : Version.

Lemma eq_by_order_key a b : __eq__ a b = true <-> _version a = _version b.
Proof. unfold __eq__. apply Z.eqb_eq. Qed.

Lemma ne_by_order_key a b : __ne__ a b = true <-> _version a <> _version b.
Proof.
  unfold __ne__. rewrite negb_true_iff. apply Z.eqb_neq.
Qed.

Lemma lt_by_order_key a b : __lt__ a b = true <-> _version a < _version b.
Proof. unfold __lt__. apply Z.ltb_lt. Qed.

Lemma gt_by_order_key a b : __gt__ a b = true <-> _version b < _version a.
Proof.
  unfold __gt__. rewrite Z.gtb_ltb. apply Z.ltb_lt.
Qed.

Lemma le_by_order_key a b : __le__ a b = true <-> _version a <= _version b.
Proof. unfold __le__. apply Z.leb_le. Qed.

(** Exactly one of [a < b], [a == b], [a > b]. *)
Lemma lt_eq_gt_exclusive a b :
  (__lt__ a b = true /\ __eq__ a b = false /\ __gt__ a b = false)
  \/ (__lt__ a b = false /\ __eq__ a b = true /\ __gt__ a b = false)
  \/ (__lt__ a b = false /\ __eq__ a b = false /\ __gt__ a b = true).
Proof.
  unfold __lt__, __eq__, __gt__. rewrite Z.gtb_ltb.
  destruct (Z.ltb_spec (_version a) (_version b)),
           (Z.eqb_spec (_version a) (_version b)),
           (Z.ltb_spec (_version b) (_version a)); auto; lia.
Qed.

Lemma lt_transitive a b c :
  __lt__ a b = true -> __lt__ b c = true -> __lt__ a c = true.
Proof. rewrite !lt_by_order_key. lia. Qed.

(** Provenance plays no part: versions with the same three numbers
    compare alike whatever else they carry. *)
Lemma comparisons_ignore_provenance a a' b b' :
  _version a = _version a' -> _version b = _version b' ->
  __eq__ a b = __eq__ a' b' /\ __lt__ a b = __lt__ a' b'
  /\ __gt__ a b = __gt__ a' b' /\ __le__ a b = __le__ a' b'
  /\ __ne__ a b = __ne__ a' b'.
Proof.
  unfold __eq__, __lt__, __gt__, __le__, __ne__.
  intros -> ->. repeat split.
Qed.

(** C4. [a >= b] does not compare the order keys: whatever the two
    versions, evaluating it raises AttributeError, because [__ge__] reads
    the misspelt attribute [verison]. *)
Theorem ge_raises_attribute_error a b :
  __ge__ a b = raise (AttributeError "verison").
Proof. reflexivity. Qed.

End Comparisons.

(** ** Version: successor *)

Section Successor.

Lemma next_roll_major v :
  next v "roll_major"
  = ok (__init__ ((_version v + 10000 - _version v mod 10000) / 10000)
          ((_version v + 10000 - _version v mod 10000) mod 10000 / 100)
          ((_version v + 10000 - _version v mod 10000) mod 100)
          (_creatordate v) (_sw_article_num v) (_sha1 v) None).
Proof. reflexivity. Qed.

Lemma next_roll_minor v :
  next v "roll_minor"
  = ok (__init__ ((_version v + 100 - _version v mod 100) / 10000)
          ((_version v + 100 - _version v mod 100) mod 10000 / 100)
          ((_version v + 100 - _version v mod 100) mod 100)
          (_creatordate v) (_sw_article_num v) (_sha1 v) None).
Proof. reflexivity. Qed.

Lemma next_roll_build v :
  next v "roll_build"
  = ok (__init__ ((_version v + 1) / 10000)
          ((_version v + 1) mod 10000 / 100)
          ((_version v + 1) mod 100)
          (_creatordate v) (_sw_article_num v) (_sha1 v) None).
Proof. reflexivity. Qed.

(** Splitting a flat number into three and flattening again is the
    identity. *)
Lemma order_key_recomposed (k : Z) (d o s t : _) :
  _version (__init__ (k / 10000) (k mod 10000 / 100) (k mod 100) d o s t) = k.
Proof.
  unfold _version; simpl.
  pose proof (Z.div_mod k 10000 ltac:(lia)).
  pose proof (Z.div_mod (k mod 10000) 100 ltac:(lia)).
  assert (k mod 10000 mod 100 = k mod 100).
  { replace 10000 with (100 * 100) by lia.
    rewrite Z.rem_mul_r by lia.
    rewrite Z.add_mod, Z.mul_comm, Z.mod_mul by lia.
    rewrite Z.add_0_r, !Z.mod_mod by lia. reflexivity. }
  lia.
Qed.

Lemma split_in_range (k : Z) (d o s t : _) :
  0 <= k ->
  in_range (__init__ (k / 10000) (k mod 10000 / 100) (k mod 100) d o s t).
Proof.
  intros Hk. unfold in_range; simpl.
  pose proof (Z.mod_pos_bound k 10000 ltac:(lia)).
  pose proof (Z.mod_pos_bound k 100 ltac:(lia)).
  repeat split.
  - apply Z.div_pos; lia.
  - apply Z.div_pos; lia.
  - assert (k mod 10000 / 100 < 100) by (apply Z.div_lt_upper_bound; lia). lia.
  - lia.
  - lia.
Qed.

Lemma in_range_order_key_nonneg v : in_range v -> 0 <= _version v.
Proof. unfold in_range, _version. lia. Qed.

(** C5. For a version with in-range numbers and each of the three rolls,
    [next] returns the version whose order key is the next multiple of
    10000 (roll_major), of 100 (roll_minor) or of 1 (roll_build) strictly
    above the order key it started from; the three numbers of the result
    are that key split at 10000 and 100, so they are in range again; and
    [Version(1,99,99).next("roll_build")] is 2.00.00 with order key 20000. *)
Theorem next_rolls_order_key :
  (forall v roll step,
      in_range v -> In (roll, step) rolls ->
      exists v',
        next v roll = ok v'
        /\ _version v' mod step = 0
        /\ _version v < _version v' <= _version v + step
        /\ _major_ver v' = _version v' / 10000
        /\ _minor_ver v' = _version v' mod 10000 / 100
        /\ _build_num v' = _version v' mod 100
        /\ in_range v')
  /\ next (Version3 1 99 99) "roll_build" = ok (Version3 2 0 0)
  /\ _version (Version3 2 0 0) = 1 * 10000 + 99 * 100 + 99 + 1
  /\ _version (Version3 2 0 0) = 20000.
Proof.
  split; [| repeat split].
  intros v roll step Hv Hroll.
  pose proof (in_range_order_key_nonneg v Hv) as Hk.
  simpl in Hroll.
  assert (Hrest : forall k d o s t,
             0 <= k ->
             let v' := __init__ (k / 10000) (k mod 10000 / 100) (k mod 100) d o s t in
             _major_ver v' = _version v' / 10000
             /\ _minor_ver v' = _version v' mod 10000 / 100
             /\ _build_num v' = _version v' mod 100
             /\ in_range v').
  { intros k d o s t Hk0 v'. subst v'. rewrite order_key_recomposed.
    split; [reflexivity | split; [reflexivity | split; [reflexivity |]]].
    apply split_in_range; assumption. }
  destruct Hroll as [E | [E | [E | []]]]; inversion E; subst; clear E.
  - rewrite next_roll_major. eexists; split; [reflexivity |].
    pose proof (Z.mod_pos_bound (_version v) 10000 ltac:(lia)).
    pose proof (Z.div_mod (_version v) 10000 ltac:(lia)).
    split; [| split; [| apply Hrest; lia]]; rewrite order_key_recomposed.
    + replace (_version v + 10000 - _version v mod 10000)
        with ((_version v / 10000 + 1) * 10000) by lia.
      apply Z.mod_mul; lia.
    + lia.
  - rewrite next_roll_minor. eexists; split; [reflexivity |].
    pose proof (Z.mod_pos_bound (_version v) 100 ltac:(lia)).
    pose proof (Z.div_mod (_version v) 100 ltac:(lia)).
    split; [| split; [| apply Hrest; lia]]; rewrite order_key_recomposed.
    + replace (_version v + 100 - _version v mod 100)
        with ((_version v / 100 + 1) * 100) by lia.
      apply Z.mod_mul; lia.
    + lia.
  - rewrite next_roll_build. eexists; split; [reflexivity |].
    split; [| split; [| apply Hrest; lia]]; rewrite order_key_recomposed.
    + apply Z.mod_1_r.
    + lia.
Qed.

Lemma next_rolls_order_key_witness :
  in_range (Version3 1 99 99) /\ In ("roll_build", 1) rolls
  /\ exists v',
      next (Version3 1 99 99) "roll_build" = ok v'
      /\ _version v' mod 1 = 0
      /\ _version (Version3 1 99 99) < _version v' <= _version (Version3 1 99 99) + 1
      /\ _major_ver v' = _version v' / 10000
      /\ _minor_ver v' = _version v' mod 10000 / 100
      /\ _build_num v' = _version v' mod 100
      /\ in_range v'.
Proof.
  assert (Hr : in_range (Version3 1 99 99)) by (unfold in_range; simpl; lia).
  assert (Hi : In ("roll_build", 1) rolls) by (simpl; auto).
  split; [exact Hr | split; [exact Hi |]].
  exact (proj1 next_rolls_order_key (Version3 1 99 99) "roll_build" 1 Hr Hi).
Defined.

End Successor.

(** ** Version: kinds *)

Section Kinds.

Implicit Types v h : Version.

Lemma kind_cases v :
  (_version v < 900000 /\ kind v = "release")
  \/ (900000 <= _version v /\ kind v = "test").
Proof.
  unfold kind, first_test_version.
  destruct (Z.ltb_spec (_version v) 900000); [left | right]; auto.
Qed.

Lemma is_kind_release v :
  holds (is_kind v "release") = true <-> _version v < 900000.
Proof. unfold is_kind, first_test_version; simpl. apply Z.ltb_lt. Qed.

Lemma is_kind_test v :
  holds (is_kind v "test") = true <-> 900000 < _version v.
Proof.
  unfold is_kind, first_test_version; simpl. rewrite Z.gtb_ltb. apply Z.ltb_lt.
Qed.

(** For release versions the two classifications agree. *)
Lemma is_kind_release_iff_kind v :
  holds (is_kind v "release") = true <-> kind v = "release".
Proof.
  rewrite is_kind_release.
  destruct (kind_cases v) as [[Hlt Hk] | [Hge Hk]]; rewrite Hk; split;
    intros; try reflexivity; try lia; discriminate.
Qed.

(** A version at the boundary is of no kind for [is_kind], whatever the
    string asked for. *)
Lemma boundary_is_of_no_kind v k :
  _version v = 900000 -> holds (is_kind v k) = false.
Proof.
  intros Hv. unfold is_kind, first_test_version. rewrite Hv.
  destruct (String.eqb k "release"); [reflexivity |].
  destruct (String.eqb k "test"); reflexivity.
Qed.

End Kinds.

(** ** The search for the most recent previous version *)

Section MostRecent.

Variable k : string.

Lemma search_from (prev : list Version) (acc : Version) :
  let m := fold_left (search_step k) prev acc in
  (m = acc \/ (In m prev /\ holds (is_kind m k) = true))
  /\ _version acc <= _version m
  /\ (forall v, In v prev -> holds (is_kind v k) = true -> _version v <= _version m).
Proof.
  revert acc. induction prev as [| p prev IH]; intros acc; simpl.
  - split; [left; reflexivity | split; [lia | intros v []]].
  - destruct (IH (search_step k acc p)) as (Hwhere & Hacc & Hmax).
    assert (Hstep : _version acc <= _version (search_step k acc p)
                    /\ (holds (is_kind p k) = true -> _version p <= _version (search_step k acc p))
                    /\ (search_step k acc p = acc \/ (search_step k acc p = p /\ holds (is_kind p k) = true))).
    { unfold search_step.
      destruct (holds (is_kind p k)) eqn:Hk; simpl.
      - destruct (__gt__ p acc) eqn:Hgt.
        + apply gt_by_order_key in Hgt. repeat split; try lia. right; auto.
        + assert (~ _version acc < _version p).
          { intros Hc. apply gt_by_order_key in Hc. congruence. }
          repeat split; try lia. left; reflexivity.
      - repeat split; try lia; try discriminate. left; reflexivity. }
    destruct Hstep as (Hs1 & Hs2 & Hs3).
    split; [| split].
    + destruct Hwhere as [E | [Hin Hk]].
      * rewrite E. destruct Hs3 as [E' | [E' Hk]].
        -- left; assumption.
        -- right. rewrite E'. auto.
      * right; auto.
    + lia.
    + intros v [-> | Hin] Hk.
      * specialize (Hs2 Hk). lia.
      * apply Hmax; assumption.
Qed.

Lemma most_recent_found (prev : list Version) :
  let m := most_recent_version k prev in
  (m = Version3 0 0 0 \/ (In m prev /\ holds (is_kind m k) = true))
  /\ 0 <= _version m
  /\ (forall v, In v prev -> holds (is_kind v k) = true -> _version v <= _version m).
Proof. exact (search_from prev (Version3 0 0 0)). Qed.

(** The order key the search ends on is that of any greatest previous
    version of the kind. *)
Lemma most_recent_order_key (prev : list Version) (m : Version) :
  In m prev -> holds (is_kind m k) = true -> 0 <= _version m ->
  (forall v, In v prev -> holds (is_kind v k) = true -> _version v <= _version m) ->
  _version (most_recent_version k prev) = _version m.
Proof.
  intros Hin Hk Hpos Hmax.
  destruct (most_recent_found prev) as (Hwhere & Hnonneg & Hle).
  specialize (Hle m Hin Hk).
  destruct Hwhere as [E | [Hin' Hk']].
  - rewrite E in *. change (_version (Version3 0 0 0)) with 0 in *. lia.
  - specialize (Hmax _ Hin' Hk'). lia.
Qed.

(** Versions [is_kind] rejects play no part in the search. *)
Lemma search_skips_rejected (prev : list Version) (keep : Version -> bool) (acc : Version) :
  (forall v, In v prev -> keep v = false -> holds (is_kind v k) = false) ->
  fold_left (search_step k) prev acc = fold_left (search_step k) (filter keep prev) acc.
Proof.
  revert acc. induction prev as [| p prev IH]; intros acc Hrej; simpl.
  - reflexivity.
  - destruct (keep p) eqn:Hkeep; simpl.
    + apply IH. intros v Hv. apply Hrej. right; assumption.
    + assert (E : search_step k acc p = acc).
      { unfold search_step. rewrite (Hrej p (or_introl eq_refl) Hkeep). reflexivity. }
      rewrite E. apply IH. intros v Hv. apply Hrej. right; assumption.
Qed.

End MostRecent.

(** C10. A version whose order key is exactly 900000 has kind "test", yet
    [is_kind] returns a false value for it both for "test" and for
    "release"; so for a head version of test kind the search for the most
    recent previous version gives the same result with the previous versions
    of order key 900000 taken out, and never ends on such a version. *)
Theorem boundary_version_excluded_from_search :
  (forall v,
      _version v = 900000 ->
      kind v = "test"
      /\ is_kind v "test" = Some false
      /\ is_kind v "release" = Some false)
  /\ (forall h prev,
         kind h = "test" ->
         most_recent_version (kind h) prev
         = most_recent_version (kind h)
             (filter (fun v => negb (_version v =? 900000)) prev)
         /\ _version (most_recent_version (kind h) prev) <> 900000)
  /\ _version (Version3 90 0 0) = 900000.
Proof.
  split; [| split; [| reflexivity]].
  - intros v Hv. unfold kind, is_kind, first_test_version. rewrite Hv.
    repeat split.
  - intros h prev Hh. rewrite Hh. split.
    + unfold most_recent_version. apply search_skips_rejected.
      intros v _ Hkeep. apply boundary_is_of_no_kind.
      apply negb_false_iff in Hkeep. apply Z.eqb_eq in Hkeep. exact Hkeep.
    + destruct (most_recent_found "test" prev) as ([E | [_ Hk]] & _ & _).
      * rewrite E. discriminate.
      * apply is_kind_test in Hk. lia.
Qed.

Lemma boundary_version_excluded_from_search_witness :
  _version (Version3 90 0 0) = 900000
  /\ kind (Version3 90 0 1) = "test"
  /\ (kind (Version3 90 0 0) = "test"
      /\ is_kind (Version3 90 0 0) "test" = Some false
      /\ is_kind (Version3 90 0 0) "release" = Some false)
  /\ most_recent_version (kind (Version3 90 0 1)) [Version3 90 0 0; Version3 91 0 0]
     = most_recent_version (kind (Version3 90 0 1))
         (filter (fun v => negb (_version v =? 900000))
                 [Version3 90 0 0; Version3 91 0 0]).
Proof.
  assert (Hv : _version (Version3 90 0 0) = 900000) by reflexivity.
  assert (Hh : kind (Version3 90 0 1) = "test") by reflexivity.
  split; [exact Hv | split; [exact Hh | split]].
  - exact (proj1 boundary_version_excluded_from_search (Version3 90 0 0) Hv).
  - exact (proj1 (proj1 (proj2 boundary_version_excluded_from_search)
                    (Version3 90 0 1) [Version3 90 0 0; Version3 91 0 0] Hh)).
Defined.

(** ** Duplicate check *)

Section DuplicateCheck.

Lemma already_used_loop (h : Version) (e : exn) (prev : list Version) (w : World) :
  for_ prev (fun version => if __eq__ version h then throw e else ret tt) w
  = (if existsb (fun version => __eq__ version h) prev then raise e else ok tt, w).
Proof.
  induction prev as [| p prev IH]; simpl.
  - reflexivity.
  - unfold bind. destruct (__eq__ p h); simpl.
    + reflexivity.
    + exact IH.
Qed.

Lemma already_used_run (h : Version) (prev : list Version) (w : World) :
  check_head_version_already_used h prev w
  = (if existsb (fun version => __eq__ version h) prev
     then raise (VersionTagError 1
                   ("The version " ++ __str__ h ++ " has already been used"))
     else ok tt,
     entered_in AlreadyUsed w).
Proof.
  unfold check_head_version_already_used, bind at 1. simpl.
  apply already_used_loop.
Qed.

(** C2. With [h0 = head_versions[0]] of a non-empty head list, the
    duplicate check raises VersionTagError with code 1 if and only if some
    historical version has the order key of [h0]; otherwise it returns
    normally.  Only the order key counts: a historical version with the
    same three numbers is a duplicate whatever its tag name.  The check
    appends no warning. *)
Theorem duplicate_check_iff_same_order_key
    (head_versions historical : list Version) (h0 : Version) (w : World) :
  Py.item head_versions 0 = ok h0 ->
  let outcome := check_head_version_already_used h0 historical w in
  ((exists v, In v historical /\ _version v = _version h0)
   <-> exists msg, fst outcome = raise (VersionTagError 1 msg))
  /\ ((exists v, In v historical /\ _version v = _version h0)
      -> fst outcome
         = raise (VersionTagError 1
                    ("The version " ++ __str__ h0 ++ " has already been used")))
  /\ (~ (exists v, In v historical /\ _version v = _version h0)
      -> fst outcome = ok tt)
  /\ (forall v, In v historical ->
                _major_ver v = _major_ver h0 -> _minor_ver v = _minor_ver h0 ->
                _build_num v = _build_num h0 ->
                exists msg, fst outcome = raise (VersionTagError 1 msg))
  /\ warning_msgs (snd outcome) = warning_msgs w.
Proof.
  intros _ outcome. subst outcome. rewrite already_used_run. simpl.
  assert (Hex : existsb (fun version => __eq__ version h0) historical = true
                <-> exists v, In v historical /\ _version v = _version h0).
  { rewrite existsb_exists. split; intros (v & Hin & Hv); exists v; split; auto;
      apply eq_by_order_key; assumption. }
  destruct (existsb (fun version => __eq__ version h0) historical) eqn:Hdup.
  - assert (Hsome : exists v, In v historical /\ _version v = _version h0)
      by (apply Hex; reflexivity).
    split; [| split; [| split; [| split]]].
    + split; intros _; [eexists; reflexivity | exact Hsome].
    + reflexivity.
    + intros Hnone. contradiction.
    + intros; eexists; reflexivity.
    + reflexivity.
  - assert (Hnone : ~ exists v, In v historical /\ _version v = _version h0).
    { intros Hsome. apply Hex in Hsome. discriminate. }
    split; [| split; [| split; [| split]]].
    + split; [intros Hsome; contradiction | intros (msg & Hmsg); discriminate].
    + intros Hsome; contradiction.
    + reflexivity.
    + intros v Hin Hmaj Hmin Hb. exfalso. apply Hnone. exists v. split; auto.
      unfold _version. congruence.
    + reflexivity.
Qed.

(** Historical 1.00.00 under one tag name, head 1.00.00 under another. *)
Lemma duplicate_check_iff_same_order_key_witness :
  Py.item [sample_v1_c2] 0 = ok sample_v1_c2
  /\ fst (check_head_version_already_used sample_v1_c2 [sample_v1_c1] sample_world)
     = raise (VersionTagError 1 "The version 1.00.00 has already been used").
Proof.
  assert (Hitem : Py.item [sample_v1_c2] 0 = ok sample_v1_c2) by reflexivity.
  split; [exact Hitem |].
  apply (proj1 (proj2 (duplicate_check_iff_same_order_key
                         [sample_v1_c2] [sample_v1_c1] sample_v1_c2 sample_world Hitem))).
  exists sample_v1_c1. split; [left; reflexivity | reflexivity].
Defined.

End DuplicateCheck.


(** ** Skip check *)

Section SkipCheck.

Implicit Types h m v : Version.

Lemma next_is_rolled m :
  next m "roll_major" = ok (rolled m (_version m + 10000 - _version m mod 10000))
  /\ next m "roll_minor" = ok (rolled m (_version m + 100 - _version m mod 100))
  /\ next m "roll_build" = ok (rolled m (_version m + 1)).
Proof. repeat split. Qed.

Lemma rolled_order_key m n : _version (rolled m n) = n.
Proof. apply order_key_recomposed. Qed.

(** What [next] returns shows the same and compares the same whichever
    version of a given order key it started from. *)
Lemma rolled_str m m' n : __str__ (rolled m n) = __str__ (rolled m' n).
Proof. reflexivity. Qed.

Lemma contains_version_by_order_key h (l l' : list Version) :
  map _version l = map _version l' ->
  contains_version h l = contains_version h l'.
Proof.
  unfold contains_version.
  revert l'. induction l as [| x l IH]; intros [| x' l'] E; simpl in *;
    try discriminate; [reflexivity |].
  injection E as Ex El. rewrite (IH l' El). unfold __eq__. rewrite Ex. reflexivity.
Qed.

(** The check, one branch after the other. *)
Lemma skip_check_run h (prev : list Version) (w : World) :
  let m := most_recent_version (kind h) prev in
  let v_major := rolled m (_version m + 10000 - _version m mod 10000) in
  let v_minor := rolled m (_version m + 100 - _version m mod 100) in
  let v_build := rolled m (_version m + 1) in
  check_head_version_skipped_a_version h prev w
  = if __le__ h m then
      (ok tt, warned (earlier_checkout_msg h m) (entered_in SkippedAVersion w))
    else if String.eqb (kind h) "release" then
      (if negb (contains_version h [v_major; v_minor; v_build])
       then raise (VersionTagError 5 (skipped_release_msg v_major v_minor v_build))
       else ok tt,
       entered_in SkippedAVersion w)
    else
      (if negb (contains_version h [v_minor; v_build])
       then raise (VersionTagError 5 (skipped_test_msg v_minor v_build))
       else ok tt,
       entered_in SkippedAVersion w).
Proof.
  intros m v_major v_minor v_build.
  destruct (next_is_rolled m) as (N0 & N1 & N2).
  unfold check_head_version_skipped_a_version.
  cbv zeta. fold m. rewrite N0, N1, N2. fold v_major v_minor v_build.
  unfold bind at 1. unfold enter. cbv beta iota.
  destruct (__le__ h m) eqn:Hle; [reflexivity |].
  assert (Hgt : __gt__ h m = true).
  { apply gt_by_order_key.
    destruct (Z.le_gt_cases (_version h) (_version m)) as [Hc | Hc]; [| lia].
    apply le_by_order_key in Hc. congruence. }
  destruct (String.eqb (kind h) "release").
  - unfold bind, lift, ok. cbv beta iota. rewrite Hgt, Bool.andb_true_l.
    destruct (contains_version h [v_major; v_minor; v_build]); reflexivity.
  - unfold bind, lift, ok. cbv beta iota.
    destruct (contains_version h [v_minor; v_build]); reflexivity.
Qed.

(** Above the most recent version the outcome depends on the order key the
    search ended on, not on which version carries it. *)
Lemma skip_check_above h (prev : list Version) m (w : World) :
  _version (most_recent_version (kind h) prev) = _version m ->
  _version m < _version h ->
  let v_major := rolled m (_version m + 10000 - _version m mod 10000) in
  let v_minor := rolled m (_version m + 100 - _version m mod 100) in
  let v_build := rolled m (_version m + 1) in
  check_head_version_skipped_a_version h prev w
  = (if String.eqb (kind h) "release" then
       if contains_version h [v_major; v_minor; v_build] then ok tt
       else raise (VersionTagError 5 (skipped_release_msg v_major v_minor v_build))
     else
       if contains_version h [v_minor; v_build] then ok tt
       else raise (VersionTagError 5 (skipped_test_msg v_minor v_build)),
     entered_in SkippedAVersion w).
Proof.
  intros Hkey Hlt v_major v_minor v_build.
  rewrite skip_check_run. cbv zeta.
  set (mr := most_recent_version (kind h) prev) in *.
  assert (Hle : __le__ h mr = false).
  { destruct (__le__ h mr) eqn:E; [| reflexivity].
    apply le_by_order_key in E. lia. }
  rewrite Hle, Hkey.
  rewrite (contains_version_by_order_key h
             [rolled mr (_version m + 10000 - _version m mod 10000);
              rolled mr (_version m + 100 - _version m mod 100);
              rolled mr (_version m + 1)] [v_major; v_minor; v_build])
    by (simpl; unfold v_major, v_minor, v_build; rewrite !rolled_order_key; reflexivity).
  rewrite (contains_version_by_order_key h
             [rolled mr (_version m + 100 - _version m mod 100);
              rolled mr (_version m + 1)] [v_minor; v_build])
    by (simpl; unfold v_major, v_minor, v_build; rewrite !rolled_order_key; reflexivity).
  destruct (String.eqb (kind h) "release").
  - destruct (contains_version h [v_major; v_minor; v_build]); reflexivity.
  - destruct (contains_version h [v_minor; v_build]); reflexivity.
Qed.

Lemma release_by_either_classification (historical : list Version) m :
  most_recent_of_kind "release" historical m ->
  most_recent_by_is_kind "release" historical m.
Proof.
  intros (Hin & Hk & Hmax). split; [exact Hin | split].
  - apply is_kind_release_iff_kind; exact Hk.
  - intros v Hv Hvk. apply Hmax; [exact Hv |].
    apply is_kind_release_iff_kind; exact Hvk.
Qed.

(** Above the most recent historical version [m] of its kind, a head
    version [h] of release kind passes the skip check when it is one of
    [m.next("roll_major")], [m.next("roll_minor")], [m.next("roll_build")],
    and otherwise raises VersionTagError with code 5, its message listing
    the three.  For [h] of test kind and [m] the greatest historical
    version that [is_kind] takes for a test version (order key above
    900000), the same holds with [m.next("roll_minor")] and
    [m.next("roll_build")] only.  With most recent release 1.01.00, head
    1.03.00 fails with code 5 and the message lists 2.00.00, 1.02.00,
    1.01.01, and head 1.02.00 passes. *)
Lemma skip_check_accepts_successors_of_most_recent :
  (forall h historical m w,
      kind h = "release" ->
      most_recent_of_kind "release" historical m -> in_range m ->
      __gt__ h m = true ->
      exists v0 v1 v2,
        next m "roll_major" = ok v0 /\ next m "roll_minor" = ok v1
        /\ next m "roll_build" = ok v2
        /\ (contains_version h [v0; v1; v2] = true ->
            check_head_version_skipped_a_version h historical w
            = (ok tt, entered_in SkippedAVersion w))
        /\ (contains_version h [v0; v1; v2] = false ->
            check_head_version_skipped_a_version h historical w
            = (raise (VersionTagError 5 (skipped_release_msg v0 v1 v2)),
               entered_in SkippedAVersion w)))
  /\ (forall h historical m w,
         kind h = "test" ->
         most_recent_by_is_kind "test" historical m ->
         __gt__ h m = true ->
         exists v1 v2,
           next m "roll_minor" = ok v1 /\ next m "roll_build" = ok v2
           /\ (contains_version h [v1; v2] = true ->
               check_head_version_skipped_a_version h historical w
               = (ok tt, entered_in SkippedAVersion w))
           /\ (contains_version h [v1; v2] = false ->
               check_head_version_skipped_a_version h historical w
               = (raise (VersionTagError 5 (skipped_test_msg v1 v2)),
                  entered_in SkippedAVersion w)))
  /\ (forall historical m w,
         most_recent_of_kind "release" historical m ->
         _major_ver m = 1 -> _minor_ver m = 1 -> _build_num m = 0 ->
         (forall h, _major_ver h = 1 -> _minor_ver h = 3 -> _build_num h = 0 ->
                    check_head_version_skipped_a_version h historical w
                    = (raise (VersionTagError 5
                                "You skipped a release version, the next version should be either 2.00.00, 1.02.00, or 1.01.01."),
                       entered_in SkippedAVersion w))
         /\ (forall h, _major_ver h = 1 -> _minor_ver h = 2 -> _build_num h = 0 ->
                       check_head_version_skipped_a_version h historical w
                       = (ok tt, entered_in SkippedAVersion w))).
Proof.
  split; [| split].
  - intros h historical m w Hh Hm Hrange Hgt.
    apply gt_by_order_key in Hgt.
    apply release_by_either_classification in Hm. destruct Hm as (Hin & Hk & Hmax).
    pose proof (most_recent_order_key "release" historical m Hin Hk
                  (in_range_order_key_nonneg m Hrange) Hmax) as Hkey.
    rewrite <- Hh in Hkey.
    pose proof (skip_check_above h historical m w Hkey Hgt) as Hrun.
    cbv zeta in Hrun. rewrite Hh in Hrun. simpl String.eqb in Hrun.
    destruct (next_is_rolled m) as (N0 & N1 & N2).
    do 3 eexists. split; [exact N0 | split; [exact N1 | split; [exact N2 |]]].
    split; intros Hc; rewrite Hc in Hrun; exact Hrun.
  - intros h historical m w Hh (Hin & Hk & Hmax) Hgt.
    apply gt_by_order_key in Hgt.
    assert (Hpos : 0 <= _version m) by (apply is_kind_test in Hk; lia).
    pose proof (most_recent_order_key "test" historical m Hin Hk Hpos Hmax) as Hkey.
    rewrite <- Hh in Hkey.
    pose proof (skip_check_above h historical m w Hkey Hgt) as Hrun.
    cbv zeta in Hrun. rewrite Hh in Hrun. simpl String.eqb in Hrun.
    destruct (next_is_rolled m) as (N0 & N1 & N2).
    do 2 eexists. split; [exact N1 | split; [exact N2 |]].
    split; intros Hc; rewrite Hc in Hrun; exact Hrun.
  - intros historical m w Hm Hmaj Hmin Hb.
    assert (Hkm : _version m = 10100) by (unfold _version; lia).
    assert (Hrange : in_range m) by (unfold in_range; lia).
    apply release_by_either_classification in Hm. destruct Hm as (Hin & Hk & Hmax).
    pose proof (most_recent_order_key "release" historical m Hin Hk
                  (in_range_order_key_nonneg m Hrange) Hmax) as Hkey.
    split; intros h Hhmaj Hhmin Hhb.
    + assert (Hkh : _version h = 10300) by (unfold _version; lia).
      assert (Hh : kind h = "release")
        by (unfold kind, first_test_version; rewrite Hkh; reflexivity).
      rewrite <- Hh in Hkey.
      rewrite (skip_check_above h historical m w Hkey ltac:(lia)).
      rewrite Hh. unfold contains_version, __eq__. simpl existsb.
      rewrite !rolled_order_key, Hkh, Hkm. reflexivity.
    + assert (Hkh : _version h = 10200) by (unfold _version; lia).
      assert (Hh : kind h = "release")
        by (unfold kind, first_test_version; rewrite Hkh; reflexivity).
      rewrite <- Hh in Hkey.
      rewrite (skip_check_above h historical m w Hkey ltac:(lia)).
      rewrite Hh. unfold contains_version, __eq__. simpl existsb.
      rewrite !rolled_order_key, Hkh, Hkm. reflexivity.
Qed.

(** Head 1.02.00 after 1.01.00 passes; head 91.03.00 after 91.01.00 is
    refused. *)
Lemma skip_check_accepts_successors_of_most_recent_example :
  (kind (Version3 1 2 0) = "release"
   /\ most_recent_of_kind "release" [Version3 1 0 0; Version3 1 1 0] (Version3 1 1 0)
   /\ in_range (Version3 1 1 0)
   /\ __gt__ (Version3 1 2 0) (Version3 1 1 0) = true
   /\ check_head_version_skipped_a_version (Version3 1 2 0)
        [Version3 1 0 0; Version3 1 1 0] sample_world
      = (ok tt, entered_in SkippedAVersion sample_world))
  /\ (kind (Version3 91 3 0) = "test"
      /\ most_recent_by_is_kind "test" [Version3 91 0 0; Version3 91 1 0] (Version3 91 1 0)
      /\ __gt__ (Version3 91 3 0) (Version3 91 1 0) = true
      /\ check_head_version_skipped_a_version (Version3 91 3 0)
           [Version3 91 0 0; Version3 91 1 0] sample_world
         = (raise (VersionTagError 5
                     "You skipped a test version, the next version should be either 91.02.00 or 91.01.01."),
            entered_in SkippedAVersion sample_world)).
Proof.
  assert (Hk : kind (Version3 1 2 0) = "release") by reflexivity.
  assert (Hm : most_recent_of_kind "release" [Version3 1 0 0; Version3 1 1 0]
                 (Version3 1 1 0)).
  { split; [simpl; auto | split; [reflexivity |]].
    intros v [<- | [<- | []]] _; vm_compute; discriminate. }
  assert (Hr : in_range (Version3 1 1 0)) by (unfold in_range; simpl; lia).
  assert (Hgt : __gt__ (Version3 1 2 0) (Version3 1 1 0) = true) by reflexivity.
  assert (Hk' : kind (Version3 91 3 0) = "test") by reflexivity.
  assert (Hm' : most_recent_by_is_kind "test" [Version3 91 0 0; Version3 91 1 0]
                  (Version3 91 1 0)).
  { split; [simpl; auto | split; [reflexivity |]].
    intros v [<- | [<- | []]] _; vm_compute; discriminate. }
  assert (Hgt' : __gt__ (Version3 91 3 0) (Version3 91 1 0) = true) by reflexivity.
  split.
  - split; [exact Hk | split; [exact Hm | split; [exact Hr | split; [exact Hgt |]]]].
    destruct (proj1 skip_check_accepts_successors_of_most_recent
                (Version3 1 2 0) [Version3 1 0 0; Version3 1 1 0] (Version3 1 1 0)
                sample_world Hk Hm Hr Hgt)
      as (v0 & v1 & v2 & N0 & N1 & N2 & Hyes & _).
    apply Hyes.
    injection N0 as <-. injection N1 as <-. injection N2 as <-. reflexivity.
  - split; [exact Hk' | split; [exact Hm' | split; [exact Hgt' |]]].
    destruct (proj1 (proj2 skip_check_accepts_successors_of_most_recent)
                (Version3 91 3 0) [Version3 91 0 0; Version3 91 1 0] (Version3 91 1 0)
                sample_world Hk' Hm' Hgt')
      as (v1 & v2 & N1 & N2 & _ & Hno).
    injection N1 as <-. injection N2 as <-.
    apply Hno. reflexivity.
Defined.

(** The rule of the successors, read with the most recent historical
    version of kind "test" as [kind] classifies, fails for the test
    lineage: with 90.00.00 the only, hence the most recent, historical
    version of kind "test", head 90.00.01 is [m.next("roll_build")] and yet
    is refused. *)
Lemma skip_check_test_kind_refused :
  ~ (forall h historical m w,
        kind h = "test" ->
        most_recent_of_kind "test" historical m ->
        __gt__ h m = true ->
        exists v1 v2,
          next m "roll_minor" = ok v1 /\ next m "roll_build" = ok v2
          /\ (contains_version h [v1; v2] = true ->
              check_head_version_skipped_a_version h historical w
              = (ok tt, entered_in SkippedAVersion w))).
Proof.
  intros claim.
  assert (Hm : most_recent_of_kind "test" [Version3 90 0 0] (Version3 90 0 0)).
  { split; [simpl; auto | split; [reflexivity |]].
    intros v [<- | []] _; vm_compute; discriminate. }
  destruct (claim (Version3 90 0 1) [Version3 90 0 0] (Version3 90 0 0) sample_world
              eq_refl Hm eq_refl)
    as (v1 & v2 & N1 & N2 & Hyes).
  injection N1 as <-. injection N2 as <-.
  specialize (Hyes eq_refl). vm_compute in Hyes. discriminate Hyes.
Qed.

(** C1.  The first test version, 90.00.00, is of kind "test" and is the
    most recent historical version of that kind when it is the only tag;
    90.00.01 is of kind "test", is above it and is its
    [next("roll_build")].  The skip check refuses it all the same: the
    search for the most recent version asks [is_kind], which takes 90.00.00
    for neither kind, so the search ends on 0.00.00 and the check raises
    code 5 naming 0.01.00 and 0.00.01.  A repository with annotated tags
    90.00.00 on an earlier commit and 90.00.01 on HEAD makes [run] return
    that error.  The same holds for 90.01.00, the [next("roll_minor")].
    For the release lineage the rule holds as it is stated: with 1.01.00
    the most recent release, head 1.03.00 is refused with code 5 naming
    2.00.00, 1.02.00 and 1.01.01, and head 1.02.00 passes. *)
Theorem skip_check_refuses_successor_of_first_test_version :
  kind (Version3 90 0 0) = "test"
  /\ most_recent_of_kind "test" [Version3 90 0 0] (Version3 90 0 0)
  /\ kind (Version3 90 0 1) = "test"
  /\ __gt__ (Version3 90 0 1) (Version3 90 0 0) = true
  /\ (exists v1 v2,
         next (Version3 90 0 0) "roll_minor" = ok v1
         /\ next (Version3 90 0 0) "roll_build" = ok v2
         /\ __str__ v1 = "90.01.00" /\ __str__ v2 = "90.00.01"
         /\ __eq__ (Version3 90 1 0) v1 = true
         /\ __eq__ (Version3 90 0 1) v2 = true
         /\ contains_version (Version3 90 0 1) [v1; v2] = true
         /\ contains_version (Version3 90 1 0) [v1; v2] = true)
  /\ holds (is_kind (Version3 90 0 0) "test") = false
  /\ holds (is_kind (Version3 90 0 0) "release") = false
  /\ most_recent_version "test" [Version3 90 0 0] = Version3 0 0 0
  /\ (forall w,
         check_head_version_skipped_a_version (Version3 90 0 1) [Version3 90 0 0] w
         = (raise (VersionTagError 5
                     "You skipped a test version, the next version should be either 0.01.00 or 0.00.01."),
            entered_in SkippedAVersion w))
  /\ (forall w,
         check_head_version_skipped_a_version (Version3 90 1 0) [Version3 90 0 0] w
         = (raise (VersionTagError 5
                     "You skipped a test version, the next version should be either 0.01.00 or 0.00.01."),
            entered_in SkippedAVersion w))
  /\ fst (run (scripted_os [("10006000/V90_00_00", "c1", true);
                            ("10006000/V90_00_01", "c2", true)] "c2" "" "")
            "SwPackageVersion.h" sample_world)
     = ok (5,
           Some "You skipped a test version, the next version should be either 0.01.00 or 0.00.01.",
           [])
  /\ (forall w,
         check_head_version_skipped_a_version (Version3 1 3 0)
           [Version3 1 0 0; Version3 1 1 0] w
         = (raise (VersionTagError 5
                     "You skipped a release version, the next version should be either 2.00.00, 1.02.00, or 1.01.01."),
            entered_in SkippedAVersion w))
  /\ (forall w,
         check_head_version_skipped_a_version (Version3 1 2 0)
           [Version3 1 0 0; Version3 1 1 0] w
         = (ok tt, entered_in SkippedAVersion w)).
Proof.
  split; [reflexivity |].
  split.
  { split; [simpl; auto | split; [reflexivity |]].
    intros v [<- | []] _; vm_compute; discriminate. }
  split; [reflexivity |].
  split; [reflexivity |].
  split.
  { do 2 eexists. repeat split; reflexivity. }
  split; [reflexivity |].
  split; [reflexivity |].
  split; [reflexivity |].
  split; [intros w; rewrite skip_check_run; reflexivity |].
  split; [intros w; rewrite skip_check_run; reflexivity |].
  split; [vm_compute; reflexivity |].
  split; intros w; rewrite skip_check_run; reflexivity.
Qed.

End SkipCheck.


(** ** Earlier checkout *)

Section EarlierCheckout.

Implicit Types h m v : Version.

Lemma same_numbers a b :
  in_range a -> in_range b -> _version a = _version b ->
  _major_ver a = _major_ver b /\ _minor_ver a = _minor_ver b
  /\ _build_num a = _build_num b.
Proof. unfold in_range, _version. lia. Qed.

Lemma str_by_order_key a b :
  in_range a -> in_range b -> _version a = _version b -> __str__ a = __str__ b.
Proof.
  intros Ha Hb E. destruct (same_numbers a b Ha Hb E) as (E1 & E2 & E3).
  unfold __str__. rewrite E1, E2, E3. reflexivity.
Qed.

Lemma most_recent_in_range (k : string) (historical : list Version) :
  (forall v, In v historical -> in_range v) ->
  in_range (most_recent_version k historical).
Proof.
  intros Hall. destruct (most_recent_found k historical) as ([E | [Hin _]] & _ & _).
  - rewrite E. unfold in_range; simpl; lia.
  - apply Hall; exact Hin.
Qed.


End EarlierCheckout.

(** ** The monad *)

Section MonadLaws.

Context {A B : Type}.

Lemma bind_ok (m : M A) (f : A -> M B) (w w' : World) (a : A) :
  m w = (ok a, w') -> bind m f w = f a w'.
Proof. intros E. unfold bind. rewrite E. reflexivity. Qed.

Lemma bind_raise (m : M A) (f : A -> M B) (w w' : World) (e : exn) :
  m w = (raise e, w') -> bind m f w = (raise e, w').
Proof. intros E. unfold bind. rewrite E. reflexivity. Qed.

Lemma bind_inv (m : M A) (f : A -> M B) (w w' : World) (r : res B) :
  bind m f w = (r, w') ->
  (exists a w1, m w = (ok a, w1) /\ f a w1 = (r, w'))
  \/ (exists e, m w = (raise e, w') /\ r = raise e).
Proof.
  unfold bind. destruct (m w) as [[a | e] w1] eqn:E; intros H.
  - left. exists a, w1. split; [reflexivity | exact H].
  - right. exists e. injection H as <- <-. split; reflexivity.
Qed.

End MonadLaws.

Lemma bind_lift_ok {A B : Type} (a : A) (f : A -> M B) (w : World) :
  bind (lift (ok a)) f w = f a w.
Proof. reflexivity. Qed.

Lemma bind_ret_r (m : M unit) (w : World) : bind m (fun _ => ret tt) w = m w.
Proof. unfold bind, ret. destruct (m w) as [[[] | e] w']; reflexivity. Qed.

Lemma bind_ext {A B : Type} (m : M A) (f g : A -> M B) (w : World) :
  (forall a w', f a w' = g a w') -> bind m f w = bind m g w.
Proof. intros E. unfold bind. destruct (m w) as [[a | e] w']; [apply E | reflexivity]. Qed.

(** ** Output *)

Section Output.

Variable os : OS.

Lemma write_file_done (path content : string) (w : World) :
  write_to os (requests w) path content = inl tt ->
  write_file os path content w = (ok tt, written path content w).
Proof. intros E. unfold write_file. rewrite E. reflexivity. Qed.

Lemma write_file_failed (path content : string) (w : World) (e : library_error) :
  write_to os (requests w) path content = inr e ->
  write_file os path content w
  = (raise (LibraryError e), asked (FileWrite path content) w).
Proof. intros E. unfold write_file. rewrite E. reflexivity. Qed.

Lemma print_done (output : string) (w : World) :
  print_out os (requests w) output = inl tt ->
  print os output w = (ok tt, printed output w).
Proof. intros E. unfold print. rewrite E. reflexivity. Qed.

Lemma print_failed (output : string) (w : World) (e : library_error) :
  print_out os (requests w) output = inr e ->
  print os output w = (raise (LibraryError e), asked (Output output) w).
Proof. intros E. unfold print. rewrite E. reflexivity. Qed.

(** All [write_version_file] does is write the header. *)
Lemma write_version_file_run (target_file : string)
    (head_versions : option (list Version)) (head_sha1 wt ix : string) (w : World) :
  head_versions <> Some [] ->
  write_version_file os target_file head_versions head_sha1 wt ix w
  = write_file os target_file
      (version_file_content (fst (header_numbers head_versions))
         (snd (header_numbers head_versions)) (revisionhash head_sha1 wt ix)) w.
Proof.
  intros Hne. destruct head_versions as [[| h0 rest] |]; [congruence | |]; reflexivity.
Qed.

Lemma print_version_information_run (versions : list Version)
    (head_versions : option (list Version)) (head_sha1 : string) (w : World) :
  head_versions <> Some [] ->
  print_version_information os versions head_versions head_sha1 w
  = print os (summary head_versions head_sha1) w.
Proof.
  intros Hne. destruct head_versions as [[| h0 rest] |]; [congruence | |]; reflexivity.
Qed.

End Output.

Section Header.

Lemma version_file_content_lines (major_ver minor_ver : Z) (hash : string) :
  version_file_content major_ver minor_ver hash
  = String.concat Py.nl (header_lines major_ver minor_ver hash).
Proof.
  unfold version_file_content, header_lines. cbn [String.concat].
  rewrite !append_assoc. reflexivity.
Qed.

(** C9. All [write_version_file] does is write, to the target file, the
    header: the five banner lines, the two guard lines, then
    [#define SW_VER_MAJOR] and [#define SW_VER_MINOR] with the major and
    minor numbers of [head_versions[0]] (90 and 0 when there are no head
    versions), then [#define SW_REVISIONHASH] holding, between double
    quotes, the first twelve characters of the commit id when working tree
    and index are both clean and [+] followed by the whole commit id when
    either is dirty, then [#endif].  On success the file holds exactly
    that text; when the file cannot be written, the exception of the
    library is raised and the script has written nothing.  For head
    version 2.01.00 and commit abc123abc123 the three version lines are as
    the spec gives them. *)
Theorem write_version_file_writes_header :
  (forall os target_file head_versions head_sha1 wt ix w,
      head_versions <> Some [] ->
      exists major_ver minor_ver hash,
        write_version_file os target_file head_versions head_sha1 wt ix w
        = match write_to os (requests w) target_file
                  (String.concat Py.nl (header_lines major_ver minor_ver hash)) with
          | inl _ =>
              (ok tt,
               written target_file
                 (String.concat Py.nl (header_lines major_ver minor_ver hash)) w)
          | inr e =>
              (raise (LibraryError e),
               asked (FileWrite target_file
                        (String.concat Py.nl (header_lines major_ver minor_ver hash)))
                 w)
          end
        /\ (forall h0 rest, head_versions = Some (h0 :: rest) ->
                            major_ver = _major_ver h0 /\ minor_ver = _minor_ver h0)
        /\ (head_versions = None -> major_ver = 90 /\ minor_ver = 0)
        /\ (wt = "" -> ix = "" ->
            hash = substring 0 12 head_sha1
            /\ ((12 <= String.length head_sha1)%nat -> String.length hash = 12%nat))
        /\ (wt <> "" \/ ix <> "" -> hash = "+" ++ head_sha1))
  /\ (forall os target_file rest w u,
         write_to os (requests w) target_file
           (String.concat Py.nl
              [ "//--------------------------------------------------------------------------------------------------";
                "// Notes:";
                ("// This file is autogenerated by the Python script " ++ Py.quote
                   ++ "version_from_tag.py" ++ Py.quote
                   ++ " invoked during building.")%string;
                "// Do not edit this file as changes will be overwritten during building.";
                "//--------------------------------------------------------------------------------------------------";
                "#ifndef _SWPACKAGEVERSION_H_";
                "#define _SWPACKAGEVERSION_H_";
                "#define SW_VER_MAJOR 2";
                "#define SW_VER_MINOR 1";
                ("#define SW_REVISIONHASH " ++ Py.quote ++ "abc123abc123"
                   ++ Py.quote)%string;
                "#endif" ])
         = inl u ->
         files (snd (write_version_file os target_file
                       (Some (Version3 2 1 0 :: rest)) "abc123abc123" "" "" w))
         = (files w
           ++ [(target_file,
                String.concat Py.nl
                  [ "//--------------------------------------------------------------------------------------------------";
                    "// Notes:";
                    ("// This file is autogenerated by the Python script " ++ Py.quote
                       ++ "version_from_tag.py" ++ Py.quote
                       ++ " invoked during building.")%string;
                    "// Do not edit this file as changes will be overwritten during building.";
                    "//--------------------------------------------------------------------------------------------------";
                    "#ifndef _SWPACKAGEVERSION_H_";
                    "#define _SWPACKAGEVERSION_H_";
                    "#define SW_VER_MAJOR 2";
                    "#define SW_VER_MINOR 1";
                    ("#define SW_REVISIONHASH " ++ Py.quote ++ "abc123abc123"
                       ++ Py.quote)%string;
                    "#endif" ])])%list).
Proof.
  split.
  - intros os target_file head_versions head_sha1 wt ix w Hne.
    exists (fst (header_numbers head_versions)), (snd (header_numbers head_versions)),
           (revisionhash head_sha1 wt ix).
    split; [| split; [| split; [| split]]].
    + rewrite write_version_file_run by exact Hne.
      rewrite version_file_content_lines. reflexivity.
    + intros h0 rest ->. split; reflexivity.
    + intros ->. split; reflexivity.
    + intros -> ->. split; [reflexivity |].
      intros Hlen. unfold revisionhash. simpl.
      rewrite length_slice_to. apply Nat.min_l. exact Hlen.
    + intros Hdirty. unfold revisionhash.
      destruct wt as [| c wt]; simpl; [| reflexivity].
      destruct ix as [| c ix]; simpl; [| reflexivity].
      destruct Hdirty as [H | H]; contradiction H; reflexivity.
  - intros os target_file rest w u E.
    rewrite write_version_file_run by discriminate.
    rewrite version_file_content_lines. unfold write_file.
    change (String.concat Py.nl
              (header_lines (fst (header_numbers (Some (Version3 2 1 0 :: rest))))
                 (snd (header_numbers (Some (Version3 2 1 0 :: rest))))
                 (revisionhash "abc123abc123" "" "")))
      with (String.concat Py.nl
              [ "//--------------------------------------------------------------------------------------------------";
                "// Notes:";
                ("// This file is autogenerated by the Python script " ++ Py.quote
                   ++ "version_from_tag.py" ++ Py.quote
                   ++ " invoked during building.")%string;
                "// Do not edit this file as changes will be overwritten during building.";
                "//--------------------------------------------------------------------------------------------------";
                "#ifndef _SWPACKAGEVERSION_H_";
                "#define _SWPACKAGEVERSION_H_";
                "#define SW_VER_MAJOR 2";
                "#define SW_VER_MINOR 1";
                ("#define SW_REVISIONHASH " ++ Py.quote ++ "abc123abc123"
                   ++ Py.quote)%string;
                "#endif" ]).
    rewrite E. reflexivity.
Qed.

Lemma write_version_file_writes_header_witness :
  Some [Version3 2 1 0] <> Some []
  /\ exists major_ver minor_ver hash,
      write_version_file quiet_os "SwPackageVersion.h" (Some [Version3 2 1 0])
        "abc123abc123abc123abc123abc123abc123abcd" "" "" sample_world
      = (ok tt,
         written "SwPackageVersion.h"
           (String.concat Py.nl (header_lines major_ver minor_ver hash)) sample_world)
      /\ major_ver = 2 /\ minor_ver = 1 /\ hash = "abc123abc123".
Proof.
  assert (Hne : Some [Version3 2 1 0] <> Some (@nil Version)) by discriminate.
  split; [exact Hne |].
  destruct (proj1 write_version_file_writes_header quiet_os "SwPackageVersion.h"
              (Some [Version3 2 1 0]) "abc123abc123abc123abc123abc123abc123abcd"
              "" "" sample_world Hne)
    as (major_ver & minor_ver & hash & Hrun & Hsome & _ & Hclean & _).
  exists major_ver, minor_ver, hash.
  destruct (Hsome _ _ eq_refl) as [Hmaj Hmin].
  destruct (Hclean eq_refl eq_refl) as [Hhash _].
  split; [exact Hrun | split; [exact Hmaj | split; [exact Hmin | exact Hhash]]].
Defined.

End Header.

(** ** Head versions *)

Section HeadVersions.

Variable head_sha1 : string.

Lemma collect_is_filter (versions acc : list Version) :
  fold_left (fun head_versions version =>
               if sha1_is version head_sha1
               then (head_versions ++ [version])%list else head_versions)
            versions acc
  = (acc ++ filter (fun version => sha1_is version head_sha1) versions)%list.
Proof.
  revert acc. induction versions as [| v versions IH]; intros acc; simpl.
  - symmetry. apply app_nil_r.
  - rewrite IH. destruct (sha1_is v head_sha1); [| reflexivity].
    rewrite <- app_assoc. reflexivity.
Qed.

Lemma count_order_key_cons (k : Z) (v : Version) (l : list Version) :
  count_order_key k (v :: l)
  = ((if (_version v =? k)%Z then 1 else 0) + count_order_key k l)%nat.
Proof. unfold count_order_key. simpl. destruct (_version v =? k); reflexivity. Qed.

Lemma count_order_key_filter (k : Z) (keep : Version -> bool) (l : list Version) :
  (count_order_key k (filter keep l) <= count_order_key k l)%nat.
Proof.
  induction l as [| v l IH]; simpl; [apply Nat.le_refl |].
  destruct (keep v); rewrite ?count_order_key_cons; lia.
Qed.

(** [remove] succeeds as soon as some item has the order key looked for,
    and takes exactly one such item away. *)
Lemma list_remove_counts (x : Version) (l : list Version) :
  (0 < count_order_key (_version x) l)%nat ->
  exists l',
    list_remove x l = ok l'
    /\ forall k, count_order_key k l
                 = ((if (_version x =? k)%Z then 1 else 0) + count_order_key k l')%nat.
Proof.
  induction l as [| v l IH]; intros Hpos.
  - inversion Hpos.
  - simpl. unfold __eq__. destruct (Z.eqb_spec (_version v) (_version x)) as [E | N].
    + exists l. split; [reflexivity |]. intros k.
      rewrite count_order_key_cons, E. reflexivity.
    + rewrite count_order_key_cons in Hpos.
      destruct (Z.eqb_spec (_version v) (_version x)); [contradiction |].
      destruct (IH Hpos) as (l' & El & Hcount).
      exists (v :: l'). split; [rewrite El; reflexivity |].
      intros k. rewrite !count_order_key_cons, (Hcount k). lia.
Qed.

Lemma removals_succeed (hs cur : list Version) :
  (forall k, (count_order_key k hs <= count_order_key k cur)%nat) ->
  exists cur',
    rfold (fun versions head_version => list_remove head_version versions) hs cur
    = ok cur'.
Proof.
  revert cur. induction hs as [| hv hs IH]; intros cur Hle; simpl.
  - exists cur. reflexivity.
  - assert (Hpos : (0 < count_order_key (_version hv) cur)%nat).
    { specialize (Hle (_version hv)). rewrite count_order_key_cons, Z.eqb_refl in Hle.
      lia. }
    destruct (list_remove_counts hv cur Hpos) as (cur1 & E1 & Hc).
    rewrite E1. simpl. apply IH. intros k.
    specialize (Hle k). rewrite count_order_key_cons, (Hc k) in Hle. lia.
Qed.

(** The head list is right, and the function never raises. *)
Lemma get_head_versions_head (versions : list Version) :
  exists remaining,
    get_head_versions versions head_sha1
    = ok (match filter (fun version => sha1_is version head_sha1) versions with
          | [] => None
          | matching => Some matching
          end, remaining).
Proof.
  unfold get_head_versions. rewrite collect_is_filter. simpl.
  destruct (filter (fun version => sha1_is version head_sha1) versions) as [| hv hs] eqn:E.
  - exists versions. reflexivity.
  - change (0 <? Z.of_nat (List.length (hv :: hs))) with true. cbv iota.
    destruct (removals_succeed (hv :: hs) versions) as (cur' & Er).
    { intros k. rewrite <- E. apply count_order_key_filter. }
    exists cur'. rewrite Er. reflexivity.
Qed.

(** Removing heads in order undoes the collection when no version off
    HEAD shares an order key with a version on HEAD. *)
Lemma removals_skip_other_keys (x : Version) (hs cur : list Version) :
  (forall hv, In hv hs -> _version x <> _version hv) ->
  rfold (fun versions head_version => list_remove head_version versions) hs (x :: cur)
  = let? r := rfold (fun versions head_version => list_remove head_version versions)
                hs cur in
    ok (x :: r).
Proof.
  revert cur. induction hs as [| hv hs IH]; intros cur Hne; simpl.
  - reflexivity.
  - unfold __eq__ at 1.
    destruct (Z.eqb_spec (_version x) (_version hv)) as [E | _].
    + exfalso. apply (Hne hv); [left; reflexivity | exact E].
    + destruct (list_remove hv cur) as [cur1 | e]; simpl; [| reflexivity].
      apply IH. intros hv' Hin. apply Hne. right; exact Hin.
Qed.

Lemma get_head_versions_partition (versions : list Version) :
  (forall a b, In a versions -> In b versions ->
               sha1_is a head_sha1 = true -> sha1_is b head_sha1 = false ->
               _version b <> _version a) ->
  filter (fun version => sha1_is version head_sha1) versions <> [] ->
  get_head_versions versions head_sha1
  = ok (Some (filter (fun version => sha1_is version head_sha1) versions),
        filter (fun version => negb (sha1_is version head_sha1)) versions).
Proof.
  intros Hkeys Hsome.
  unfold get_head_versions. rewrite collect_is_filter. simpl.
  destruct (filter (fun version => sha1_is version head_sha1) versions) as [| hv hs] eqn:E; [contradiction |].
  change (0 <? Z.of_nat (List.length (hv :: hs))) with true. cbv iota.
  rewrite <- E. clear E Hsome hv hs.
  assert (Hrem :
    rfold (fun versions head_version => list_remove head_version versions)
          (filter (fun version => sha1_is version head_sha1) versions) versions
    = ok (filter (fun version => negb (sha1_is version head_sha1)) versions)).
  { induction versions as [| v versions IH]; [reflexivity |].
    simpl filter. destruct (sha1_is v head_sha1) eqn:Hv; simpl negb; cbv iota.
    - simpl. unfold __eq__ at 1. rewrite Z.eqb_refl. apply IH.
      intros a b Ha Hb. apply Hkeys; right; assumption.
    - rewrite removals_skip_other_keys.
      + rewrite IH; [reflexivity |].
        intros a b Ha Hb. apply Hkeys; right; assumption.
      + intros hv Hin. apply filter_In in Hin. destruct Hin as [Hin Hhv].
        apply (Hkeys hv v); [right; exact Hin | left; reflexivity | exact Hhv | exact Hv]. }
  rewrite Hrem. reflexivity.
Qed.

End HeadVersions.

(** C7. The head list is the versions on HEAD, in order; the list left
    behind is not always the versions off HEAD.  With 1.00.00 tagged on
    commit c1 and again, under another tag name, on HEAD c2, [remove] takes
    out the first item equal to the head version, and equality is by order
    key: the version of c1 goes, the one on HEAD stays among the historical
    versions. *)
Theorem get_head_versions_removes_by_order_key :
  get_head_versions [sample_v1_c1; sample_v1_c2] "c2"
  = ok (Some [sample_v1_c2], [sample_v1_c2])
  /\ sha1_is sample_v1_c2 "c2" = true
  /\ sha1_is sample_v1_c1 "c2" = false
  /\ filter (fun version => negb (sha1_is version "c2")) [sample_v1_c1; sample_v1_c2]
     = [sample_v1_c1].
Proof. repeat split. Qed.

(** ** The matcher is sound for the declarative semantics *)

Section RegexSoundness.

Lemma consumed_append (p rest : string) : Re.consumed (p ++ rest) rest = p.
Proof.
  unfold Re.consumed. rewrite length_append, Nat.add_sub. apply substring_0_append.
Qed.

Lemma run_sound {A : Type} (r : Re.regex) :
  forall (s : string) (caps : Re.captures) (k : string -> Re.captures -> option A)
         (a : A),
    Re.run r s caps k = Some a ->
    exists p rest caps',
      s = p ++ rest /\ Re.matches r p caps caps' /\ k rest caps' = Some a.
Proof.
  induction r as [| c | lo hi | r1 IH1 r2 IH2 | r IH | r IH n | i r IH];
    intros s caps k a H; simpl in H.
  - exists "", s, caps. split; [reflexivity | split; [constructor | exact H]].
  - destruct s as [| c' s']; [discriminate |].
    destruct (Ascii.eqb_spec c c') as [<- | _]; [| discriminate].
    exists (String c ""), s', caps. split; [reflexivity | split; [constructor | exact H]].
  - destruct s as [| c' s']; [discriminate |].
    destruct (Re.in_rng lo hi c') eqn:Hc; [| discriminate].
    exists (String c' ""), s', caps.
    split; [reflexivity | split; [constructor; exact Hc | exact H]].
  - destruct (IH1 _ _ _ _ H) as (p1 & rest1 & caps1 & -> & M1 & H1).
    destruct (IH2 _ _ _ _ H1) as (p2 & rest & caps2 & -> & M2 & H2).
    exists (p1 ++ p2), rest, caps2.
    split; [symmetry; apply append_assoc | split; [econstructor; eassumption | exact H2]].
  - destruct (Re.run r s caps k) as [a' |] eqn:E.
    + injection H as <-.
      destruct (IH _ _ _ _ E) as (p & rest & caps' & -> & M & Hk).
      exists p, rest, caps'.
      split; [reflexivity | split; [apply Re.m_opt_some; exact M | exact Hk]].
    + exists "", s, caps.
      split; [reflexivity | split; [apply Re.m_opt_none | exact H]].
  - revert s caps H. induction n as [| n IHn]; intros s caps H.
    + exists "", s, caps. split; [reflexivity | split; [constructor | exact H]].
    + destruct (IH _ _ _ _ H) as (p1 & rest1 & caps1 & -> & M1 & H1).
      destruct (IHn _ _ H1) as (p2 & rest & caps2 & -> & M2 & H2).
      exists (p1 ++ p2), rest, caps2.
      split; [symmetry; apply append_assoc
             | split; [econstructor; eassumption | exact H2]].
  - destruct (IH _ _ _ _ H) as (p & rest & caps1 & -> & M & Hk).
    rewrite consumed_append in Hk.
    exists p, rest, ((i, p) :: caps1).
    split; [reflexivity | split; [constructor; exact M | exact Hk]].
Qed.

(** What [match_] returns are the captures of a match of some prefix. *)
Lemma match_sound (r : Re.regex) (s : string) (caps : Re.captures) :
  Re.match_ r s = Some caps ->
  exists p rest, s = p ++ rest /\ Re.matches r p [] caps.
Proof.
  intros H. destruct (run_sound r s [] _ caps H) as (p & rest & caps' & E & M & Hk).
  injection Hk as <-. exists p, rest. split; assumption.
Qed.


End RegexSoundness.

(** ** Tag parsing *)

Section TagParsing.

Lemma digits_value_total (s : string) :
  forall acc, all_digits s = true -> exists n, Py.digits_value acc s = Some n.
Proof.
  induction s as [| c s IH]; intros acc H; simpl in *.
  - exists acc. reflexivity.
  - apply andb_true_iff in H. destruct H as [Hc Hs]. rewrite Hc. apply IH. exact Hs.
Qed.

(** [int] does not raise on a non-empty string of digits. *)
Lemma int_total (s : string) :
  s <> "" -> all_digits s = true -> exists n, Py.int s = ok n.
Proof.
  intros Hne H. destruct s as [| c s]; [contradiction |].
  unfold Py.int. destruct (digits_value_total (String c s) 0 H) as [n E].
  rewrite E. exists n. reflexivity.
Qed.

Lemma digit_of_rng (c : ascii) : Re.in_rng "0" "9" c = true -> Py.is_digit c = true.
Proof. intros H. exact H. Qed.

Lemma digit_of_rng_1_9 (c : ascii) : Re.in_rng "1" "9" c = true -> Py.is_digit c = true.
Proof.
  unfold Re.in_rng, Py.is_digit.
  change (nat_of_ascii "1") with 49%nat. change (nat_of_ascii "9") with 57%nat.
  cbv zeta. intros H. apply andb_true_iff in H. destruct H as [H1 H2].
  apply andb_true_iff. split; [| exact H2].
  apply Nat.leb_le in H1. apply Nat.leb_le. lia.
Qed.

Ltac invert_matches :=
  repeat match goal with
    | H : Re.matches (Re.Cat _ _) _ _ _ |- _ => inversion H; subst; clear H
    | H : Re.matches (Re.Grp _ _) _ _ _ |- _ => inversion H; subst; clear H
    | H : Re.matches (Re.Rep _ _) _ _ _ |- _ => inversion H; subst; clear H
    | H : Re.matches (Re.Opt _) _ _ _ |- _ => inversion H; subst; clear H
    | H : Re.matches (Re.Chr _) _ _ _ |- _ => inversion H; subst; clear H
    | H : Re.matches (Re.Rng _ _) _ _ _ |- _ => inversion H; subst; clear H
    | H : Re.matches Re.Eps _ _ _ |- _ => inversion H; subst; clear H
    end.

Ltac digits_known :=
  repeat match goal with
    | H : Re.in_rng "0" "9" _ = true |- _ => apply digit_of_rng in H
    | H : Re.in_rng "1" "9" _ = true |- _ => apply digit_of_rng_1_9 in H
    end.

Ltac digits_true :=
  cbn -[Py.is_digit];
  repeat match goal with
    | H : Py.is_digit ?c = true |- context [Py.is_digit ?c] => rewrite H
    end;
  reflexivity.

Ltac choose_template :=
  apply existsb_exists;
  first [ exists (shape_template 1 false); split; [simpl; tauto | solve [digits_true]]
        | exists (shape_template 1 true); split; [simpl; tauto | solve [digits_true]]
        | exists (shape_template 2 false); split; [simpl; tauto | solve [digits_true]]
        | exists (shape_template 2 true); split; [simpl; tauto | solve [digits_true]] ].

(** Whatever the pattern matches in full has the recognized shape, and the
    groups it captures convert to numbers. *)
Lemma version_tag_match (p : string) (caps : Re.captures) :
  Re.matches version_tag_regex p [] caps ->
  tag_shape p = true
  /\ exists t,
      (let groups := Re.groups version_tag_regex "00" caps in
       let? g0 := Py.item groups 0 in
       let? sw_article_num := Py.int g0 in
       let? g1 := Py.item groups 1 in
       let? major_ver := Py.int g1 in
       let? g2 := Py.item groups 2 in
       let? minor_ver := Py.int g2 in
       let? g4 := Py.item groups 4 in
       let? build_num := Py.int g4 in
       ok (Some (sw_article_num, major_ver, minor_ver, build_num)))
      = ok (Some t).
Proof.
  intros H. cbv [version_tag_regex Re.lit] in H.
  invert_matches; digits_known.
  all: split; [choose_template |].
  all: cbn -[Py.int Py.is_digit].
  all: repeat match goal with
         | |- context [Py.int ?s] =>
             let n := fresh "n" in
             let E := fresh "E" in
             destruct (int_total s) as [n E];
             [discriminate | solve [digits_true] | rewrite E; cbn [rbind]]
         end.
  all: eexists; reflexivity.
Qed.

Lemma parse_version_tag_cases (s : string) :
  (Re.match_ version_tag_regex s = None /\ parse_version_tag s = ok None)
  \/ (exists p rest t,
         s = p ++ rest /\ tag_shape p = true /\ parse_version_tag s = ok (Some t)).
Proof.
  unfold parse_version_tag.
  destruct (Re.match_ version_tag_regex s) as [caps |] eqn:E.
  - right. destruct (match_sound _ _ _ E) as (p & rest & Es & M).
    destruct (version_tag_match p caps M) as (Hshape & t & Ht).
    exists p, rest, t. split; [exact Es | split; [exact Hshape | exact Ht]].
  - left. split; reflexivity.
Qed.




End TagParsing.

(** ** Version *)

Section VersionFurther.

Implicit Types a b c v : Version.

(** X1. The five comparison operators that work compare order keys and
    nothing else: [!=] is the negation of [==], [>] is [<] with the sides
    exchanged, [<=] is [<] or [==]; exactly one of [a < b], [a == b],
    [a > b] holds; [<] is transitive; versions that agree on their order
    keys compare alike whatever their provenance. *)
Theorem working_comparisons_order_by_key a b c :
  (__eq__ a b = true <-> _version a = _version b)
  /\ (__lt__ a b = true <-> _version a < _version b)
  /\ __ne__ a b = negb (__eq__ a b)
  /\ __gt__ a b = __lt__ b a
  /\ __le__ a b = (__lt__ a b || __eq__ a b)
  /\ ((__lt__ a b = true /\ __eq__ a b = false /\ __gt__ a b = false)
      \/ (__lt__ a b = false /\ __eq__ a b = true /\ __gt__ a b = false)
      \/ (__lt__ a b = false /\ __eq__ a b = false /\ __gt__ a b = true))
  /\ (__lt__ a b = true -> __lt__ b c = true -> __lt__ a c = true)
  /\ (forall a' b',
         _version a = _version a' -> _version b = _version b' ->
         __eq__ a b = __eq__ a' b' /\ __lt__ a b = __lt__ a' b'
         /\ __gt__ a b = __gt__ a' b' /\ __le__ a b = __le__ a' b'
         /\ __ne__ a b = __ne__ a' b').
Proof.
  split; [apply eq_by_order_key |].
  split; [apply lt_by_order_key |].
  split; [reflexivity |].
  split; [unfold __gt__, __lt__; apply Z.gtb_ltb |].
  split.
  { unfold __le__, __lt__, __eq__.
    destruct (Z.leb_spec (_version a) (_version b)),
             (Z.ltb_spec (_version a) (_version b)),
             (Z.eqb_spec (_version a) (_version b)); simpl; auto; lia. }
  split; [apply lt_eq_gt_exclusive |].
  split; [apply lt_transitive |].
  intros a' b'. apply comparisons_ignore_provenance.
Qed.

Lemma working_comparisons_order_by_key_witness :
  __lt__ (Version3 1 0 0) (Version3 1 2 0) = true
  /\ __lt__ (Version3 1 2 0) sample_v1_c2 = false
  /\ __lt__ (Version3 1 0 0) (Version3 2 0 0) = true
  /\ __eq__ sample_v1_c1 sample_v1_c2 = __eq__ (Version3 1 0 0) (Version3 1 0 0).
Proof.
  split; [reflexivity | split; [reflexivity | split]].
  - exact (proj1 (proj2 (proj2 (proj2 (proj2 (proj2 (proj2
             (working_comparisons_order_by_key
                (Version3 1 0 0) (Version3 1 2 0) (Version3 2 0 0))))))))
             eq_refl eq_refl).
  - exact (proj1 (proj2 (proj2 (proj2 (proj2 (proj2 (proj2 (proj2
             (working_comparisons_order_by_key sample_v1_c1 sample_v1_c2
                sample_v1_c1))))))) (Version3 1 0 0) (Version3 1 0 0)
             eq_refl eq_refl)).
Defined.

(** X2. For versions with in-range numbers, [==] holds exactly when the
    three numbers coincide, and then both print alike. *)
Theorem equal_in_range_iff_same_numbers a b :
  in_range a -> in_range b ->
  (__eq__ a b = true
   <-> (_major_ver a = _major_ver b /\ _minor_ver a = _minor_ver b
        /\ _build_num a = _build_num b))
  /\ (__eq__ a b = true -> __str__ a = __str__ b).
Proof.
  intros Ha Hb. split.
  - rewrite eq_by_order_key. split.
    + apply same_numbers; assumption.
    + intros (E1 & E2 & E3). unfold _version. rewrite E1, E2, E3. reflexivity.
  - intros E. apply str_by_order_key; try assumption.
    apply eq_by_order_key; exact E.
Qed.

Lemma equal_in_range_iff_same_numbers_witness :
  in_range sample_v1_c1 /\ in_range sample_v1_c2
  /\ __eq__ sample_v1_c1 sample_v1_c2 = true
  /\ __str__ sample_v1_c1 = __str__ sample_v1_c2.
Proof.
  assert (H1 : in_range sample_v1_c1) by (unfold in_range; simpl; lia).
  assert (H2 : in_range sample_v1_c2) by (unfold in_range; simpl; lia).
  split; [exact H1 | split; [exact H2 | split; [reflexivity |]]].
  exact (proj2 (equal_in_range_iff_same_numbers sample_v1_c1 sample_v1_c2 H1 H2)
           eq_refl).
Defined.

(** X3. [next] raises UnboundLocalError for any roll other than the three
    it knows.  For those it always returns: the result keeps creation
    date, article number and commit id and has no tag name, and the three
    successors are ordered, build first: [v < next(roll_build) <=
    next(roll_minor) <= next(roll_major)]. *)
Theorem next_unknown_roll_and_successor_order v :
  (forall roll,
      roll <> "roll_major" -> roll <> "roll_minor" -> roll <> "roll_build" ->
      next v roll = raise (UnboundLocalError "next_ver"))
  /\ exists v_build v_minor v_major,
      next v "roll_build" = ok v_build
      /\ next v "roll_minor" = ok v_minor
      /\ next v "roll_major" = ok v_major
      /\ _version v < _version v_build
      /\ _version v_build <= _version v_minor
      /\ _version v_minor <= _version v_major
      /\ Forall (fun v' => _creatordate v' = _creatordate v
                           /\ _sw_article_num v' = _sw_article_num v
                           /\ _sha1 v' = _sha1 v /\ _tag_name v' = None)
                [v_build; v_minor; v_major].
Proof.
  split.
  - intros roll H1 H2 H3. unfold next.
    apply String.eqb_neq in H1, H2, H3. rewrite H1, H2, H3. reflexivity.
  - destruct (next_is_rolled v) as (N0 & N1 & N2).
    do 3 eexists.
    split; [exact N2 | split; [exact N1 | split; [exact N0 |]]].
    rewrite !rolled_order_key.
    pose proof (Z.mod_pos_bound (_version v) 100 ltac:(lia)).
    pose proof (Z.mod_pos_bound (_version v) 10000 ltac:(lia)).
    pose proof (Z.div_mod (_version v) 100 ltac:(lia)).
    pose proof (Z.div_mod (_version v) 10000 ltac:(lia)).
    assert (Hdiv : _version v / 100 = 100 * (_version v / 10000)
                                      + _version v mod 10000 / 100).
    { replace 10000 with (100 * 100) by lia.
      rewrite <- Z.div_div by lia.
      pose proof (Z.div_mod (_version v / 100) 100 ltac:(lia)) as Hd.
      rewrite Z.rem_mul_r by lia.
      rewrite (Z.mul_comm 100 ((_version v / 100) mod 100)), Z.div_add by lia.
      rewrite (Z.div_small (_version v mod 100) 100) by lia. lia. }
    assert (_version v mod 10000 / 100 < 100)
      by (apply Z.div_lt_upper_bound; lia).
    split; [lia | split; [lia | split; [lia |]]].
    repeat constructor.
Qed.

Lemma next_unknown_roll_and_successor_order_witness :
  "roll_patch" <> "roll_major" /\ "roll_patch" <> "roll_minor"
  /\ "roll_patch" <> "roll_build"
  /\ next sample_v1_c1 "roll_patch" = raise (UnboundLocalError "next_ver").
Proof.
  assert (H1 : "roll_patch" <> "roll_major") by discriminate.
  assert (H2 : "roll_patch" <> "roll_minor") by discriminate.
  assert (H3 : "roll_patch" <> "roll_build") by discriminate.
  split; [exact H1 | split; [exact H2 | split; [exact H3 |]]].
  exact (proj1 (next_unknown_roll_and_successor_order sample_v1_c1)
           "roll_patch" H1 H2 H3).
Defined.

End VersionFurther.

(** ** Tag parsing, further *)

Section ParseFurther.

Lemma int_unfold (c : ascii) (s : string) :
  Py.int (String c s)
  = match Py.digits_value 0 (String c s) with
    | Some n => ok n
    | None => raise (ValueError "invalid literal for int()")
    end.
Proof. reflexivity. Qed.

Lemma digits_value_step (acc : Z) (c : ascii) (s : string) :
  Py.is_digit c = true ->
  Py.digits_value acc (String c s) = Py.digits_value (acc * 10 + digit_val c) s.
Proof. intros H. simpl. rewrite H. reflexivity. Qed.

Lemma digits_value_nil (acc : Z) : Py.digits_value acc "" = Some acc.
Proof. reflexivity. Qed.

Lemma digit_val_bounds (c : ascii) : Py.is_digit c = true -> 0 <= digit_val c <= 9.
Proof.
  unfold Py.is_digit, digit_val. cbv zeta. intros H.
  apply andb_true_iff in H. destruct H as [H1 H2].
  apply Nat.leb_le in H1, H2. lia.
Qed.

Lemma digit_val_0 : digit_val "0" = 0.
Proof. reflexivity. Qed.

Lemma digit_val_1 : digit_val "1" = 1.
Proof. reflexivity. Qed.

Ltac invert_matches :=
  repeat match goal with
    | H : Re.matches (Re.Cat _ _) _ _ _ |- _ => inversion H; subst; clear H
    | H : Re.matches (Re.Grp _ _) _ _ _ |- _ => inversion H; subst; clear H
    | H : Re.matches (Re.Rep _ _) _ _ _ |- _ => inversion H; subst; clear H
    | H : Re.matches (Re.Opt _) _ _ _ |- _ => inversion H; subst; clear H
    | H : Re.matches (Re.Chr _) _ _ _ |- _ => inversion H; subst; clear H
    | H : Re.matches (Re.Rng _ _) _ _ _ |- _ => inversion H; subst; clear H
    | H : Re.matches Re.Eps _ _ _ |- _ => inversion H; subst; clear H
    end.

Ltac digits_known :=
  repeat match goal with
    | H : Re.in_rng "0" "9" _ = true |- _ => apply digit_of_rng in H
    | H : Re.in_rng "1" "9" _ = true |- _ => apply digit_of_rng_1_9 in H
    end.

Ltac digit_bounds :=
  repeat match goal with
    | H : Py.is_digit ?c = true |- _ =>
        pose proof (digit_val_bounds c H); clear H
    end.

Lemma parsed_numbers_bounded (s : string) (sw major minor build : Z) :
  parse_version_tag s = ok (Some (sw, major, minor, build)) ->
  10000000 <= sw <= 10009999 /\ 0 <= major <= 99 /\ 0 <= minor <= 99
  /\ 0 <= build <= 99.
Proof.
  unfold parse_version_tag.
  destruct (Re.match_ version_tag_regex s) as [caps |] eqn:E; [| discriminate].
  destruct (match_sound _ _ _ E) as (p & rest & _ & M). clear E.
  cbv [version_tag_regex Re.lit] in M.
  invert_matches; digits_known.
  all: cbn -[Py.int Py.is_digit].
  all: rewrite !int_unfold.
  all: rewrite !digits_value_step by (first [assumption | reflexivity]).
  all: rewrite !digits_value_nil.
  all: unfold rbind, ok; cbv beta iota.
  all: match goal with
       | |- inl (Some (?e1, ?e2, ?e3, ?e4)) = _ -> _ =>
           remember e1 as x1 eqn:X1; remember e2 as x2 eqn:X2;
           remember e3 as x3 eqn:X3; remember e4 as x4 eqn:X4
       end.
  all: intros H; injection H as <- <- <- <-.
  all: rewrite ?digit_val_0, ?digit_val_1 in *.
  all: digit_bounds.
  all: lia.
Qed.

(** X4. The numbers of a parsed tag are bounded by the digits the pattern
    allows: the article number lies between 10000000 and 10009999, and
    major, minor and build number between 0 and 99; so a version built
    from them has in-range numbers and an order key from 0 to 999999. *)
Theorem parse_version_tag_bounds (s : string) (sw major minor build : Z) :
  parse_version_tag s = ok (Some (sw, major, minor, build)) ->
  (10000000 <= sw <= 10009999 /\ 0 <= major <= 99 /\ 0 <= minor <= 99
   /\ 0 <= build <= 99)
  /\ in_range (Version3 major minor build)
  /\ 0 <= _version (Version3 major minor build) <= 999999.
Proof.
  intros H.
  destruct (parsed_numbers_bounded s sw major minor build H)
    as (Hsw & Hmajor & Hminor & Hbuild).
  split; [repeat split; lia |].
  split; [unfold in_range; simpl; lia | unfold _version; simpl; lia].
Qed.

Lemma parse_version_tag_bounds_witness :
  parse_version_tag "10006030/V91_07_45-rc" = ok (Some (10006030, 91, 7, 45))
  /\ (10000000 <= 10006030 <= 10009999 /\ 0 <= 91 <= 99 /\ 0 <= 7 <= 99
      /\ 0 <= 45 <= 99)
  /\ in_range (Version3 91 7 45)
  /\ 0 <= _version (Version3 91 7 45) <= 999999.
Proof.
  assert (H : parse_version_tag "10006030/V91_07_45-rc"
              = ok (Some (10006030, 91, 7, 45))) by reflexivity.
  split; [exact H |].
  exact (parse_version_tag_bounds "10006030/V91_07_45-rc" 10006030 91 7 45 H).
Defined.


Ltac digits_true :=
  cbn -[Py.is_digit];
  repeat match goal with
    | H : Py.is_digit ?c = true |- context [Py.is_digit ?c] => rewrite H
    end;
  reflexivity.


Lemma consumed_cons (a : ascii) (s rest : string) :
  (String.length rest <= String.length s)%nat ->
  Re.consumed (String a s) rest = String a (Re.consumed s rest).
Proof.
  intros H. unfold Re.consumed. simpl String.length.
  rewrite Nat.sub_succ_l by exact H. reflexivity.
Qed.

Lemma consumed_same (s : string) : Re.consumed s s = "".
Proof. unfold Re.consumed. rewrite Nat.sub_diag. destruct s; reflexivity. Qed.

Lemma is_digit_underscore : Py.is_digit "_" = false.
Proof. reflexivity. Qed.

Ltac to_is_digit :=
  repeat match goal with
    | |- context [Re.in_rng "0" "9" ?c] =>
        change (Re.in_rng "0" "9" c) with (Py.is_digit c)
    end.

Ltac eval_match :=
  repeat (cbn -[Re.in_rng Re.consumed Py.int Py.is_digit Ascii.eqb];
          to_is_digit;
          repeat match goal with
            | H : Py.is_digit ?c = _ |- context [Py.is_digit ?c] => rewrite H
            | H : Re.in_rng "1" "9" ?c = _ |- context [Re.in_rng "1" "9" ?c] => rewrite H
            | H : Ascii.eqb "_" ?c = _ |- context [Ascii.eqb "_" ?c] => rewrite H
            end;
          rewrite ?is_digit_underscore, ?Ascii.eqb_refl).

Ltac eval_consumed :=
  repeat match goal with
    | |- context [Re.consumed (String ?a ?s) ?r] =>
        rewrite (consumed_cons a s r) by (cbn [String.length]; lia)
    end;
  rewrite ?consumed_same.

(** X5. A string that begins with [1000] and four digits, [/V], a major
    number of one digit or of two digits the first of which is not 0, an
    underscore and two digits parses to the numbers these digits spell,
    whatever follows them.  The build is the number spelled by two digits
    after a further underscore, and 0 when what follows is anything else. *)
Theorem parse_version_tag_complete (c1 c2 c3 c4 n1 n2 : ascii) (major rest : string) :
  Forall (fun c => Py.is_digit c = true) [c1; c2; c3; c4; n1; n2] ->
  major_text major = true ->
  exists sw mj mn bd,
    Py.int (String "1" (String "0" (String "0" (String "0"
              (String c1 (String c2 (String c3 (String c4 "")))))))) = ok sw
    /\ Py.int major = ok mj
    /\ Py.int (String n1 (String n2 "")) = ok mn
    /\ Py.int (build_text rest) = ok bd
    /\ parse_version_tag
         ("1000" ++ String c1 (String c2 (String c3 (String c4 "")))
          ++ "/V" ++ major ++ "_" ++ String n1 (String n2 rest))
       = ok (Some (sw, mj, mn, bd)).
Proof.
  intros Hd Hmajor.
  repeat match goal with
         | H : Forall _ (_ :: _) |- _ => inversion H; subst; clear H
         | H : Forall _ [] |- _ => clear H
         end.
  destruct (int_total (String "1" (String "0" (String "0" (String "0"
              (String c1 (String c2 (String c3 (String c4 "")))))))))
    as [sw Esw]; [discriminate | digits_true |].
  destruct (int_total (String n1 (String n2 ""))) as [mn Emn];
    [discriminate | digits_true |].
  assert (Hbuild : exists bd, Py.int (build_text rest) = ok bd).
  { apply int_total.
    - destruct rest as [| u [| b1 [| b2 rest']]]; try discriminate.
      cbn [build_text].
      destruct (Ascii.eqb "_" u && Py.is_digit b1 && Py.is_digit b2);
        cbv iota; discriminate.
    - destruct rest as [| u [| b1 [| b2 rest']]]; try reflexivity.
      cbn [build_text]. destruct (Ascii.eqb "_" u); [| reflexivity].
      destruct (Py.is_digit b1) eqn:E1; [| reflexivity].
      destruct (Py.is_digit b2) eqn:E2; [| reflexivity].
      cbn [andb all_digits]. rewrite E1, E2. reflexivity. }
  destruct Hbuild as [bd Ebd].
  assert (Hmj : exists mj, Py.int major = ok mj).
  { destruct major as [| m1 [| m2 [| m3 major']]]; try discriminate; simpl in Hmajor.
    - apply int_total; [discriminate | simpl; rewrite Hmajor; reflexivity].
    - apply andb_true_iff in Hmajor. destruct Hmajor as [Hm1 Hm2].
      apply digit_of_rng_1_9 in Hm1.
      apply int_total; [discriminate | simpl; rewrite Hm1, Hm2; reflexivity]. }
  destruct Hmj as [mj Emj].
  exists sw, mj, mn, bd.
  split; [exact Esw | split; [exact Emj | split; [exact Emn | split; [exact Ebd |]]]].
  unfold parse_version_tag, Re.match_.
  destruct major as [| m1 [| m2 [| m3 major']]]; try discriminate; simpl in Hmajor.
  - destruct (Re.in_rng "1" "9" m1) eqn:Hr;
      destruct rest as [| u [| b1 [| b2 rest']]];
      try destruct (Ascii.eqb "_" u) eqn:Hu;
      try destruct (Py.is_digit b1) eqn:Hb1;
      try destruct (Py.is_digit b2) eqn:Hb2;
      do 3 (eval_match; eval_consumed).
    all: cbn [build_text] in Ebd; rewrite ?Hu, ?Hb1, ?Hb2 in Ebd; cbn [andb] in Ebd.
    all: rewrite Esw, Emj, Emn, Ebd; reflexivity.
  - apply andb_true_iff in Hmajor. destruct Hmajor as [Hm1 Hm2].
    destruct rest as [| u [| b1 [| b2 rest']]];
      try destruct (Ascii.eqb "_" u) eqn:Hu;
      try destruct (Py.is_digit b1) eqn:Hb1;
      try destruct (Py.is_digit b2) eqn:Hb2;
      do 3 (eval_match; eval_consumed).
    all: cbn [build_text] in Ebd; rewrite ?Hu, ?Hb1, ?Hb2 in Ebd; cbn [andb] in Ebd.
    all: rewrite Esw, Emj, Emn, Ebd; reflexivity.
Qed.

Lemma parse_version_tag_complete_witness :
  Forall (fun c => Py.is_digit c = true) ["6"; "0"; "2"; "0"; "0"; "7"]%char
  /\ major_text "3" = true
  /\ exists sw mj mn bd,
      Py.int "10006020" = ok sw /\ Py.int "3" = ok mj /\ Py.int "07" = ok mn
      /\ Py.int (build_text "_4") = ok bd
      /\ parse_version_tag "10006020/V3_07_4" = ok (Some (sw, mj, mn, bd)).
Proof.
  assert (Hd : Forall (fun c => Py.is_digit c = true)
                 ["6"; "0"; "2"; "0"; "0"; "7"]%char)
    by (repeat constructor).
  assert (Hm : major_text "3" = true) by reflexivity.
  split; [exact Hd | split; [exact Hm |]].
  exact (parse_version_tag_complete "6" "0" "2" "0" "0" "7" "3" "_4" Hd Hm).
Defined.

End ParseFurther.

(** ** Printing versions *)

Section Printing.

Lemma to_int_not_nil (n : Z) :
  Z.to_int n <> Decimal.Pos Decimal.Nil /\ Z.to_int n <> Decimal.Neg Decimal.Nil.
Proof.
  destruct n as [| p | p]; simpl; split; try discriminate.
  - intros H. injection H as H. exact (DecimalPos.Unsigned.to_uint_nonnil p H).
  - intros H. injection H as H. exact (DecimalPos.Unsigned.to_uint_nonnil p H).
Qed.

Lemma str_int_injective (a b : Z) : Py.str_int a = Py.str_int b -> a = b.
Proof.
  unfold Py.str_int. intros E.
  apply DecimalZ.to_int_inj.
  destruct (to_int_not_nil a) as [Ha1 Ha2]. destruct (to_int_not_nil b) as [Hb1 Hb2].
  pose proof (NilZero.isi (Z.to_int a) Ha1 Ha2) as Ia.
  pose proof (NilZero.isi (Z.to_int b) Hb1 Hb2) as Ib.
  rewrite E in Ia. rewrite Ia in Ib. injection Ib as Ib. exact Ib.
Qed.

Lemma two_digits (n : Z) :
  0 <= n <= 99 ->
  String.length (Py.fmt_02d n) = 2%nat /\ Py.int (Py.fmt_02d n) = ok n.
Proof.
  intros Hn.
  assert (Hall : forallb (fun k : nat =>
                            (String.length (Py.fmt_02d (Z.of_nat k)) =? 2)%nat
                            && match Py.int (Py.fmt_02d (Z.of_nat k)) with
                               | inl m => m =? Z.of_nat k
                               | inr _ => false
                               end)
                         (seq 0 100) = true) by (vm_compute; reflexivity).
  pose proof (proj1 (forallb_forall _ _) Hall (Z.to_nat n)) as Hk.
  cbv beta in Hk. rewrite Z2Nat.id in Hk by lia.
  assert (Hin : In (Z.to_nat n) (seq 0 100)) by (apply in_seq; lia).
  specialize (Hk Hin). apply andb_true_iff in Hk. destruct Hk as [Hlen Hint].
  split; [apply Nat.eqb_eq; exact Hlen |].
  destruct (Py.int (Py.fmt_02d n)) as [m | e]; [| discriminate].
  apply Z.eqb_eq in Hint. rewrite Hint. reflexivity.
Qed.

Lemma append_same_length_suffix (s1 s2 t1 t2 : string) :
  s1 ++ t1 = s2 ++ t2 -> String.length t1 = String.length t2 ->
  s1 = s2 /\ t1 = t2.
Proof.
  revert s2. induction s1 as [| c s1 IH]; intros [| c2 s2] E Hlen; simpl in E.
  - split; [reflexivity | exact E].
  - exfalso. rewrite E in Hlen. simpl in Hlen. rewrite length_append in Hlen. lia.
  - exfalso. rewrite <- E in Hlen. simpl in Hlen. rewrite length_append in Hlen. lia.
  - injection E as -> E. destruct (IH s2 E Hlen) as [-> ->]. split; reflexivity.
Qed.

(** X19. In-range versions print alike exactly when they are equal, so
    the text of a version in a message identifies its order key; the text
    is the major number followed by six characters. *)
Theorem str_identifies_in_range_versions (a b : Version) :
  in_range a -> in_range b ->
  (__str__ a = __str__ b <-> __eq__ a b = true)
  /\ String.length (__str__ a)
     = (String.length (Py.str_int (_major_ver a)) + 6)%nat.
Proof.
  intros (Ha1 & Ha2 & Ha3) (Hb1 & Hb2 & Hb3).
  destruct (two_digits _ Ha2) as [La2 Ia2]. destruct (two_digits _ Ha3) as [La3 Ia3].
  destruct (two_digits _ Hb2) as [Lb2 Ib2]. destruct (two_digits _ Hb3) as [Lb3 Ib3].
  split; [split |].
  - unfold __str__. intros E.
    apply append_same_length_suffix in E;
      [| simpl; rewrite !length_append; simpl; lia].
    destruct E as [Emajor E]. injection E as E.
    apply append_same_length_suffix in E; [| simpl; lia].
    destruct E as [Eminor E]. injection E as Ebuild.
    apply str_int_injective in Emajor.
    assert (Em : _minor_ver a = _minor_ver b).
    { rewrite Eminor in Ia2. rewrite Ia2 in Ib2. injection Ib2 as Ib2. exact Ib2. }
    assert (Eb : _build_num a = _build_num b).
    { rewrite Ebuild in Ia3. rewrite Ia3 in Ib3. injection Ib3 as Ib3. exact Ib3. }
    apply eq_by_order_key. unfold _version. rewrite Emajor, Em, Eb. reflexivity.
  - intros E. apply str_by_order_key.
    + exact (conj Ha1 (conj Ha2 Ha3)).
    + exact (conj Hb1 (conj Hb2 Hb3)).
    + apply eq_by_order_key. exact E.
  - unfold __str__. rewrite !length_append. cbn [String.length].
    rewrite La2, La3. lia.
Qed.

Lemma str_identifies_in_range_versions_witness :
  __eq__ sample_v1_c1 sample_v1_c2 = true
  /\ String.length (__str__ sample_v1_c1) = 7%nat.
Proof.
  assert (H1 : in_range sample_v1_c1) by (unfold in_range; simpl; lia).
  assert (H2 : in_range sample_v1_c2) by (unfold in_range; simpl; lia).
  split.
  - exact (proj1 (proj1 (str_identifies_in_range_versions sample_v1_c1 sample_v1_c2
                           H1 H2)) eq_refl).
  - exact (proj2 (str_identifies_in_range_versions sample_v1_c1 sample_v1_c2 H1 H2)).
Defined.

End Printing.
(** ** The registry *)

Section Registry.

Lemma length_split_from (sep : ascii) (s cur : string) :
  List.length (Py.split_from sep cur s) = S (count_char sep s).
Proof.
  revert cur. induction s as [| c s IH]; intros cur; simpl.
  - reflexivity.
  - destruct (Ascii.eqb c sep); simpl; rewrite IH; reflexivity.
Qed.

Lemma item_in_bounds {A : Type} (l : list A) (i : nat) :
  (i < List.length l)%nat -> exists a, Py.item l i = ok a.
Proof.
  intros H. unfold Py.item.
  destruct (nth_error l i) as [a |] eqn:E.
  - exists a. reflexivity.
  - apply nth_error_None in E. lia.
Qed.

Lemma item_out_of_bounds {A : Type} (l : list A) (i : nat) :
  (List.length l <= i)%nat -> Py.item l i = raise IndexError.
Proof.
  intros H. unfold Py.item.
  apply nth_error_None in H. rewrite H. reflexivity.
Qed.

Lemma parse_version_tag_total (s : string) : exists r, parse_version_tag s = ok r.
Proof.
  destruct (parse_version_tag_cases s) as [[_ E] | (p & rest & t & _ & _ & E)];
    rewrite E; eexists; reflexivity.
Qed.

Lemma registry_step_cases (versions : list Version) (line : string) :
  if has_four_fields line then
    registry_step versions line = ok versions
    \/ exists v, registry_step versions line = ok (versions ++ [v])%list
                 /\ registered v /\ in_range v /\ _version v <= 999999
  else registry_step versions line = raise IndexError.
Proof.
  unfold has_four_fields, registry_step. cbv zeta.
  pose proof (length_split_from ";" line "") as Hlen. fold (Py.split ";" line) in Hlen.
  destruct (Nat.leb_spec 3 (count_char ";" line)) as [H3 | H3].
  - destruct (item_in_bounds (Py.split ";" line) 0 ltac:(lia)) as [f0 E0].
    destruct (item_in_bounds (Py.split ";" line) 1 ltac:(lia)) as [f1 E1].
    destruct (item_in_bounds (Py.split ";" line) 2 ltac:(lia)) as [f2 E2].
    destruct (item_in_bounds (Py.split ";" line) 3 ltac:(lia)) as [f3 E3].
    rewrite E0, E1, E2, E3. cbn [rbind ok].
    destruct (parse_version_tag_total (Py.replace "refs/tags/" "" f3)) as [r Er].
    rewrite Er. cbn [rbind ok].
    destruct r as [[[[sw major] minor] build] |]; [| left; reflexivity].
    destruct (is_sw_article_num_valid sw) eqn:Hvalid; [| left; reflexivity].
    right. eexists. split; [reflexivity |].
    destruct (parsed_numbers_bounded _ _ _ _ _ Er) as (_ & Hmajor & Hminor & Hbuild).
    split; [| split].
    + do 4 eexists. cbn.
      split; [reflexivity |]. split; [reflexivity |]. split; [reflexivity |].
      split; [reflexivity |]. split; [| exact Er].
      unfold is_sw_article_num_valid in Hvalid.
      apply existsb_exists in Hvalid. destruct Hvalid as (n & Hin & Hn).
      apply Z.eqb_eq in Hn. subst n. exact Hin.
    + unfold in_range. cbn. lia.
    + unfold _version. cbn. lia.
  - destruct (Nat.le_gt_cases 1 (count_char ";" line)) as [H1 | H1].
    + destruct (item_in_bounds (Py.split ";" line) 0 ltac:(lia)) as [f0 E0].
      destruct (item_in_bounds (Py.split ";" line) 1 ltac:(lia)) as [f1 E1].
      rewrite E0, E1. cbn [rbind ok].
      destruct (Nat.le_gt_cases 2 (count_char ";" line)) as [H2 | H2].
      * destruct (item_in_bounds (Py.split ";" line) 2 ltac:(lia)) as [f2 E2].
        rewrite E2. cbn [rbind ok].
        rewrite (item_out_of_bounds (Py.split ";" line) 3) by lia. reflexivity.
      * rewrite (item_out_of_bounds (Py.split ";" line) 2) by lia. reflexivity.
    + destruct (item_in_bounds (Py.split ";" line) 0 ltac:(lia)) as [f0 E0].
      rewrite E0. cbn [rbind ok].
      rewrite (item_out_of_bounds (Py.split ";" line) 1) by lia. reflexivity.
Qed.

Lemma registry_raises_index_error (lines : list string) (acc : list Version)
    (e : exn) :
  rfold registry_step lines acc = raise e -> e = IndexError.
Proof.
  revert acc. induction lines as [| line lines IH]; intros acc; cbn [rfold].
  - discriminate.
  - pose proof (registry_step_cases acc line) as Hstep.
    destruct (has_four_fields line).
    + destruct Hstep as [E | (v & E & _)]; rewrite E; cbn [rbind ok]; apply IH.
    + rewrite Hstep. intros H. injection H as <-. reflexivity.
Qed.

Lemma get_versions_from_tags_run (os : OS) (w : World) :
  get_versions_from_tags os w
  = (match run_argv os (requests w) for_each_ref_argv with
     | inl process_stdout => rfold registry_step (Py.splitlines process_stdout) []
     | inr e => raise (LibraryError e)
     end, asked (Program for_each_ref_argv) w).
Proof.
  unfold get_versions_from_tags, bind, subprocess_run, lift. fold for_each_ref_argv.
  destruct (run_argv os (requests w) for_each_ref_argv); reflexivity.
Qed.

Lemma registry_loop (lines : list string) (acc : list Version) :
  if forallb has_four_fields lines then
    exists versions,
      rfold registry_step lines acc = ok (acc ++ versions)%list
      /\ Forall (fun v => registered v /\ in_range v /\ _version v <= 999999) versions
      /\ (List.length versions <= List.length lines)%nat
  else rfold registry_step lines acc = raise IndexError.
Proof.
  revert acc. induction lines as [| line lines IH]; intros acc.
  - simpl. exists []. rewrite app_nil_r.
    split; [reflexivity | split; [apply Forall_nil | simpl; lia]].
  - cbn [forallb rfold].
    pose proof (registry_step_cases acc line) as Hstep.
    destruct (has_four_fields line); cbn [andb].
    + destruct Hstep as [E | (v & E & Hv)]; rewrite E; cbn [rbind ok].
      * specialize (IH acc). destruct (forallb has_four_fields lines).
        -- destruct IH as (versions & E' & Hall & Hlen).
           exists versions. split; [exact E' | split; [exact Hall |]].
           cbn [List.length]. lia.
        -- exact IH.
      * specialize (IH (acc ++ [v])%list). destruct (forallb has_four_fields lines).
        -- destruct IH as (versions & E' & Hall & Hlen).
           exists (v :: versions). rewrite E', <- app_assoc.
           split; [reflexivity | split; [constructor; assumption |]].
           cbn [List.length]. lia.
        -- exact IH.
    + rewrite Hstep. reflexivity.
Qed.


(** X6. [get_versions_from_tags] runs [git for-each-ref] once.  When the
    library raises in running it, that exception passes.  Otherwise it
    returns when every line git printed has at least four fields separated
    by semicolons, and raises IndexError when some line has fewer.  Every
    version it returns carries creation date, article number, commit id
    and tag name; the article number is one of the allowed ones; the three
    numbers are those [parse_version_tag] reads from the tag name, so they
    are in range and the order key is at most 999999; and there is at most
    one version for each line. *)
Theorem get_versions_from_tags_registry (os : OS) (w : World) :
  snd (get_versions_from_tags os w) = asked (Program for_each_ref_argv) w
  /\ match run_argv os (requests w) for_each_ref_argv with
     | inr e => fst (get_versions_from_tags os w) = raise (LibraryError e)
     | inl process_stdout =>
         if forallb has_four_fields (Py.splitlines process_stdout) then
           exists versions,
             fst (get_versions_from_tags os w) = ok versions
             /\ Forall (fun v => registered v /\ in_range v /\ _version v <= 999999)
                       versions
             /\ (List.length versions
                 <= List.length (Py.splitlines process_stdout))%nat
         else fst (get_versions_from_tags os w) = raise IndexError
     end.
Proof.
  rewrite get_versions_from_tags_run. split; [reflexivity |]. cbn [fst].
  destruct (run_argv os (requests w) for_each_ref_argv) as [out | e];
    [| reflexivity].
  exact (registry_loop (Py.splitlines out) []).
Qed.

End Registry.

(** ** Versions on HEAD *)

Section HeadVersionsFurther.

Variable head_sha1 : string.

Lemma count_order_key_app (k : Z) (l1 l2 : list Version) :
  count_order_key k (l1 ++ l2)%list
  = (count_order_key k l1 + count_order_key k l2)%nat.
Proof.
  unfold count_order_key. rewrite filter_app, length_app. reflexivity.
Qed.

Lemma count_order_key_split (k : Z) (keep : Version -> bool) (l : list Version) :
  count_order_key k l
  = (count_order_key k (filter keep l)
     + count_order_key k (filter (fun v => negb (keep v)) l))%nat.
Proof.
  induction l as [| v l IH]; [reflexivity |].
  simpl filter. destruct (keep v); simpl negb; cbv iota;
    rewrite !count_order_key_cons, IH; lia.
Qed.

Lemma count_order_key_positive (k : Z) (l : list Version) :
  (0 < count_order_key k l)%nat <-> exists v, In v l /\ _version v = k.
Proof.
  induction l as [| x l IH].
  - split; [intros H; inversion H | intros (v & [] & _)].
  - rewrite count_order_key_cons. split.
    + intros H. destruct (Z.eqb_spec (_version x) k) as [E | N].
      * exists x. split; [left; reflexivity | exact E].
      * destruct (proj1 IH ltac:(lia)) as (v & Hin & Hv).
        exists v. split; [right; exact Hin | exact Hv].
    + intros (v & [-> | Hin] & Hv).
      * rewrite Hv, Z.eqb_refl. lia.
      * assert (0 < count_order_key k l)%nat by (apply IH; exists v; auto). lia.
Qed.

Lemma list_remove_ok (x : Version) (l l' : list Version) :
  list_remove x l = ok l' ->
  (forall k, count_order_key k l
             = ((if (_version x =? k)%Z then 1 else 0) + count_order_key k l')%nat)
  /\ List.length l = S (List.length l')
  /\ incl l' l.
Proof.
  revert l'. induction l as [| v l IH]; intros l' E; [discriminate |].
  simpl in E. unfold __eq__ in E.
  destruct (Z.eqb_spec (_version v) (_version x)) as [Ev | Nv].
  - injection E as <-. split; [| split; [reflexivity | apply incl_tl, incl_refl]].
    intros k. rewrite count_order_key_cons, Ev. reflexivity.
  - destruct (list_remove x l) as [r | e]; [| discriminate].
    injection E as <-. destruct (IH r eq_refl) as (Hc & Hl & Hi).
    split; [| split].
    + intros k. rewrite !count_order_key_cons, (Hc k). lia.
    + simpl. rewrite Hl. reflexivity.
    + intros a [-> | Ha]; [left; reflexivity | right; apply Hi; exact Ha].
Qed.

Lemma removals_ok (hs cur cur' : list Version) :
  rfold (fun versions head_version => list_remove head_version versions) hs cur
  = ok cur' ->
  (forall k, count_order_key k cur
             = (count_order_key k hs + count_order_key k cur')%nat)
  /\ List.length cur = (List.length hs + List.length cur')%nat
  /\ incl cur' cur.
Proof.
  revert cur. induction hs as [| hv hs IH]; intros cur E; simpl in E.
  - injection E as <-. split; [| split]; [reflexivity | reflexivity | apply incl_refl].
  - destruct (list_remove hv cur) as [cur1 | e] eqn:E1; [| discriminate].
    destruct (list_remove_ok hv cur cur1 E1) as (Hc1 & Hl1 & Hi1).
    destruct (IH cur1 E) as (Hc & Hl & Hi). split; [| split].
    + intros k. rewrite (Hc1 k), (Hc k), count_order_key_cons. lia.
    + rewrite Hl1, Hl. reflexivity.
    + intros a Ha. apply Hi1, Hi, Ha.
Qed.

(** What is known of the two lists whenever the function returns. *)
Lemma get_head_versions_returned (versions remaining : list Version)
    (head_versions : option (list Version)) :
  get_head_versions versions head_sha1 = ok (head_versions, remaining) ->
  (forall k, count_order_key k versions
             = (count_order_key k (filter (on_head head_sha1) versions)
                + count_order_key k remaining)%nat)
  /\ List.length versions
     = (List.length (filter (on_head head_sha1) versions)
        + List.length remaining)%nat
  /\ incl remaining versions.
Proof.
  unfold get_head_versions. rewrite collect_is_filter. simpl app.
  fold (on_head head_sha1).
  destruct (filter (on_head head_sha1) versions) as [| hv hs] eqn:Ef.
  - simpl. intros E. injection E as _ <-.
    split; [intros k; reflexivity | split; [reflexivity | apply incl_refl]].
  - change (0 <? Z.of_nat (List.length (hv :: hs))) with true. cbv iota.
    destruct (rfold (fun versions0 head_version => list_remove head_version versions0)
                (hv :: hs) versions) as [cur' | e] eqn:Er; [| discriminate].
    intros E. injection E as _ <-.
    exact (removals_ok _ _ _ Er).
Qed.

Lemma filter_none {A : Type} (keep : A -> bool) (l : list A) :
  filter keep l = [] -> filter (fun a => negb (keep a)) l = l.
Proof.
  induction l as [| a l IH]; [reflexivity |].
  simpl. destruct (keep a); [discriminate |].
  intros E. simpl. rewrite (IH E). reflexivity.
Qed.

(** X7. [get_head_versions] never raises.  What it returns is the versions
    whose commit id is that of HEAD, in the order of the registry, or
    [None] when there is none, never an empty list.  The list it leaves
    behind holds versions of the registry only, and under every order key
    it has lost as many versions as there are versions on HEAD with that
    key.  When no version off HEAD shares an order key with a version on
    HEAD, the list left behind is exactly the versions off HEAD, in
    order. *)
Theorem get_head_versions_keeps_order_keys (versions : list Version) :
  exists remaining,
    get_head_versions versions head_sha1
    = ok (match filter (on_head head_sha1) versions with
          | [] => None
          | matching => Some matching
          end, remaining)
    /\ (forall k, count_order_key k versions
                  = (count_order_key k (filter (on_head head_sha1) versions)
                     + count_order_key k remaining)%nat)
    /\ List.length versions
       = (List.length (filter (on_head head_sha1) versions)
          + List.length remaining)%nat
    /\ incl remaining versions
    /\ ((forall a b, In a versions -> In b versions ->
                     on_head head_sha1 a = true -> off_head head_sha1 b = true ->
                     _version b <> _version a) ->
        remaining = filter (off_head head_sha1) versions).
Proof.
  destruct (get_head_versions_head head_sha1 versions) as (remaining & E).
  exists remaining. split; [exact E |].
  destruct (get_head_versions_returned _ _ _ E) as (Hc & Hl & Hi).
  split; [exact Hc | split; [exact Hl | split; [exact Hi |]]].
  intros Hdistinct.
  destruct (filter (fun version => sha1_is version head_sha1) versions)
    as [| hv hs] eqn:Ef.
  - unfold get_head_versions in E. rewrite collect_is_filter in E.
    simpl app in E. rewrite Ef in E. simpl in E. injection E as <-.
    symmetry. exact (filter_none _ _ Ef).
  - pose proof (get_head_versions_partition head_sha1 versions) as Hp.
    rewrite Ef, E in Hp.
    assert (Hp' : ok (Some (hv :: hs), remaining)
                  = ok (Some (hv :: hs),
                        filter (fun version => negb (sha1_is version head_sha1))
                          versions)).
    { apply Hp.
      - intros a b Ha Hb Hon Hoff. apply Hdistinct; try assumption.
        unfold off_head. rewrite Hoff. reflexivity.
      - discriminate. }
    injection Hp' as ->. reflexivity.
Qed.

End HeadVersionsFurther.

(** ** The checks and the order keys of the history *)

Section OrderKeysOnly.

Implicit Types h m v : Version.

Lemma is_kind_by_order_key v v' (k : string) :
  _version v = _version v' -> is_kind v k = is_kind v' k.
Proof. intros E. unfold is_kind. rewrite E. reflexivity. Qed.

Lemma kind_by_order_key v v' : _version v = _version v' -> kind v = kind v'.
Proof. intros E. unfold kind. rewrite E. reflexivity. Qed.

Lemma same_keys_duplicate h (l1 l2 : list Version) :
  (forall k, count_order_key k l1 = count_order_key k l2) ->
  existsb (fun version => __eq__ version h) l1
  = existsb (fun version => __eq__ version h) l2.
Proof.
  intros Hc.
  assert (Hiff : forall l, existsb (fun version => __eq__ version h) l = true
                           <-> (0 < count_order_key (_version h) l)%nat).
  { intros l. rewrite existsb_exists, count_order_key_positive.
    split; intros (v & Hin & Hv); exists v; (split; [exact Hin |]).
    - apply eq_by_order_key; exact Hv.
    - apply eq_by_order_key; exact Hv. }
  destruct (existsb (fun version => __eq__ version h) l1) eqn:E1.
  - symmetry. apply Hiff. rewrite <- Hc. apply Hiff. exact E1.
  - destruct (existsb (fun version => __eq__ version h) l2) eqn:E2; [| reflexivity].
    apply Hiff in E2. rewrite <- Hc in E2. apply Hiff in E2. congruence.
Qed.

Lemma same_keys_most_recent_le (k : string) (l1 l2 : list Version) :
  (forall key, (0 < count_order_key key l1)%nat -> (0 < count_order_key key l2)%nat) ->
  _version (most_recent_version k l1) <= _version (most_recent_version k l2).
Proof.
  intros Hc.
  destruct (most_recent_found k l1) as (Hwhere1 & _ & _).
  destruct (most_recent_found k l2) as (_ & Hpos2 & Hmax2).
  destruct Hwhere1 as [E | [Hin Hk]].
  - rewrite E. exact Hpos2.
  - assert (H2 : (0 < count_order_key (_version (most_recent_version k l1)) l2)%nat).
    { apply Hc. apply count_order_key_positive.
      exists (most_recent_version k l1). split; [exact Hin | reflexivity]. }
    apply count_order_key_positive in H2. destruct H2 as (v2 & Hin2 & Hv2).
    rewrite <- Hv2. apply Hmax2; [exact Hin2 |].
    rewrite (is_kind_by_order_key v2 (most_recent_version k l1) k Hv2). exact Hk.
Qed.

Lemma same_keys_most_recent (k : string) (l1 l2 : list Version) :
  (forall key, count_order_key key l1 = count_order_key key l2) ->
  _version (most_recent_version k l1) = _version (most_recent_version k l2).
Proof.
  intros Hc. apply Z.le_antisymm; apply same_keys_most_recent_le;
    intros key; rewrite (Hc key); trivial.
Qed.

(** The outcome of the skip check is a function of the order key the
    search ends on, given that the version it ends on prints by its key. *)
Lemma skip_check_by_most_recent_key h (l1 l2 : list Version) (w : World) :
  _version (most_recent_version (kind h) l1)
  = _version (most_recent_version (kind h) l2) ->
  __str__ (most_recent_version (kind h) l1)
  = __str__ (most_recent_version (kind h) l2) ->
  check_head_version_skipped_a_version h l1 w
  = check_head_version_skipped_a_version h l2 w.
Proof.
  intros Hkey Hstr. rewrite !skip_check_run. cbv zeta.
  set (m1 := most_recent_version (kind h) l1) in *.
  set (m2 := most_recent_version (kind h) l2) in *.
  assert (Hle : __le__ h m1 = __le__ h m2) by (unfold __le__; rewrite Hkey; reflexivity).
  rewrite Hle. unfold earlier_checkout_msg. rewrite Hstr, Hkey.
  rewrite (contains_version_by_order_key h
             [rolled m1 (_version m2 + 10000 - _version m2 mod 10000);
              rolled m1 (_version m2 + 100 - _version m2 mod 100);
              rolled m1 (_version m2 + 1)]
             [rolled m2 (_version m2 + 10000 - _version m2 mod 10000);
              rolled m2 (_version m2 + 100 - _version m2 mod 100);
              rolled m2 (_version m2 + 1)])
    by (simpl; rewrite !rolled_order_key; reflexivity).
  rewrite (contains_version_by_order_key h
             [rolled m1 (_version m2 + 100 - _version m2 mod 100);
              rolled m1 (_version m2 + 1)]
             [rolled m2 (_version m2 + 100 - _version m2 mod 100);
              rolled m2 (_version m2 + 1)])
    by (simpl; rewrite !rolled_order_key; reflexivity).
  reflexivity.
Qed.

Lemma count_order_key_rev (k : Z) (l : list Version) :
  count_order_key k (rev l) = count_order_key k l.
Proof.
  induction l as [| v l IH]; [reflexivity |].
  cbn [rev]. rewrite count_order_key_app, !count_order_key_cons, IH.
  change (count_order_key k []) with 0%nat. lia.
Qed.

(** X8. The duplicate check and the skip check read the historical
    versions through their order keys only: for in-range versions, two
    histories that hold as many versions under every order key give the
    same outcome, error text and warning included. *)
Theorem version_checks_depend_on_order_keys_only
    h (historical historical' : list Version) (w : World) :
  Forall in_range historical -> Forall in_range historical' ->
  (forall k, count_order_key k historical = count_order_key k historical') ->
  check_head_version_already_used h historical w
  = check_head_version_already_used h historical' w
  /\ check_head_version_skipped_a_version h historical w
     = check_head_version_skipped_a_version h historical' w.
Proof.
  intros Hrange Hrange' Hsame. split.
  - rewrite !already_used_run. rewrite (same_keys_duplicate h _ _ Hsame). reflexivity.
  - apply skip_check_by_most_recent_key.
    + apply same_keys_most_recent. exact Hsame.
    + apply str_by_order_key.
      * apply most_recent_in_range. apply Forall_forall. exact Hrange.
      * apply most_recent_in_range. apply Forall_forall. exact Hrange'.
      * apply same_keys_most_recent. exact Hsame.
Qed.

Lemma version_checks_depend_on_order_keys_only_witness :
  check_head_version_already_used (Version3 3 0 1)
    sample_later_releases sample_world
  = check_head_version_already_used (Version3 3 0 1)
      (rev sample_later_releases) sample_world
  /\ check_head_version_skipped_a_version (Version3 3 0 1)
       sample_later_releases sample_world
     = check_head_version_skipped_a_version (Version3 3 0 1)
         (rev sample_later_releases) sample_world.
Proof.
  refine (version_checks_depend_on_order_keys_only (Version3 3 0 1)
            sample_later_releases (rev sample_later_releases) sample_world _ _ _).
  - repeat (apply Forall_cons; [unfold in_range; simpl; lia |]). apply Forall_nil.
  - repeat (apply Forall_cons; [unfold in_range; simpl; lia |]). apply Forall_nil.
  - intros k. symmetry. apply count_order_key_rev.
Defined.

(** X9. When [get_head_versions] finds versions on HEAD, the list it
    leaves behind need not be the versions off HEAD; but for a registry of
    in-range versions the duplicate check and the skip check end the same
    way on both lists, whatever the head version they are asked about. *)
Theorem checks_judge_remaining_like_versions_off_head
    (versions head_versions remaining : list Version) (head_sha1 : string)
    h (w : World) :
  Forall in_range versions ->
  get_head_versions versions head_sha1 = ok (Some head_versions, remaining) ->
  check_head_version_already_used h remaining w
  = check_head_version_already_used h (filter (off_head head_sha1) versions) w
  /\ check_head_version_skipped_a_version h remaining w
     = check_head_version_skipped_a_version h (filter (off_head head_sha1) versions) w.
Proof.
  intros Hrange E.
  destruct (get_head_versions_returned head_sha1 _ _ _ E) as (Hc & _ & Hin).
  assert (Hsame : forall k, count_order_key k remaining
                            = count_order_key k (filter (off_head head_sha1) versions)).
  { intros k. specialize (Hc k).
    rewrite (count_order_key_split k (on_head head_sha1) versions) in Hc.
    unfold off_head. unfold on_head in Hc. lia. }
  split.
  - rewrite !already_used_run. rewrite (same_keys_duplicate h _ _ Hsame). reflexivity.
  - apply skip_check_by_most_recent_key.
    + apply same_keys_most_recent. exact Hsame.
    + apply str_by_order_key.
      * apply most_recent_in_range. intros v Hv.
        apply (proj1 (Forall_forall _ _) Hrange). apply Hin; exact Hv.
      * apply most_recent_in_range. intros v Hv.
        apply (proj1 (Forall_forall _ _) Hrange).
        apply filter_In in Hv. apply Hv.
      * apply same_keys_most_recent. exact Hsame.
Qed.

Lemma checks_judge_remaining_like_versions_off_head_witness :
  check_head_version_already_used sample_v1_c2 [sample_v1_c2] sample_world
  = check_head_version_already_used sample_v1_c2 [sample_v1_c1] sample_world
  /\ check_head_version_skipped_a_version sample_v1_c2 [sample_v1_c2] sample_world
     = check_head_version_skipped_a_version sample_v1_c2 [sample_v1_c1] sample_world.
Proof.
  refine (checks_judge_remaining_like_versions_off_head
            [sample_v1_c1; sample_v1_c2] [sample_v1_c2] [sample_v1_c2] "c2"
            sample_v1_c2 sample_world _ _).
  - apply Forall_cons; [unfold in_range; simpl; lia |].
    apply Forall_cons; [unfold in_range; simpl; lia | apply Forall_nil].
  - reflexivity.
Defined.

End OrderKeysOnly.

(** ** The first version of a lineage *)

Section FirstOfLineage.

Implicit Types h m v : Version.

Lemma search_stays (k : string) (prev : list Version) (acc : Version) :
  (forall v, In v prev -> holds (is_kind v k) = true -> _version v <= _version acc) ->
  fold_left (search_step k) prev acc = acc.
Proof.
  induction prev as [| p prev IH]; intros Hle; simpl; [reflexivity |].
  assert (E : search_step k acc p = acc).
  { unfold search_step. destruct (holds (is_kind p k)) eqn:Hk; [| reflexivity].
    specialize (Hle p (or_introl eq_refl) Hk).
    destruct (__gt__ p acc) eqn:Hgt; [| reflexivity].
    apply gt_by_order_key in Hgt. lia. }
  rewrite E. apply IH. intros v Hv. apply Hle. right; exact Hv.
Qed.

(** X10. The skip check when no historical version of the head version's
    lineage has a positive order key: the search ends on [Version(0, 0, 0)].
    A head version with order key 0 or below is let through with the
    warning about an earlier commit; a release head version is accepted at
    1.00.00, 0.01.00 and 0.00.01 and refused with code 5 anywhere else; a
    test head version is always refused with code 5, the message naming
    0.01.00 and 0.00.01. *)
Theorem skip_check_first_of_lineage h (historical : list Version) (w : World) :
  (forall v, In v historical -> holds (is_kind v (kind h)) = true -> _version v <= 0) ->
  check_head_version_skipped_a_version h historical w
  = if _version h <=? 0 then
      (ok tt,
       warned ("HEAD is tagged with version " ++ __str__ h
               ++ " but the most recent version is 0.00.00. Was this the intention (you might have checked out an earlier commit)?")
         (entered_in SkippedAVersion w))
    else
      (if _version h <? 900000 then
         if (_version h =? 10000) || (_version h =? 100) || (_version h =? 1)
         then ok tt
         else raise (VersionTagError 5
                       "You skipped a release version, the next version should be either 1.00.00, 0.01.00, or 0.00.01.")
       else raise (VersionTagError 5
                     "You skipped a test version, the next version should be either 0.01.00 or 0.00.01."),
       entered_in SkippedAVersion w).
Proof.
  intros Hnone. rewrite skip_check_run. cbv zeta.
  assert (Em : most_recent_version (kind h) historical = Version3 0 0 0).
  { unfold most_recent_version. apply search_stays. exact Hnone. }
  rewrite Em. unfold __le__. change (_version (Version3 0 0 0)) with 0.
  destruct (_version h <=? 0) eqn:Hle; [reflexivity |].
  apply Z.leb_gt in Hle.
  unfold contains_version, __eq__. cbn [existsb].
  rewrite !rolled_order_key.
  change (0 + 10000 - 0 mod 10000) with 10000.
  change (0 + 100 - 0 mod 100) with 100.
  change (0 + 1) with 1.
  unfold kind, first_test_version.
  destruct (_version h <? 900000) eqn:Hk.
  - cbn [String.eqb Ascii.eqb Bool.eqb]. rewrite Bool.orb_false_r.
    rewrite (Z.eqb_sym 10000), (Z.eqb_sym 100), (Z.eqb_sym 1), Bool.orb_assoc.
    destruct ((_version h =? 10000) || (_version h =? 100) || (_version h =? 1));
      reflexivity.
  - apply Z.ltb_ge in Hk.
    replace (100 =? _version h) with false by (symmetry; apply Z.eqb_neq; lia).
    replace (1 =? _version h) with false by (symmetry; apply Z.eqb_neq; lia).
    reflexivity.
Qed.

Lemma skip_check_first_of_lineage_witness :
  check_head_version_skipped_a_version (Version3 90 0 1) sample_releases sample_world
  = (raise (VersionTagError 5
              "You skipped a test version, the next version should be either 0.01.00 or 0.00.01."),
     entered_in SkippedAVersion sample_world).
Proof.
  refine (skip_check_first_of_lineage (Version3 90 0 1) sample_releases sample_world _).
  intros v [<- | [<- | []]]; discriminate.
Defined.

End FirstOfLineage.

(** ** The pipeline *)

Section Pipeline.

Variable os : OS.
Variables versions rest : list Version.
Variable h0 : Version.
Variables head_sha1 wt ix target_file : string.

Lemma check_head_in_order (w : World) :
  check_head os versions (Some (h0 :: rest)) head_sha1 wt ix w
  = in_order (pipeline os versions (h0 :: rest) h0 wt ix) w.
Proof.
  unfold check_head, pipeline, in_order. cbn [Py.item nth_error snd].
  rewrite bind_lift_ok. apply bind_ext; intros _ w1.
  rewrite bind_lift_ok. do 4 (apply bind_ext; intros _ ?w).
  symmetry. apply bind_ret_r.
Qed.

End Pipeline.

(** ** What the checks leave alone *)

Section Frames.

Variable R : World -> World -> Prop.
Hypothesis R_refl : forall w, R w w.
Hypothesis R_trans : forall w1 w2 w3, R w1 w2 -> R w2 w3 -> R w1 w3.

Lemma preserves_ret {A : Type} (a : A) : preserves R (ret a).
Proof. intros w r w' E. injection E as _ <-. apply R_refl. Qed.

Lemma preserves_throw {A : Type} (e : exn) : preserves R (@throw A e).
Proof. intros w r w' E. injection E as _ <-. apply R_refl. Qed.

Lemma preserves_lift {A : Type} (x : res A) : preserves R (lift x).
Proof. intros w r w' E. injection E as _ <-. apply R_refl. Qed.

Lemma preserves_bind {A B : Type} (m : M A) (f : A -> M B) :
  preserves R m -> (forall a, preserves R (f a)) -> preserves R (bind m f).
Proof.
  intros Hm Hf w r w' E.
  destruct (bind_inv m f w w' r E) as [(a & w1 & E1 & E2) | (e & E1 & _)].
  - eapply R_trans; [eapply Hm; exact E1 | eapply Hf; exact E2].
  - eapply Hm; exact E1.
Qed.

Lemma preserves_for {A : Type} (l : list A) (body : A -> M unit) :
  (forall x, preserves R (body x)) -> preserves R (for_ l body).
Proof.
  intros Hbody. induction l as [| x l IH]; simpl.
  - apply preserves_ret.
  - apply preserves_bind; [apply Hbody | intros _; exact IH].
Qed.

Lemma preserves_if {A : Type} (b : bool) (m1 m2 : M A) :
  preserves R m1 -> preserves R m2 -> preserves R (if b then m1 else m2).
Proof. destruct b; auto. Qed.

Hypothesis R_asked : forall r w, R w (asked r w).

Lemma preserves_subprocess_run (os : OS) (argv : list string) :
  preserves R (subprocess_run os argv).
Proof. intros w r w' E. injection E as _ <-. apply R_asked. Qed.

Lemma preserves_run_git_cmd (os : OS) (command : string) :
  preserves R (run_git_cmd os command).
Proof. intros w r w' E. injection E as _ <-. apply R_asked. Qed.

(** Computations that do not warn. *)
Ltac frame_quiet :=
  repeat first
    [ apply preserves_ret | apply preserves_throw | apply preserves_lift
    | apply preserves_run_git_cmd | apply preserves_subprocess_run
    | apply preserves_if
    | apply preserves_for; intros ?
    | apply preserves_bind; [| intros ?] ].

Lemma quiet_checks_preserve (os : OS) (versions hvs : list Version) (h : Version)
    (wt ix : string) :
  preserves R (enter AlreadyUsed) -> preserves R (enter TagIsLightweight) ->
  preserves R (enter MultipleVersions) -> preserves R (enter LocalChanges) ->
  preserves R (check_head_version_already_used h versions)
  /\ preserves R (check_tag_is_lightweight os hvs)
  /\ preserves R (check_head_has_multiple_versions hvs)
  /\ preserves R (check_head_has_local_changes wt ix).
Proof.
  intros H1 H2 H3 H4.
  unfold check_head_version_already_used, check_tag_is_lightweight,
    check_head_has_multiple_versions, check_head_has_local_changes.
  repeat split; (apply preserves_bind; [assumption | intros ?]); frame_quiet.
Qed.

(** What [run] reads, it reads without touching anything else. *)
Lemma reads_preserve (os : OS) :
  preserves R (get_versions_from_tags os)
  /\ preserves R (get_head_sha1 os)
  /\ preserves R (get_head_has_local_changes os)
  /\ preserves R (get_head_nonversion_tags os).
Proof.
  unfold get_versions_from_tags, get_head_sha1, get_head_has_local_changes,
    get_head_nonversion_tags.
  repeat split; cbv zeta; frame_quiet.
Qed.

Hypothesis R_warn : forall msg, preserves R (warn msg).

Ltac frame :=
  repeat first
    [ apply preserves_ret | apply preserves_throw | apply preserves_lift
    | apply preserves_run_git_cmd | apply preserves_subprocess_run
    | apply R_warn
    | apply preserves_if
    | apply preserves_for; intros ?
    | apply preserves_bind; [| intros ?] ].

Lemma preserves_after_enter (c : check) (body : M unit) :
  preserves R (enter c) -> preserves R body -> preserves R (enter c ;; body).
Proof. intros He Hb. apply preserves_bind; [exact He | intros _; exact Hb]. Qed.

(** Each check is [enter] followed by a body that keeps [R]. *)
Lemma checks_are_entered_bodies (versions hvs : list Version) (h : Version)
    (wt ix : string) (os : OS) :
  Forall (fun c : check * M unit =>
          exists body, snd c = (enter (fst c) ;; body) /\ preserves R body)
         (pipeline os versions hvs h wt ix).
Proof.
  unfold pipeline.
  repeat (apply Forall_cons; [eexists; split; [reflexivity |] |]);
    [| | | | | | apply Forall_nil]; cbv zeta; frame.
Qed.

End Frames.

Section FramesOfTheChecks.

Lemma same_entered_refl w : same_entered w w.
Proof. reflexivity. Qed.

Lemma same_entered_trans w1 w2 w3 :
  same_entered w1 w2 -> same_entered w2 w3 -> same_entered w1 w3.
Proof. unfold same_entered. congruence. Qed.

Lemma same_output_refl w : same_output w w.
Proof. split; reflexivity. Qed.

Lemma same_output_trans w1 w2 w3 :
  same_output w1 w2 -> same_output w2 w3 -> same_output w1 w3.
Proof. unfold same_output. intros [] []. split; congruence. Qed.

Lemma grown_warnings_refl w : grown_warnings w w.
Proof. exists []. symmetry. apply app_nil_r. Qed.

Lemma grown_warnings_trans w1 w2 w3 :
  grown_warnings w1 w2 -> grown_warnings w2 w3 -> grown_warnings w1 w3.
Proof.
  intros [a Ea] [b Eb]. exists (a ++ b)%list. rewrite Eb, Ea. symmetry. apply app_assoc.
Qed.

Lemma asked_same_entered r w : same_entered w (asked r w).
Proof. reflexivity. Qed.

Lemma asked_same_output r w : same_output w (asked r w).
Proof. split; reflexivity. Qed.

Lemma asked_grown_warnings r w : grown_warnings w (asked r w).
Proof. exists []. symmetry. apply app_nil_r. Qed.

Lemma same_warnings_refl w : same_warnings w w.
Proof. reflexivity. Qed.

Lemma same_warnings_trans w1 w2 w3 :
  same_warnings w1 w2 -> same_warnings w2 w3 -> same_warnings w1 w3.
Proof. unfold same_warnings. congruence. Qed.

Lemma asked_same_warnings r w : same_warnings w (asked r w).
Proof. reflexivity. Qed.

Lemma enter_same_warnings c : preserves same_warnings (enter c).
Proof. intros w r w' E. injection E as _ <-. reflexivity. Qed.

Lemma warn_same_entered msg : preserves same_entered (warn msg).
Proof. intros w r w' E. injection E as _ <-. reflexivity. Qed.

Lemma warn_same_output msg : preserves same_output (warn msg).
Proof. intros w r w' E. injection E as _ <-. split; reflexivity. Qed.

Lemma warn_grown_warnings msg : preserves grown_warnings (warn msg).
Proof. intros w r w' E. injection E as _ <-. exists [msg]. reflexivity. Qed.

Lemma enter_same_output c : preserves same_output (enter c).
Proof. intros w r w' E. injection E as _ <-. split; reflexivity. Qed.

Lemma enter_grown_warnings c : preserves grown_warnings (enter c).
Proof. intros w r w' E. injection E as _ <-. exists []. symmetry. apply app_nil_r. Qed.

Variable os : OS.
Variables versions hvs : list Version.
Variable h : Version.
Variables wt ix : string.

(** A check enters once, under its own name. *)
Lemma check_enters_once :
  Forall (fun c : check * M unit => forall w r w', snd c w = (r, w') ->
                                  entered w' = (entered w ++ [fst c])%list)
         (pipeline os versions hvs h wt ix).
Proof.
  eapply Forall_impl;
    [| exact (checks_are_entered_bodies same_entered same_entered_refl
                same_entered_trans asked_same_entered warn_same_entered
                versions hvs h wt ix os)].
  intros c (body & Ec & Hbody) w r w' E. rewrite Ec in E.
  destruct (bind_inv _ _ _ _ _ E) as [(a & w1 & E1 & E2) | (e & E1 & _)].
  - injection E1 as _ <-. rewrite (Hbody _ _ _ E2). reflexivity.
  - discriminate E1.
Qed.

(** A check writes no file, prints nothing and only appends warnings. *)
Lemma check_keeps_output :
  Forall (fun c : check * M unit => preserves same_output (snd c)) (pipeline os versions hvs h wt ix).
Proof.
  eapply Forall_impl;
    [| exact (checks_are_entered_bodies same_output same_output_refl
                same_output_trans asked_same_output warn_same_output
                versions hvs h wt ix os)].
  intros c (body & Ec & Hbody). rewrite Ec.
  apply preserves_after_enter;
    [exact same_output_trans | apply enter_same_output | exact Hbody].
Qed.

Lemma check_grows_warnings :
  Forall (fun c : check * M unit => preserves grown_warnings (snd c)) (pipeline os versions hvs h wt ix).
Proof.
  eapply Forall_impl;
    [| exact (checks_are_entered_bodies grown_warnings grown_warnings_refl
                grown_warnings_trans asked_grown_warnings warn_grown_warnings
                versions hvs h wt ix os)].
  intros c (body & Ec & Hbody). rewrite Ec.
  apply preserves_after_enter;
    [exact grown_warnings_trans | apply enter_grown_warnings | exact Hbody].
Qed.

End FramesOfTheChecks.

(** ** Running checks in order *)

Section InOrder.

Implicit Types cs pre post : list (check * M unit).

Lemma in_order_passed pre post w w1 :
  in_order pre w = (ok tt, w1) -> in_order (pre ++ post) w = in_order post w1.
Proof.
  revert w. induction pre as [| c pre IH]; intros w E; simpl in *.
  - injection E as <-. reflexivity.
  - destruct (bind_inv _ _ _ _ _ E) as [(a & w' & E1 & E2) | (e & _ & He)];
      [| discriminate He].
    rewrite (bind_ok _ _ _ _ _ E1). apply IH. exact E2.
Qed.

(** The first check to raise ends the run of the checks. *)
Lemma in_order_aborted pre c post w w1 w2 e :
  in_order pre w = (ok tt, w1) -> snd c w1 = (raise e, w2) ->
  in_order (pre ++ c :: post) w = (raise e, w2).
Proof.
  intros Epre Ec. rewrite (in_order_passed pre (c :: post) w w1 Epre). simpl.
  apply bind_raise. exact Ec.
Qed.

Lemma in_order_entered cs w w' :
  Forall (fun c : check * M unit => forall w r w', snd c w = (r, w') ->
                                  entered w' = (entered w ++ [fst c])%list) cs ->
  in_order cs w = (ok tt, w') ->
  entered w' = (entered w ++ map fst cs)%list.
Proof.
  intros Hall. revert w. induction Hall as [| c cs Hc _ IH]; intros w E; simpl in *.
  - injection E as <-. symmetry. apply app_nil_r.
  - destruct (bind_inv _ _ _ _ _ E) as [(a & w1 & E1 & E2) | (e & _ & He)];
      [| discriminate He].
    rewrite (IH _ E2), (Hc _ _ _ E1), <- app_assoc. reflexivity.
Qed.

Lemma in_order_preserves (R : World -> World -> Prop) cs :
  (forall w, R w w) -> (forall w1 w2 w3, R w1 w2 -> R w2 w3 -> R w1 w3) ->
  Forall (fun c : check * M unit => preserves R (snd c)) cs -> preserves R (in_order cs).
Proof.
  intros Hrefl Htrans Hall. induction Hall as [| c cs Hc _ IH]; simpl.
  - apply preserves_ret; assumption.
  - apply preserves_bind; auto.
Qed.

End InOrder.

(** ** The checks on the tags of HEAD *)

Section OtherChecks.

Implicit Types h v : Version.

Lemma bind_enter {B : Type} (c : check) (f : unit -> M B) (w : World) :
  bind (enter c) f w = f tt (entered_in c w).
Proof. reflexivity. Qed.

Lemma multiple_versions_check_run (head_versions : list Version) (w : World) :
  check_head_has_multiple_versions head_versions w
  = (match head_versions with
     | [] => ok tt
     | h0 :: _ =>
         match find (fun version => __ne__ version h0) head_versions with
         | Some version => raise (VersionTagError 3 (multiple_versions_msg version h0))
         | None => ok tt
         end
     end, entered_in MultipleVersions w).
Proof.
  unfold check_head_has_multiple_versions. rewrite bind_enter.
  generalize (entered_in MultipleVersions w) as w1. intros w1.
  destruct head_versions as [| h0 rest]; [reflexivity |].
  change (Py.item (h0 :: rest) 0) with (ok h0).
  generalize (h0 :: rest) as l. intros l.
  induction l as [| v l IH]; [reflexivity |].
  cbn [for_ find]. unfold bind at 1. rewrite bind_lift_ok.
  destruct (__ne__ v h0); [reflexivity |].
  unfold ret at 1. cbv beta iota. exact IH.
Qed.

(** X11. The multiplicity check raises code 3 for the first head version,
    in the order of the list, whose order key differs from that of the
    first one, and names the tags of both; it returns normally exactly
    when all head versions share one order key.  It appends no warning. *)
Theorem multiple_versions_check_names_first_differing
    (head_versions : list Version) (w : World) :
  check_head_has_multiple_versions head_versions w
  = (match head_versions with
     | [] => ok tt
     | h0 :: _ =>
         match find (fun version => __ne__ version h0) head_versions with
         | Some version => raise (VersionTagError 3 (multiple_versions_msg version h0))
         | None => ok tt
         end
     end, entered_in MultipleVersions w)
  /\ (fst (check_head_has_multiple_versions head_versions w) = ok tt
      <-> forall a b, In a head_versions -> In b head_versions ->
                      _version a = _version b).
Proof.
  split; [apply multiple_versions_check_run |].
  rewrite multiple_versions_check_run. cbn [fst].
  destruct head_versions as [| h0 rest].
  - split; [intros _ a b [] | reflexivity].
  - destruct (find (fun version => __ne__ version h0) (h0 :: rest)) as [v |] eqn:Ef.
    + split; [discriminate |].
      intros Hall. exfalso.
      apply find_some in Ef. destruct Ef as [Hin Hne].
      apply ne_by_order_key in Hne. apply Hne.
      apply Hall; [exact Hin | left; reflexivity].
    + split; [| reflexivity].
      intros _ a b Ha Hb.
      pose proof (find_none _ _ Ef a Ha) as Na.
      pose proof (find_none _ _ Ef b Hb) as Nb.
      cbv beta in Na, Nb.
      unfold __ne__ in Na, Nb.
      apply negb_false_iff, Z.eqb_eq in Na. apply negb_false_iff, Z.eqb_eq in Nb.
      congruence.
Qed.

Lemma local_changes_check_run (wt ix : string) (w : World) :
  check_head_has_local_changes wt ix w
  = (if negb (String.eqb wt "") then
       raise (VersionTagError 2
                "HEAD is tagged but has local changes. This is not allowed.")
     else if negb (String.eqb ix "") then
       raise (VersionTagError 2
                "HEAD is tagged but has staged changes. This is not allowed.")
     else ok tt,
     entered_in LocalChanges w).
Proof.
  unfold check_head_has_local_changes. rewrite bind_enter.
  destruct (negb (String.eqb wt "")); [reflexivity |].
  destruct (negb (String.eqb ix "")); reflexivity.
Qed.

Lemma for_cons {A : Type} (x : A) (l : list A) (body : A -> M unit) (w : World) :
  for_ (x :: l) body w
  = match body x w with
    | (inl _, w') => for_ l body w'
    | (inr e, w') => (inr e, w')
    end.
Proof. reflexivity. Qed.

Lemma bind_lift {A B : Type} (r : res A) (f : A -> M B) (w : World) :
  bind (lift r) f w
  = match r with
    | inl a => f a w
    | inr e => (inr e, w)
    end.
Proof. destruct r; reflexivity. Qed.

(** [run_git_cmd], by the answer of the shell. *)
Lemma run_git_cmd_run (os : OS) (command : string) (w : World) :
  run_git_cmd os command w
  = (match run_shell os (requests w) ("git " ++ command) with
     | inr e => raise (LibraryError e)
     | inl (returncode, process_stdout) =>
         if negb (returncode =? 0)
         then raise (CommandError ("Git failed while running '" ++ command ++ "'"))
         else ok process_stdout
     end, asked (CommandLine ("git " ++ command)) w).
Proof.
  unfold run_git_cmd.
  destruct (run_shell os (requests w) ("git " ++ command)) as [[returncode out] | e];
    reflexivity.
Qed.

Lemma asked_all_nothing (w : World) : asked_all [] w = w.
Proof. destruct w. unfold asked_all. cbn. rewrite app_nil_r. reflexivity. Qed.

Lemma asked_all_asked (r : request) (asks : list request) (w : World) :
  asked_all asks (asked r w) = asked_all (r :: asks) w.
Proof. unfold asked_all, asked. cbn. rewrite <- app_assoc. reflexivity. Qed.

Lemma asked_is_asked_all (r : request) (w : World) : asked r w = asked_all [r] w.
Proof. reflexivity. Qed.

Lemma objecttype_answer_later (os : OS) (w : World) (first : Version)
    (before : list Version) (head_version : Version) :
  objecttype_answer os (requests (asked (objecttype_request first) w)) before
    head_version
  = objecttype_answer os (requests w) (first :: before) head_version.
Proof.
  unfold objecttype_answer, asked. cbn [requests map].
  rewrite <- app_assoc. reflexivity.
Qed.

Lemma all_annotated_later (os : OS) (w : World) (first : Version)
    (before : list Version) :
  all_annotated os (requests w) (first :: before) ->
  all_annotated os (requests (asked (objecttype_request first) w)) before.
Proof.
  intros Hall earlier head_version later E.
  rewrite objecttype_answer_later.
  apply (Hall (first :: earlier) head_version later). rewrite E. reflexivity.
Qed.

Lemma all_annotated_first (os : OS) (past : list request) (first : Version)
    (before : list Version) :
  all_annotated os past (first :: before) ->
  exists process_stdout,
    run_shell os past (objecttype_cmd (Py.str_opt (_tag_name first)))
    = inl (0, process_stdout)
    /\ Py.strip process_stdout <> "commit".
Proof.
  intros Hall. destruct (Hall [] first before eq_refl) as (out & E & Hc).
  exists out. split; [| exact Hc].
  unfold objecttype_answer in E. cbn [map] in E. rewrite app_nil_r in E. exact E.
Qed.

(** The loop of the annotation check, one head version after the other. *)
Lemma lightweight_loop_step (os : OS) (head_version : Version)
    (rest : list Version) (w : World) :
  for_ (head_version :: rest)
    (fun head_version =>
       objecttype <- run_git_cmd os
                       ("for-each-ref --format=" ++ Py.quote ++ "%(objecttype)"
                        ++ Py.quote ++ " refs/tags/"
                        ++ Py.str_opt (_tag_name head_version)) ;;
       if String.eqb (Py.strip objecttype) "commit"
       then throw (VersionTagError 4
                     ("You assigned a lightweight tag ("
                      ++ Py.str_opt (_tag_name head_version)
                      ++ ") to HEAD, you should use annotated tags (git tag -a)"))
       else ret tt) w
  = match objecttype_verdict (objecttype_answer os (requests w) [] head_version)
            head_version with
    | Some e => (raise e, asked (objecttype_request head_version) w)
    | None =>
        for_ rest
          (fun head_version =>
             objecttype <- run_git_cmd os
                             ("for-each-ref --format=" ++ Py.quote ++ "%(objecttype)"
                              ++ Py.quote ++ " refs/tags/"
                              ++ Py.str_opt (_tag_name head_version)) ;;
             if String.eqb (Py.strip objecttype) "commit"
             then throw (VersionTagError 4
                           ("You assigned a lightweight tag ("
                            ++ Py.str_opt (_tag_name head_version)
                            ++ ") to HEAD, you should use annotated tags (git tag -a)"))
             else ret tt)
          (asked (objecttype_request head_version) w)
    end.
Proof.
  rewrite for_cons. unfold bind at 1. rewrite run_git_cmd_run.
  unfold objecttype_answer, objecttype_verdict. cbn [map]. rewrite app_nil_r.
  change ("git " ++ "for-each-ref --format=" ++ Py.quote ++ "%(objecttype)"
          ++ Py.quote ++ " refs/tags/" ++ Py.str_opt (_tag_name head_version))
    with (objecttype_cmd (Py.str_opt (_tag_name head_version))).
  change (CommandLine (objecttype_cmd (Py.str_opt (_tag_name head_version))))
    with (objecttype_request head_version).
  destruct (run_shell os (requests w)
              (objecttype_cmd (Py.str_opt (_tag_name head_version))))
    as [[returncode out] | e]; [| reflexivity].
  destruct (negb (returncode =? 0)); [reflexivity |].
  unfold ok. cbv iota beta.
  destruct (String.eqb (Py.strip out) "commit"); reflexivity.
Qed.

Lemma annotated_verdict (os : OS) (past : list request) (first : Version)
    (before : list Version) :
  all_annotated os past (first :: before) ->
  objecttype_verdict (objecttype_answer os past [] first) first = None.
Proof.
  intros Hall. destruct (Hall [] first before eq_refl) as (out & E & Hc).
  rewrite E. unfold objecttype_verdict. cbn [Z.eqb negb].
  apply String.eqb_neq in Hc. rewrite Hc. reflexivity.
Qed.

Lemma verdict_none (a : answer (Z * string)) (head_version : Version) :
  objecttype_verdict a head_version = None ->
  exists process_stdout,
    a = inl (0, process_stdout) /\ Py.strip process_stdout <> "commit".
Proof.
  unfold objecttype_verdict. destruct a as [[returncode out] | e]; [| discriminate].
  destruct (returncode =? 0) eqn:E0; cbn [negb]; [| discriminate].
  apply Z.eqb_eq in E0. subst returncode.
  destruct (String.eqb (Py.strip out) "commit") eqn:Ec; [discriminate |].
  intros _. exists out. split; [reflexivity |]. apply String.eqb_neq. exact Ec.
Qed.

(** The first head version git does not report an annotated tag for ends
    the check. *)
Lemma lightweight_check_first_refused (os : OS) (before : list Version)
    (head_version : Version) (later : list Version) (e : exn) (w : World) :
  all_annotated os (requests w) before ->
  objecttype_verdict (objecttype_answer os (requests w) before head_version)
    head_version = Some e ->
  check_tag_is_lightweight os (before ++ head_version :: later) w
  = (raise e,
     asked_all (map objecttype_request (before ++ [head_version]))
       (entered_in TagIsLightweight w)).
Proof.
  unfold check_tag_is_lightweight. rewrite bind_enter.
  change (requests w) with (requests (entered_in TagIsLightweight w)).
  generalize (entered_in TagIsLightweight w) as w1. clear w.
  induction before as [| first before IH]; intros w1 Hall Hv.
  - cbn [app]. rewrite lightweight_loop_step, Hv. reflexivity.
  - cbn [app]. rewrite lightweight_loop_step.
    rewrite (annotated_verdict os (requests w1) first before Hall).
    rewrite (IH (asked (objecttype_request first) w1)).
    + rewrite asked_all_asked. reflexivity.
    + apply all_annotated_later. exact Hall.
    + rewrite objecttype_answer_later. exact Hv.
Qed.

(** The check returns exactly when git reports an annotated tag for every
    head version, and has then asked about each of them in turn. *)
Lemma lightweight_check_passes (os : OS) (head_versions : list Version) (w : World) :
  (fst (check_tag_is_lightweight os head_versions w) = ok tt
   <-> all_annotated os (requests w) head_versions)
  /\ (all_annotated os (requests w) head_versions ->
      check_tag_is_lightweight os head_versions w
      = (ok tt,
         asked_all (map objecttype_request head_versions)
           (entered_in TagIsLightweight w))).
Proof.
  unfold check_tag_is_lightweight. rewrite bind_enter.
  change (requests w) with (requests (entered_in TagIsLightweight w)).
  generalize (entered_in TagIsLightweight w) as w1. clear w.
  induction head_versions as [| first rest IH]; intros w1.
  - split; [split |].
    + intros _ earlier head_version later E. destruct earlier; discriminate E.
    + reflexivity.
    + intros _. cbn [map]. rewrite asked_all_nothing. reflexivity.
  - rewrite lightweight_loop_step.
    destruct (objecttype_verdict
                (objecttype_answer os (requests w1) [] first) first) as [e |] eqn:Ev.
    + split; [split |].
      * discriminate.
      * intros Hall. rewrite (annotated_verdict os _ first rest Hall) in Ev.
        discriminate Ev.
      * intros Hall. rewrite (annotated_verdict os _ first rest Hall) in Ev.
        discriminate Ev.
    + destruct (IH (asked (objecttype_request first) w1)) as [Hiff Hrun].
      assert (Hstep : all_annotated os (requests w1) (first :: rest)
                      <-> all_annotated os
                            (requests (asked (objecttype_request first) w1)) rest).
      { split; [apply all_annotated_later |].
        intros Hall earlier head_version later E.
        destruct earlier as [| x earlier]; cbn [app] in E; injection E as -> E.
        - apply verdict_none in Ev. exact Ev.
        - rewrite <- objecttype_answer_later.
          apply (Hall earlier head_version later E). }
      split.
      * rewrite Hiff. symmetry. exact Hstep.
      * intros Hall. rewrite (Hrun (proj1 Hstep Hall)).
        rewrite asked_all_asked. reflexivity.
Qed.

(** X12. The annotation check asks git for the object type of the tag of
    each head version in turn.  The first head version for which the
    answer is not an object type other than [commit] with exit status 0
    ends the check: with code 4 and the name of the tag when the answer,
    stripped, is [commit]; with CommandError when the exit status is not 0;
    with the exception of the library when the command could not be run or
    its output not decoded.  The check returns normally exactly when git
    answers for every head version with status 0 and another object type,
    having asked about all of them.  Each answer is the one git gives after
    the queries before it.  The check appends no warning. *)
Theorem lightweight_check_names_first_lightweight :
  (forall os before head_version later process_stdout w,
      all_annotated os (requests w) before ->
      objecttype_answer os (requests w) before head_version
      = inl (0, process_stdout) ->
      Py.strip process_stdout = "commit" ->
      check_tag_is_lightweight os (before ++ head_version :: later) w
      = (raise (VersionTagError 4 (lightweight_msg head_version)),
         asked_all (map objecttype_request (before ++ [head_version]))
           (entered_in TagIsLightweight w)))
  /\ (forall os before head_version later returncode process_stdout w,
         all_annotated os (requests w) before ->
         objecttype_answer os (requests w) before head_version
         = inl (returncode, process_stdout) ->
         returncode <> 0 ->
         check_tag_is_lightweight os (before ++ head_version :: later) w
         = (raise (CommandError
                     ("Git failed while running 'for-each-ref --format="
                      ++ Py.quote ++ "%(objecttype)" ++ Py.quote ++ " refs/tags/"
                      ++ Py.str_opt (_tag_name head_version) ++ "'")),
            asked_all (map objecttype_request (before ++ [head_version]))
              (entered_in TagIsLightweight w)))
  /\ (forall os before head_version later e w,
         all_annotated os (requests w) before ->
         objecttype_answer os (requests w) before head_version = inr e ->
         check_tag_is_lightweight os (before ++ head_version :: later) w
         = (raise (LibraryError e),
            asked_all (map objecttype_request (before ++ [head_version]))
              (entered_in TagIsLightweight w)))
  /\ (forall os head_versions w,
         (fst (check_tag_is_lightweight os head_versions w) = ok tt
          <-> all_annotated os (requests w) head_versions)
         /\ (all_annotated os (requests w) head_versions ->
             check_tag_is_lightweight os head_versions w
             = (ok tt,
                asked_all (map objecttype_request head_versions)
                  (entered_in TagIsLightweight w))))
  /\ (forall os head_versions w,
         warning_msgs (snd (check_tag_is_lightweight os head_versions w))
         = warning_msgs w).
Proof.
  split; [| split; [| split; [| split]]].
  - intros os before head_version later out w Hall Ea Hc.
    apply lightweight_check_first_refused; [exact Hall |].
    rewrite Ea. unfold objecttype_verdict. cbn [Z.eqb negb].
    apply String.eqb_eq in Hc. rewrite Hc. reflexivity.
  - intros os before head_version later returncode out w Hall Ea Hr.
    apply lightweight_check_first_refused; [exact Hall |].
    rewrite Ea. unfold objecttype_verdict.
    apply Z.eqb_neq in Hr. rewrite Hr. reflexivity.
  - intros os before head_version later e w Hall Ea.
    apply lightweight_check_first_refused; [exact Hall |].
    rewrite Ea. reflexivity.
  - intros os head_versions w. apply lightweight_check_passes.
  - intros os head_versions w.
    destruct (check_tag_is_lightweight os head_versions w) as [r w'] eqn:E.
    unfold check_tag_is_lightweight in E.
    revert E. generalize w r w'.
    change (preserves same_warnings
              (enter TagIsLightweight ;;
               for_ head_versions
                 (fun head_version =>
                    objecttype <- run_git_cmd os
                                    ("for-each-ref --format=" ++ Py.quote
                                     ++ "%(objecttype)" ++ Py.quote ++ " refs/tags/"
                                     ++ Py.str_opt (_tag_name head_version)) ;;
                    if String.eqb (Py.strip objecttype) "commit"
                    then throw (VersionTagError 4
                                  ("You assigned a lightweight tag ("
                                   ++ Py.str_opt (_tag_name head_version)
                                   ++ ") to HEAD, you should use annotated tags (git tag -a)"))
                    else ret tt))).
    apply (preserves_bind same_warnings same_warnings_trans);
      [apply enter_same_warnings | intros _].
    apply (preserves_for same_warnings same_warnings_refl same_warnings_trans).
    intros head_version.
    apply (preserves_bind same_warnings same_warnings_trans);
      [apply (preserves_run_git_cmd same_warnings asked_same_warnings) | intros objecttype].
    apply preserves_if;
      [apply (preserves_throw same_warnings same_warnings_refl)
      | apply (preserves_ret same_warnings same_warnings_refl)].
Qed.

(** HEAD on a lightweight tag. *)
Lemma lightweight_check_names_first_lightweight_witness :
  check_tag_is_lightweight sample_lightweight_os [sample_registered] sample_world
  = (raise (VersionTagError 4
              "You assigned a lightweight tag (10006000/V1_00_00) to HEAD, you should use annotated tags (git tag -a)"),
     asked_all [objecttype_request sample_registered]
       (entered_in TagIsLightweight sample_world)).
Proof.
  refine (proj1 lightweight_check_names_first_lightweight sample_lightweight_os
            [] sample_registered [] ("commit" ++ Py.nl) sample_world _ _ _).
  - intros earlier head_version later E. destruct earlier; discriminate E.
  - reflexivity.
  - reflexivity.
Defined.

Lemma nonversion_tags_loop (tags acc : list string) :
  rfold (fun non_version_tags head_tag =>
           let? p := parse_version_tag head_tag in
           match p with
           | None => ok (non_version_tags ++ [head_tag])%list
           | Some _ => ok non_version_tags
           end)
        tags acc
  = ok (acc ++ filter is_nonversion_tag tags)%list.
Proof.
  set (body := fun (non_version_tags : list string) (head_tag : string) =>
                 let? p := parse_version_tag head_tag in
                 match p with
                 | None => ok (non_version_tags ++ [head_tag])%list
                 | Some _ => ok non_version_tags
                 end).
  assert (Hbody : forall l t,
             body l t = ok (if is_nonversion_tag t then (l ++ [t])%list else l)).
  { intros l t. unfold body, is_nonversion_tag.
    destruct (parse_version_tag_total t) as [r Er]. rewrite Er.
    destruct r; reflexivity. }
  revert acc. induction tags as [| t tags IH]; intros acc; cbn [rfold filter].
  - rewrite app_nil_r. reflexivity.
  - rewrite Hbody. cbn [rbind ok]. rewrite IH.
    destruct (is_nonversion_tag t); [| reflexivity].
    rewrite <- app_assoc. reflexivity.
Qed.

Lemma stray_tag_check_run (os : OS) (w : World) :
  check_head_has_version_and_nonversion_tag os w
  = match run_shell os (requests w) "git tag --points-at HEAD" with
    | inr e =>
        (raise (LibraryError e),
         asked points_at_head (entered_in VersionAndNonversionTag w))
    | inl (returncode, process_stdout) =>
        if negb (returncode =? 0) then
          (raise (CommandError "Git failed while running 'tag --points-at HEAD'"),
           asked points_at_head (entered_in VersionAndNonversionTag w))
        else
          (ok tt,
           match filter is_nonversion_tag (Py.splitlines process_stdout) with
           | [] => asked points_at_head (entered_in VersionAndNonversionTag w)
           | stray =>
               warned (stray_tags_msg stray)
                 (asked points_at_head (entered_in VersionAndNonversionTag w))
           end)
    end.
Proof.
  unfold check_head_has_version_and_nonversion_tag.
  rewrite bind_enter.
  change (requests w) with (requests (entered_in VersionAndNonversionTag w)).
  generalize (entered_in VersionAndNonversionTag w) as w1. intros w1.
  unfold bind at 1. rewrite run_git_cmd_run.
  change ("git " ++ "tag --points-at HEAD") with "git tag --points-at HEAD".
  change (CommandLine "git tag --points-at HEAD") with points_at_head.
  destruct (run_shell os (requests w1) "git tag --points-at HEAD")
    as [[returncode out] | e]; [| reflexivity].
  destruct (negb (returncode =? 0)); [reflexivity |].
  unfold ok. cbv iota beta.
  rewrite nonversion_tags_loop. cbn [app].
  rewrite bind_lift_ok.
  destruct (filter is_nonversion_tag (Py.splitlines out)); reflexivity.
Qed.

Lemma get_head_nonversion_tags_run (os : OS) (w : World) :
  get_head_nonversion_tags os w
  = (match run_shell os (requests w) "git tag --points-at HEAD" with
     | inr e => raise (LibraryError e)
     | inl (returncode, process_stdout) =>
         if negb (returncode =? 0) then
           raise (CommandError "Git failed while running 'tag --points-at HEAD'")
         else ok (filter is_nonversion_tag (Py.splitlines process_stdout))
     end, asked points_at_head w).
Proof.
  unfold get_head_nonversion_tags.
  unfold bind at 1. rewrite run_git_cmd_run.
  change ("git " ++ "tag --points-at HEAD") with "git tag --points-at HEAD".
  change (CommandLine "git tag --points-at HEAD") with points_at_head.
  destruct (run_shell os (requests w) "git tag --points-at HEAD")
    as [[returncode out] | e]; [| reflexivity].
  destruct (negb (returncode =? 0)); [reflexivity |].
  unfold ok. cbv iota beta.
  rewrite nonversion_tags_loop. reflexivity.
Qed.

(** X13. The stray-tag check never raises the script's own error.  It runs
    [git tag --points-at HEAD] once.  When the library raises in running
    it, that exception passes; when git fails the check raises
    CommandError; and so does [get_head_nonversion_tags] in both cases.
    Otherwise the check returns, having appended one warning that lists
    the non-version tags when there is at least one and no warning when
    there is none, and [get_head_nonversion_tags] returns that list.  The
    non-version tags are the lines of git's answer for which
    [parse_version_tag] returns [None], in order. *)
Theorem stray_tag_check_only_warns (os : OS) (w : World) :
  match run_shell os (requests w) "git tag --points-at HEAD" with
  | inr e =>
      check_head_has_version_and_nonversion_tag os w
      = (raise (LibraryError e),
         asked points_at_head (entered_in VersionAndNonversionTag w))
      /\ get_head_nonversion_tags os w
         = (raise (LibraryError e), asked points_at_head w)
  | inl (returncode, process_stdout) =>
      let stray := filter is_nonversion_tag (Py.splitlines process_stdout) in
      (if negb (returncode =? 0) then
         check_head_has_version_and_nonversion_tag os w
         = (raise (CommandError "Git failed while running 'tag --points-at HEAD'"),
            asked points_at_head (entered_in VersionAndNonversionTag w))
         /\ get_head_nonversion_tags os w
            = (raise (CommandError "Git failed while running 'tag --points-at HEAD'"),
               asked points_at_head w)
       else
         check_head_has_version_and_nonversion_tag os w
         = (ok tt,
            match stray with
            | [] => asked points_at_head (entered_in VersionAndNonversionTag w)
            | _ :: _ =>
                warned (stray_tags_msg stray)
                  (asked points_at_head (entered_in VersionAndNonversionTag w))
            end)
         /\ get_head_nonversion_tags os w = (ok stray, asked points_at_head w))
      /\ (forall tag, In tag stray <->
                      In tag (Py.splitlines process_stdout)
                      /\ parse_version_tag tag = ok None)
  end.
Proof.
  rewrite stray_tag_check_run, get_head_nonversion_tags_run.
  destruct (run_shell os (requests w) "git tag --points-at HEAD")
    as [[returncode out] | e]; [| split; reflexivity].
  cbv zeta. split.
  - destruct (negb (returncode =? 0)); [split; reflexivity |].
    destruct (filter is_nonversion_tag (Py.splitlines out)); split; reflexivity.
  - intros tag. rewrite filter_In. unfold is_nonversion_tag.
    destruct (parse_version_tag_total tag) as [r Er]. rewrite Er.
    destruct r as [t |]; split; intros [Hin H]; split;
      try assumption; try reflexivity; discriminate.
Qed.

End OtherChecks.

(** ** run *)

Section Run.

Variable os : OS.
Variable target_file : string.
Variables versions : list Version.
Variable head_versions : option (list Version).
Variables head_sha1 wt ix : string.

Lemma run_checks_aborted (w w2 : World) (code : Z) (msg : string) :
  check_head os versions head_versions head_sha1 wt ix w
  = (raise (VersionTagError code msg), w2) ->
  run_checks_and_write os target_file versions head_versions head_sha1 wt ix w
  = (ok (code, Some msg, warning_msgs w2), w2).
Proof.
  intros E. unfold run_checks_and_write. unfold bind at 1. unfold try_except.
  rewrite (bind_raise _ _ _ _ _ E). reflexivity.
Qed.

Lemma run_checks_passed (w w6 : World) :
  head_versions <> Some [] ->
  check_head os versions head_versions head_sha1 wt ix w = (ok tt, w6) ->
  run_checks_and_write os target_file versions head_versions head_sha1 wt ix w
  = write_and_report os target_file
      (version_file_content (fst (header_numbers head_versions))
         (snd (header_numbers head_versions)) (revisionhash head_sha1 wt ix))
      (summary head_versions head_sha1) w6.
Proof.
  intros Hne E. unfold run_checks_and_write. unfold bind at 1. unfold try_except.
  rewrite (bind_ok _ _ _ _ _ E).
  unfold bind at 1. rewrite (write_version_file_run os _ _ _ _ _ _ Hne).
  unfold write_and_report, write_file.
  destruct (write_to os (requests w6) target_file
              (version_file_content (fst (header_numbers head_versions))
                 (snd (header_numbers head_versions)) (revisionhash head_sha1 wt ix)))
    as [u | e]; [| reflexivity].
  unfold bind at 1. rewrite (print_version_information_run os _ _ _ _ Hne).
  unfold print. cbn [requests].
  destruct (print_out os
              (requests w6 ++
               [FileWrite target_file
                  (version_file_content (fst (header_numbers head_versions))
                     (snd (header_numbers head_versions))
                     (revisionhash head_sha1 wt ix))])
              (summary head_versions head_sha1)) as [u' | e]; reflexivity.
Qed.

(** An exception other than the script's own goes through [run]. *)
Lemma run_checks_raised (w w' : World) (e : exn) :
  check_head os versions head_versions head_sha1 wt ix w = (raise e, w') ->
  (forall error_code error_msg, e <> VersionTagError error_code error_msg) ->
  run_checks_and_write os target_file versions head_versions head_sha1 wt ix w
  = (raise e, w').
Proof.
  intros E Hne. unfold run_checks_and_write. unfold bind at 1. unfold try_except.
  rewrite (bind_raise _ _ _ _ _ E).
  destruct e as [error_code error_msg | | | | | |]; try reflexivity.
  exfalso. exact (Hne error_code error_msg eq_refl).
Qed.

End Run.

Lemma run_after_reading (os : OS) (target_file : string)
    (versions historical : list Version) (head_versions : option (list Version))
    (head_sha1 wt ix : string) (w w1 w2 w3 : World) :
  get_versions_from_tags os (snd (reset_warnings w)) = (ok versions, w1) ->
  get_head_sha1 os w1 = (ok head_sha1, w2) ->
  get_head_versions versions head_sha1 = ok (head_versions, historical) ->
  get_head_has_local_changes os w2 = (ok (wt, ix), w3) ->
  run os target_file w
  = run_checks_and_write os target_file historical head_versions head_sha1 wt ix w3.
Proof.
  intros Ev Es Eh Ec. unfold run.
  unfold bind at 1. unfold reset_warnings at 1. cbv beta iota.
  unfold reset_warnings in Ev. cbn [snd] in Ev.
  rewrite (bind_ok _ _ _ _ _ Ev), (bind_ok _ _ _ _ _ Es).
  rewrite Eh, bind_lift_ok. cbv zeta.
  rewrite (bind_ok _ _ _ _ _ Ec). reflexivity.
Qed.

(** Reading leaves the warnings, the checks entered and the output as they
    were. *)
Lemma reading_keeps (os : OS) (versions : list Version) (head_sha1 wt ix : string)
    (w w1 w2 w3 : World) :
  get_versions_from_tags os w = (ok versions, w1) ->
  get_head_sha1 os w1 = (ok head_sha1, w2) ->
  get_head_has_local_changes os w2 = (ok (wt, ix), w3) ->
  warning_msgs w3 = warning_msgs w /\ entered w3 = entered w /\ same_output w w3.
Proof.
  intros Ev Es Ec.
  destruct (reads_preserve same_warnings same_warnings_refl same_warnings_trans
              asked_same_warnings os) as (W1 & W2 & W3 & _).
  destruct (reads_preserve same_entered same_entered_refl same_entered_trans
              asked_same_entered os) as (N1 & N2 & N3 & _).
  destruct (reads_preserve same_output same_output_refl same_output_trans
              asked_same_output os) as (O1 & O2 & O3 & _).
  split; [| split].
  - rewrite (W3 _ _ _ Ec), (W2 _ _ _ Es), (W1 _ _ _ Ev). reflexivity.
  - rewrite (N3 _ _ _ Ec), (N2 _ _ _ Es), (N1 _ _ _ Ev). reflexivity.
  - eapply same_output_trans; [| exact (O3 _ _ _ Ec)].
    eapply same_output_trans; [exact (O1 _ _ _ Ev) | exact (O2 _ _ _ Es)].
Qed.

(** ** The warnings the checks append *)

Section WarningsOfTheChecks.

Variable os : OS.
Variables versions rest : list Version.
Variable h0 : Version.
Variables wt ix : string.

Lemma skip_check_warnings (w w' : World) (r : res unit) :
  check_head_version_skipped_a_version h0 versions w = (r, w') ->
  warning_msgs w' = (warning_msgs w ++ skip_warning h0 versions)%list.
Proof.
  rewrite skip_check_run. cbv zeta. unfold skip_warning.
  destruct (__le__ h0 (most_recent_version (kind h0) versions)).
  - intros E. injection E as _ <-. reflexivity.
  - destruct (String.eqb (kind h0) "release"); intros E; injection E as _ <-;
      cbn; rewrite app_nil_r; reflexivity.
Qed.

Lemma skip_check_raises_without_warning (w w' : World) (e : exn) :
  check_head_version_skipped_a_version h0 versions w = (raise e, w') ->
  warning_msgs w' = warning_msgs w.
Proof.
  rewrite skip_check_run. cbv zeta.
  destruct (__le__ h0 (most_recent_version (kind h0) versions)); [discriminate |].
  destruct (String.eqb (kind h0) "release"); intros E; injection E as _ <-;
    reflexivity.
Qed.

Lemma stray_check_raises_no_version_error (w w' : World) (code : Z) (msg : string) :
  check_head_has_version_and_nonversion_tag os w
  <> (raise (VersionTagError code msg), w').
Proof.
  rewrite stray_tag_check_run.
  destruct (run_shell os (requests w) "git tag --points-at HEAD")
    as [[returncode out] | e]; [| discriminate].
  destruct (negb (returncode =? 0)); discriminate.
Qed.

(** The warnings after the checks before some check of the pipeline have
    passed, and after that check has raised the script's error. *)
Lemma warnings_at_the_abort (pre post : list (check * M unit)) (c : check * M unit)
    (w w1 w2 : World) (code : Z) (msg : string) :
  pipeline os versions (h0 :: rest) h0 wt ix = (pre ++ c :: post)%list ->
  in_order pre w = (ok tt, w1) ->
  snd c w1 = (raise (VersionTagError code msg), w2) ->
  warning_msgs w1
  = (warning_msgs w
     ++ (if existsb is_skip_check pre then skip_warning h0 versions else []))%list
  /\ warning_msgs w2 = warning_msgs w1.
Proof.
  intros Hsplit Epre Ec.
  destruct (quiet_checks_preserve same_warnings same_warnings_refl
              same_warnings_trans asked_same_warnings os versions (h0 :: rest) h0
              wt ix (enter_same_warnings _) (enter_same_warnings _)
              (enter_same_warnings _) (enter_same_warnings _))
    as (Q1 & Q3 & Q4 & Q5).
  unfold pipeline in Hsplit.
  destruct pre as [| c1 pre]; cbn [app] in Hsplit; injection Hsplit as <- Hsplit.
  { cbn in Epre. injection Epre as <-. cbn. rewrite app_nil_r.
    split; [reflexivity | exact (Q1 _ _ _ Ec)]. }
  cbn [in_order snd] in Epre.
  destruct (bind_inv _ _ _ _ _ Epre) as [([] & v1 & E1 & Epre1) | (e & _ & He)];
    [| discriminate He].
  pose proof (Q1 _ _ _ E1) as W1. unfold same_warnings in W1.
  destruct pre as [| c2 pre]; cbn [app] in Hsplit; injection Hsplit as <- Hsplit.
  { cbn in Epre1. injection Epre1 as <-. cbn. rewrite app_nil_r.
    split; [exact W1 | exact (skip_check_raises_without_warning _ _ _ Ec)]. }
  cbn [in_order snd] in Epre1.
  destruct (bind_inv _ _ _ _ _ Epre1) as [([] & v2 & E2 & Epre2) | (e & _ & He)];
    [| discriminate He].
  pose proof (skip_check_warnings _ _ _ E2) as W2. rewrite W1 in W2.
  destruct pre as [| c3 pre]; cbn [app] in Hsplit; injection Hsplit as <- Hsplit.
  { cbn in Epre2. injection Epre2 as <-. cbn.
    split; [exact W2 | exact (Q3 _ _ _ Ec)]. }
  cbn [in_order snd] in Epre2.
  destruct (bind_inv _ _ _ _ _ Epre2) as [([] & v3 & E3 & Epre3) | (e & _ & He)];
    [| discriminate He].
  pose proof (Q3 _ _ _ E3) as W3. unfold same_warnings in W3. rewrite W2 in W3.
  destruct pre as [| c4 pre]; cbn [app] in Hsplit; injection Hsplit as <- Hsplit.
  { cbn in Epre3. injection Epre3 as <-. cbn.
    split; [exact W3 | exact (Q4 _ _ _ Ec)]. }
  cbn [in_order snd] in Epre3.
  destruct (bind_inv _ _ _ _ _ Epre3) as [([] & v4 & E4 & Epre4) | (e & _ & He)];
    [| discriminate He].
  pose proof (Q4 _ _ _ E4) as W4. unfold same_warnings in W4. rewrite W3 in W4.
  destruct pre as [| c5 pre]; cbn [app] in Hsplit; injection Hsplit as <- Hsplit.
  { cbn in Epre4. injection Epre4 as <-. cbn.
    split; [exact W4 | exact (Q5 _ _ _ Ec)]. }
  cbn [in_order snd] in Epre4.
  destruct (bind_inv _ _ _ _ _ Epre4) as [([] & v5 & E5 & Epre5) | (e & _ & He)];
    [| discriminate He].
  pose proof (Q5 _ _ _ E5) as W5. unfold same_warnings in W5. rewrite W4 in W5.
  destruct pre as [| c6 pre]; cbn [app] in Hsplit; injection Hsplit as <- Hsplit.
  { cbn in Epre5. injection Epre5 as <-.
    exfalso. exact (stray_check_raises_no_version_error _ _ _ _ Ec). }
  exfalso. destruct pre; discriminate Hsplit.
Qed.

End WarningsOfTheChecks.

(** C3. With head versions present, [check_head] is the six checks in the
    order duplicate, skip, annotation, multiplicity, clean tree, stray tag.
    When the checks before some check pass and that check raises
    VersionTagError, [run] returns its code and message together with the
    warnings of that moment; exactly the checks up to and including the
    failing one were entered, and nothing was written or printed.  The
    warnings of that moment are those of before the checks followed by the
    warning of the skip check, if the skip check is among the checks that
    passed and appended one: the failing check itself appends none, and
    the other checks before it append none.  So when the skip check has
    warned of an earlier checkout and a later check fails, that warning is
    returned with the error; a repository with tags 1.00.00 and 2.00.00,
    HEAD on 1.00.00 and a staged change gives code 2 and that warning.
    When all six pass, all six were entered, in order, nothing was written
    or printed by them, and [run] goes on to write and to print.  With no
    head versions no check is entered and [run] goes on to write and to
    print in the world as it is; it returns code 0, no message and no
    warning unless writing or printing raises. *)
Theorem checks_run_in_order_until_first_error :
  (forall os versions h0 rest head_sha1 wt ix,
      map fst (pipeline os versions (h0 :: rest) h0 wt ix) = check_order
      /\ forall w,
          check_head os versions (Some (h0 :: rest)) head_sha1 wt ix w
          = in_order (pipeline os versions (h0 :: rest) h0 wt ix) w)
  /\ (forall os target_file versions h0 rest head_sha1 wt ix
             pre c post w w1 w2 code msg,
         pipeline os versions (h0 :: rest) h0 wt ix = (pre ++ c :: post)%list ->
         in_order pre w = (ok tt, w1) ->
         snd c w1 = (raise (VersionTagError code msg), w2) ->
         run_checks_and_write os target_file versions (Some (h0 :: rest))
           head_sha1 wt ix w
         = (ok (code, Some msg, warning_msgs w2), w2)
         /\ entered w2 = (entered w ++ map fst pre ++ [fst c])%list
         /\ warning_msgs w1
            = (warning_msgs w
               ++ (if existsb is_skip_check pre then skip_warning h0 versions
                   else []))%list
         /\ warning_msgs w2 = warning_msgs w1
         /\ (existsb is_skip_check pre = true ->
             __le__ h0 (most_recent_version (kind h0) versions) = true ->
             warning_msgs w2
             = (warning_msgs w
                ++ [earlier_checkout_msg h0
                      (most_recent_version (kind h0) versions)])%list)
         /\ same_output w w2)
  /\ (forall os target_file versions h0 rest head_sha1 wt ix w w6,
         in_order (pipeline os versions (h0 :: rest) h0 wt ix) w = (ok tt, w6) ->
         run_checks_and_write os target_file versions (Some (h0 :: rest))
           head_sha1 wt ix w
         = write_and_report os target_file
             (version_file_content (_major_ver h0) (_minor_ver h0)
                (revisionhash head_sha1 wt ix))
             (summary (Some (h0 :: rest)) head_sha1) w6
         /\ entered w6 = (entered w ++ check_order)%list
         /\ grown_warnings w w6
         /\ same_output w w6)
  /\ (forall os target_file versions head_sha1 wt ix w,
         run_checks_and_write os target_file versions None head_sha1 wt ix w
         = write_and_report os target_file
             (version_file_content 90 0 (revisionhash head_sha1 wt ix))
             (summary None head_sha1) w)
  /\ (forall os target_file versions historical head_versions head_sha1 wt ix
             w w1 w2 w3,
         get_versions_from_tags os (snd (reset_warnings w)) = (ok versions, w1) ->
         get_head_sha1 os w1 = (ok head_sha1, w2) ->
         get_head_versions versions head_sha1 = ok (head_versions, historical) ->
         get_head_has_local_changes os w2 = (ok (wt, ix), w3) ->
         run os target_file w
         = run_checks_and_write os target_file historical head_versions
             head_sha1 wt ix w3
         /\ warning_msgs w3 = []
         /\ entered w3 = entered w
         /\ (head_versions = None ->
             forall content output,
               content = version_file_content 90 0 (revisionhash head_sha1 wt ix) ->
               output = summary None head_sha1 ->
               write_to os (requests w3) target_file content = inl tt ->
               print_out os (requests w3 ++ [FileWrite target_file content]) output
               = inl tt ->
               run os target_file w
               = (ok (0, None, []), printed output (written target_file content w3))
               /\ entered (printed output (written target_file content w3))
                  = entered w))
  /\ (fst (run sample_earlier_staged_os "SwPackageVersion.h" sample_world)
      = ok (2, Some "HEAD is tagged but has staged changes. This is not allowed.",
            ["HEAD is tagged with version 1.00.00 but the most recent version is 2.00.00. Was this the intention (you might have checked out an earlier commit)?"])
      /\ entered (snd (run sample_earlier_staged_os "SwPackageVersion.h" sample_world))
         = [AlreadyUsed; SkippedAVersion; TagIsLightweight; MultipleVersions;
            LocalChanges]
      /\ files (snd (run sample_earlier_staged_os "SwPackageVersion.h" sample_world))
         = []
      /\ stdout (snd (run sample_earlier_staged_os "SwPackageVersion.h" sample_world))
         = []).
Proof.
  split; [| split; [| split; [| split; [| split]]]].
  - intros. split; [reflexivity | intros w; apply check_head_in_order].
  - intros os target_file versions h0 rest head_sha1 wt ix
           pre c post w w1 w2 code msg Hsplit Epre Ec.
    pose proof (check_enters_once os versions (h0 :: rest) h0 wt ix) as Hent.
    pose proof (check_keeps_output os versions (h0 :: rest) h0 wt ix) as Hout.
    rewrite Hsplit in Hent, Hout.
    apply Forall_app in Hent, Hout.
    destruct Hent as [Hent_pre Hent_c], Hout as [Hout_pre Hout_c].
    apply Forall_inv in Hent_c, Hout_c.
    destruct (warnings_at_the_abort os versions rest h0 wt ix pre post c w w1 w2
                code msg Hsplit Epre Ec) as [Hw1 Hw2].
    split; [| split; [| split; [| split; [| split]]]].
    + apply run_checks_aborted. rewrite check_head_in_order, Hsplit.
      apply (in_order_aborted pre c post w w1 w2 _ Epre Ec).
    + rewrite (Hent_c _ _ _ Ec), (in_order_entered pre w w1 Hent_pre Epre).
      rewrite <- app_assoc. reflexivity.
    + exact Hw1.
    + exact Hw2.
    + intros Hskip Hle. rewrite Hw2, Hw1, Hskip. unfold skip_warning.
      rewrite Hle. reflexivity.
    + eapply same_output_trans.
      * exact (in_order_preserves same_output pre same_output_refl
                 same_output_trans Hout_pre _ _ _ Epre).
      * exact (Hout_c _ _ _ Ec).
  - intros os target_file versions h0 rest head_sha1 wt ix w w6 Eall.
    split; [| split; [| split]].
    + apply (run_checks_passed os target_file versions (Some (h0 :: rest))
               head_sha1 wt ix w w6); [discriminate |].
      rewrite check_head_in_order. exact Eall.
    + exact (in_order_entered _ w w6
               (check_enters_once os versions (h0 :: rest) h0 wt ix) Eall).
    + exact (in_order_preserves grown_warnings _ grown_warnings_refl
               grown_warnings_trans
               (check_grows_warnings os versions (h0 :: rest) h0 wt ix) _ _ _ Eall).
    + exact (in_order_preserves same_output _ same_output_refl
               same_output_trans
               (check_keeps_output os versions (h0 :: rest) h0 wt ix) _ _ _ Eall).
  - intros os target_file versions head_sha1 wt ix w.
    apply (run_checks_passed os target_file versions None head_sha1 wt ix w w);
      [discriminate | reflexivity].
  - intros os target_file versions historical head_versions head_sha1 wt ix
           w w1 w2 w3 Ev Es Eh Ec.
    destruct (reading_keeps os versions head_sha1 wt ix _ w1 w2 w3 Ev Es Ec)
      as (Hw & He & _).
    split; [| split; [| split]].
    + apply run_after_reading with (versions := versions) (w1 := w1) (w2 := w2);
        assumption.
    + rewrite Hw. reflexivity.
    + rewrite He. reflexivity.
    + intros -> content output -> -> Hwrite Hprint.
      rewrite (run_after_reading os target_file versions historical None head_sha1
                 wt ix w w1 w2 w3 Ev Es Eh Ec).
      rewrite (run_checks_passed os target_file historical None head_sha1
                 wt ix w3 w3 ltac:(discriminate) eq_refl).
      unfold write_and_report. cbn [header_numbers fst snd].
      rewrite Hwrite, Hprint, Hw. split; [reflexivity |].
      cbn [entered printed written]. rewrite He. reflexivity.
  - vm_compute. repeat split.
Qed.

(** Head 1.00.00 checked out with a staged change while the history goes
    up to 2.00.00: the first four checks pass, the skip check among them
    with its warning; the clean-tree check raises, and [run] returns code 2
    with that warning. *)
Lemma checks_run_in_order_until_first_error_witness :
  pipeline quiet_os [Version3 2 0 0] [Version3 1 0 0] (Version3 1 0 0) ""
    "diff --git a/f b/f"
  = ([(AlreadyUsed, check_head_version_already_used (Version3 1 0 0) [Version3 2 0 0]);
      (SkippedAVersion,
       check_head_version_skipped_a_version (Version3 1 0 0) [Version3 2 0 0]);
      (TagIsLightweight, check_tag_is_lightweight quiet_os [Version3 1 0 0]);
      (MultipleVersions, check_head_has_multiple_versions [Version3 1 0 0])]
     ++ (LocalChanges, check_head_has_local_changes "" "diff --git a/f b/f")
     :: [(VersionAndNonversionTag,
          check_head_has_version_and_nonversion_tag quiet_os)])%list
  /\ fst (in_order
            [(AlreadyUsed,
              check_head_version_already_used (Version3 1 0 0) [Version3 2 0 0]);
             (SkippedAVersion,
              check_head_version_skipped_a_version (Version3 1 0 0) [Version3 2 0 0]);
             (TagIsLightweight, check_tag_is_lightweight quiet_os [Version3 1 0 0]);
             (MultipleVersions, check_head_has_multiple_versions [Version3 1 0 0])]
            sample_world)
     = ok tt
  /\ fst (run_checks_and_write quiet_os "SwPackageVersion.h" [Version3 2 0 0]
            (Some [Version3 1 0 0]) "c1" "" "diff --git a/f b/f" sample_world)
     = ok (2, Some "HEAD is tagged but has staged changes. This is not allowed.",
           ["HEAD is tagged with version 1.00.00 but the most recent version is 2.00.00. Was this the intention (you might have checked out an earlier commit)?"])
  /\ entered (snd (run_checks_and_write quiet_os "SwPackageVersion.h"
                     [Version3 2 0 0] (Some [Version3 1 0 0]) "c1" ""
                     "diff --git a/f b/f" sample_world))
     = [AlreadyUsed; SkippedAVersion; TagIsLightweight; MultipleVersions;
        LocalChanges].
Proof.
  set (pre := [(AlreadyUsed,
                check_head_version_already_used (Version3 1 0 0) [Version3 2 0 0]);
               (SkippedAVersion,
                check_head_version_skipped_a_version (Version3 1 0 0)
                  [Version3 2 0 0]);
               (TagIsLightweight, check_tag_is_lightweight quiet_os [Version3 1 0 0]);
               (MultipleVersions,
                check_head_has_multiple_versions [Version3 1 0 0])]).
  set (c := (LocalChanges, check_head_has_local_changes "" "diff --git a/f b/f")).
  assert (Hsplit :
    pipeline quiet_os [Version3 2 0 0] [Version3 1 0 0] (Version3 1 0 0) ""
      "diff --git a/f b/f"
    = (pre ++ c :: [(VersionAndNonversionTag,
                     check_head_has_version_and_nonversion_tag quiet_os)])%list)
    by reflexivity.
  assert (Hpre : in_order pre sample_world
                 = (ok tt, snd (in_order pre sample_world))) by reflexivity.
  assert (Hc : snd c (snd (in_order pre sample_world))
               = (raise (VersionTagError 2
                           "HEAD is tagged but has staged changes. This is not allowed."),
                  snd (snd c (snd (in_order pre sample_world)))))
    by reflexivity.
  destruct (proj1 (proj2 checks_run_in_order_until_first_error)
              quiet_os "SwPackageVersion.h" [Version3 2 0 0] (Version3 1 0 0) []
              "c1" "" "diff --git a/f b/f" pre c _ sample_world _ _ 2 _
              Hsplit Hpre Hc)
    as (Hrun & Hentered & _ & _ & Hwarn & _).
  split; [exact Hsplit | split; [reflexivity | split]].
  - rewrite Hrun. cbn [fst]. rewrite (Hwarn eq_refl eq_refl). reflexivity.
  - rewrite Hrun. cbn [snd]. rewrite Hentered. reflexivity.
Defined.

(** ** What the checks accept *)

Section Acceptance.

Variable os : OS.

Lemma noted_nothing (w : World) : noted w [] [] [] = w.
Proof. destruct w. unfold noted. cbn. rewrite !app_nil_r. reflexivity. Qed.

Lemma entered_in_noted (c : check) (w : World) : entered_in c w = noted w [] [c] [].
Proof. destruct w. unfold noted. cbn. rewrite !app_nil_r. reflexivity. Qed.

Lemma noted_noted (w : World) (warnings warnings' : list string)
    (checks checks' : list check) (asks asks' : list request) :
  noted (noted w warnings checks asks) warnings' checks' asks'
  = noted w (warnings ++ warnings') (checks ++ checks') (asks ++ asks').
Proof. unfold noted. cbn. rewrite <- !app_assoc. reflexivity. Qed.

Lemma warned_noted (msg : string) (w : World) (warnings : list string)
    (checks : list check) (asks : list request) :
  warned msg (noted w warnings checks asks)
  = noted w (warnings ++ [msg]) checks asks.
Proof. unfold warned, noted. cbn. rewrite <- app_assoc. reflexivity. Qed.

Lemma asked_all_noted (asks' : list request) (w : World) (warnings : list string)
    (checks : list check) (asks : list request) :
  asked_all asks' (noted w warnings checks asks)
  = noted w warnings checks (asks ++ asks').
Proof. unfold asked_all, noted. cbn. rewrite <- app_assoc. reflexivity. Qed.

Lemma asked_noted (r : request) (w : World) (warnings : list string)
    (checks : list check) (asks : list request) :
  asked r (noted w warnings checks asks) = noted w warnings checks (asks ++ [r]).
Proof. unfold asked, noted. cbn. rewrite <- app_assoc. reflexivity. Qed.

(** The search of the skip check ends on the greatest order key among 0
    and the previous versions that [is_kind] takes. *)
Lemma most_recent_key_found (k : string) (historical : list Version) (key : Z) :
  most_recent_key k historical key
  <-> key = _version (most_recent_version k historical).
Proof.
  destruct (most_recent_found k historical) as (Hwhere & Hnonneg & Hmax).
  cbv zeta in Hwhere, Hnonneg, Hmax.
  split.
  - intros (Hkey & Hpos & Hle).
    assert (H1 : _version (most_recent_version k historical) <= key).
    { destruct Hwhere as [E | [Hin Hk]].
      - rewrite E. exact Hpos.
      - apply Hle; assumption. }
    assert (H2 : key <= _version (most_recent_version k historical)).
    { destruct Hkey as [-> | (m & Hin & Hk & <-)].
      - exact Hnonneg.
      - apply Hmax; assumption. }
    lia.
  - intros ->. split; [| split; [exact Hnonneg | exact Hmax]].
    destruct Hwhere as [E | [Hin Hk]].
    + left. rewrite E. reflexivity.
    + right. exists (most_recent_version k historical). auto.
Qed.

Lemma decides_duplicate (h0 : Version) (remaining : list Version) (w : World) :
  decides_at (check_head_version_already_used h0 remaining) w
    (forall version, In version remaining -> _version version <> _version h0)
    (noted w [] [AlreadyUsed] []).
Proof.
  unfold decides_at. rewrite already_used_run, entered_in_noted. cbn [fst].
  destruct (existsb (fun version => __eq__ version h0) remaining) eqn:E.
  - assert (Hno : ~ forall version, In version remaining ->
                                    _version version <> _version h0).
    { intros Hall. apply existsb_exists in E. destruct E as (v & Hin & Hv).
      apply eq_by_order_key in Hv. exact (Hall v Hin Hv). }
    split; [split; [discriminate | intros H; contradiction] | intros H; contradiction].
  - split; [| reflexivity]. split; [| reflexivity]. intros _ v Hin Hv.
    assert (Ht : existsb (fun version => __eq__ version h0) remaining = true).
    { apply existsb_exists. exists v. split; [exact Hin |].
      apply eq_by_order_key. exact Hv. }
    congruence.
Qed.

Lemma contains_rolled (h m : Version) (keys : list Z) :
  contains_version h (map (rolled m) keys) = true <-> In (_version h) keys.
Proof.
  unfold contains_version. rewrite existsb_exists. split.
  - intros (v & Hin & Hv). apply in_map_iff in Hin. destruct Hin as (k & <- & Hk).
    apply eq_by_order_key in Hv. rewrite rolled_order_key in Hv. subst k. exact Hk.
  - intros Hin. exists (rolled m (_version h)). split.
    + apply in_map. exact Hin.
    + apply eq_by_order_key. apply rolled_order_key.
Qed.

Lemma decides_skip (h0 : Version) (remaining : list Version) (w : World) :
  decides_at (check_head_version_skipped_a_version h0 remaining) w
    (_version h0 <= _version (most_recent_version (kind h0) remaining)
     \/ In (_version h0)
           (successor_keys (kind h0)
              (_version (most_recent_version (kind h0) remaining))))
    (noted w (skip_warning h0 remaining) [SkippedAVersion] []).
Proof.
  unfold decides_at. rewrite skip_check_run. cbv zeta. unfold skip_warning.
  set (m := most_recent_version (kind h0) remaining) in *.
  unfold successor_keys.
  destruct (__le__ h0 m) eqn:Hle.
  - rewrite entered_in_noted, warned_noted. cbn [fst app].
    split; [| reflexivity]. split; [| reflexivity].
    intros _. left. apply le_by_order_key. exact Hle.
  - assert (Hgt : ~ _version h0 <= _version m).
    { intros Hc. apply le_by_order_key in Hc. congruence. }
    rewrite entered_in_noted.
    destruct (String.eqb (kind h0) "release").
    + change [rolled m (_version m + 10000 - _version m mod 10000);
              rolled m (_version m + 100 - _version m mod 100);
              rolled m (_version m + 1)]
        with (map (rolled m) [_version m + 10000 - _version m mod 10000;
                              _version m + 100 - _version m mod 100;
                              _version m + 1]).
      pose proof (contains_rolled h0 m
                    [_version m + 10000 - _version m mod 10000;
                     _version m + 100 - _version m mod 100;
                     _version m + 1]) as Hc.
      destruct (contains_version h0 _); cbn [negb fst].
      * split; [| reflexivity]. split; [| reflexivity].
        intros _. right. apply Hc. reflexivity.
      * assert (Hno : ~ (_version h0 <= _version m
                         \/ In (_version h0)
                               [_version m + 10000 - _version m mod 10000;
                                _version m + 100 - _version m mod 100;
                                _version m + 1])).
        { intros [Hl | Hin]; [contradiction |]. apply Hc in Hin. discriminate Hin. }
        split; [split; [discriminate | intros H; contradiction]
               | intros H; contradiction].
    + change [rolled m (_version m + 100 - _version m mod 100);
              rolled m (_version m + 1)]
        with (map (rolled m) [_version m + 100 - _version m mod 100;
                              _version m + 1]).
      pose proof (contains_rolled h0 m
                    [_version m + 100 - _version m mod 100;
                     _version m + 1]) as Hc.
      destruct (contains_version h0 _); cbn [negb fst].
      * split; [| reflexivity]. split; [| reflexivity].
        intros _. right. apply Hc. reflexivity.
      * assert (Hno : ~ (_version h0 <= _version m
                         \/ In (_version h0)
                               [_version m + 100 - _version m mod 100;
                                _version m + 1])).
        { intros [Hl | Hin]; [contradiction |]. apply Hc in Hin. discriminate Hin. }
        split; [split; [discriminate | intros H; contradiction]
               | intros H; contradiction].
Qed.

Lemma decides_lightweight (head_versions : list Version) (w : World) :
  decides_at (check_tag_is_lightweight os head_versions) w
    (all_annotated os (requests w) head_versions)
    (noted w [] [TagIsLightweight] (map objecttype_request head_versions)).
Proof.
  destruct (lightweight_check_passes os head_versions w) as [Hiff Hrun].
  split; [exact Hiff |].
  intros Hall. rewrite (Hrun Hall), entered_in_noted, asked_all_noted. reflexivity.
Qed.

Lemma decides_multiple (h0 : Version) (rest : list Version) (w : World) :
  decides_at (check_head_has_multiple_versions (h0 :: rest)) w
    (forall head_version,
        In head_version (h0 :: rest) -> _version head_version = _version h0)
    (noted w [] [MultipleVersions] []).
Proof.
  unfold decides_at. rewrite multiple_versions_check_run, entered_in_noted.
  cbn [fst].
  destruct (find (fun version => __ne__ version h0) (h0 :: rest)) as [v |] eqn:Ef.
  - apply find_some in Ef. destruct Ef as [Hin Hv].
    assert (Hno : ~ forall head_version,
                      In head_version (h0 :: rest) ->
                      _version head_version = _version h0).
    { intros Hall. apply ne_by_order_key in Hv. exact (Hv (Hall v Hin)). }
    split; [split; [discriminate | intros H; contradiction] | intros H; contradiction].
  - split; [| reflexivity]. split; [| reflexivity]. intros _ hv Hin.
    pose proof (find_none _ _ Ef hv Hin) as N. cbv beta in N.
    unfold __ne__ in N. apply negb_false_iff, Z.eqb_eq in N. exact N.
Qed.

Lemma decides_clean (wt ix : string) (w : World) :
  decides_at (check_head_has_local_changes wt ix) w (wt = "" /\ ix = "")
    (noted w [] [LocalChanges] []).
Proof.
  unfold decides_at. rewrite local_changes_check_run, entered_in_noted. cbn [fst].
  destruct (String.eqb_spec wt "") as [-> | Nw]; cbn [negb].
  - destruct (String.eqb_spec ix "") as [-> | Ni]; cbn [negb].
    + split; [split; auto | reflexivity].
    + split; [split; [discriminate | intros [_ H]; contradiction]
             | intros [_ H]; contradiction].
  - split; [split; [discriminate | intros [H _]; contradiction]
           | intros [H _]; contradiction].
Qed.

Lemma decides_stray (w : World) :
  decides_at (check_head_has_version_and_nonversion_tag os) w
    (exists process_stdout,
        run_shell os (requests w) "git tag --points-at HEAD" = inl (0, process_stdout))
    (noted w (stray_warning os (requests w)) [VersionAndNonversionTag]
       [points_at_head]).
Proof.
  unfold decides_at, stray_warning. rewrite stray_tag_check_run.
  destruct (run_shell os (requests w) "git tag --points-at HEAD")
    as [[returncode out] | e].
  - destruct (Z.eqb_spec returncode 0) as [-> | N]; cbn [negb fst].
    + split; [split; [intros _; exists out; reflexivity | reflexivity] |].
      intros _. rewrite entered_in_noted, asked_noted.
      destruct (filter is_nonversion_tag (Py.splitlines out)).
      * reflexivity.
      * rewrite warned_noted. reflexivity.
    + assert (Hno : ~ exists process_stdout : string,
                        @inl (Z * string) library_error (returncode, out)
                        = inl (0, process_stdout)).
      { intros (o & E). injection E as E _. contradiction. }
      split; [split; [discriminate | intros H; contradiction]
             | intros H; contradiction].
  - cbn [fst].
    split; [split; [discriminate | intros (o & E); discriminate E]
           | intros (o & E); discriminate E].
Qed.

Lemma decides_then (m : M unit) (w w1 w2 : World) (P Q : Prop)
    (cs : list (check * M unit)) (c : check) :
  decides_at m w P w1 ->
  (P -> decides_at (in_order cs) w1 Q w2) ->
  decides_at (in_order ((c, m) :: cs)) w (P /\ Q) w2.
Proof.
  intros [Hiff Hrun] Hnext. unfold decides_at. cbn [in_order snd].
  split.
  - split.
    + intros E.
      assert (HP : P).
      { apply Hiff. clear Hrun Hiff.
        destruct (m w) as [[[] | e] w'] eqn:Em; [reflexivity |].
        rewrite (bind_raise _ _ _ _ _ Em) in E. discriminate E. }
      destruct (Hnext HP) as [Hiff' _].
      rewrite (bind_ok _ _ _ _ _ (Hrun HP)) in E.
      split; [exact HP | apply Hiff'; exact E].
    + intros [HP HQ]. destruct (Hnext HP) as [Hiff' _].
      rewrite (bind_ok _ _ _ _ _ (Hrun HP)). apply Hiff'. exact HQ.
  - intros [HP HQ]. destruct (Hnext HP) as [_ Hrun'].
    rewrite (bind_ok _ _ _ _ _ (Hrun HP)). apply Hrun'. exact HQ.
Qed.

Lemma decides_nothing (w : World) : decides_at (in_order []) w True w.
Proof. split; [split; auto | reflexivity]. Qed.

(** The six checks together. *)
Lemma check_head_decides (remaining rest : list Version) (h0 : Version)
    (head_sha1 wt ix : string) (w : World) :
  decides_at (check_head os remaining (Some (h0 :: rest)) head_sha1 wt ix) w
    (obeys_the_rules os (requests w) remaining (h0 :: rest) h0 wt ix)
    (noted w
       (skip_warning h0 remaining
        ++ stray_warning os
             (requests w ++ map objecttype_request (h0 :: rest)))
       check_order
       (map objecttype_request (h0 :: rest) ++ [points_at_head])).
Proof.
  set (w1 := noted w [] [AlreadyUsed] []).
  set (w2 := noted w1 (skip_warning h0 remaining) [SkippedAVersion] []).
  set (w3 := noted w2 [] [TagIsLightweight] (map objecttype_request (h0 :: rest))).
  set (w4 := noted w3 [] [MultipleVersions] []).
  set (w5 := noted w4 [] [LocalChanges] []).
  set (w6 := noted w5 (stray_warning os (requests w5)) [VersionAndNonversionTag]
               [points_at_head]).
  pose proof (decides_then _ w w1 w6 _ _ _ AlreadyUsed (decides_duplicate h0 remaining w)
    (fun _ => decides_then _ w1 w2 w6 _ _ _ SkippedAVersion
                (decides_skip h0 remaining w1)
    (fun _ => decides_then _ w2 w3 w6 _ _ _ TagIsLightweight
                (decides_lightweight (h0 :: rest) w2)
    (fun _ => decides_then _ w3 w4 w6 _ _ _ MultipleVersions
                (decides_multiple h0 rest w3)
    (fun _ => decides_then _ w4 w5 w6 _ _ _ LocalChanges (decides_clean wt ix w4)
    (fun _ => decides_then _ w5 w6 w6 _ _ _ VersionAndNonversionTag
                (decides_stray w5)
    (fun _ => decides_nothing w6))))))) as [Hiff Hrun].
  assert (R2 : requests w2 = requests w).
  { unfold w2, w1, noted. cbn. rewrite !app_nil_r. reflexivity. }
  assert (R5 : requests w5
               = (requests w ++ map objecttype_request (h0 :: rest))%list).
  { unfold w5, w4, w3. cbn [noted requests]. rewrite !app_nil_r, R2. reflexivity. }
  assert (E6 : w6 = noted w
                      (skip_warning h0 remaining
                       ++ stray_warning os
                            (requests w ++ map objecttype_request (h0 :: rest)))
                      check_order
                      (map objecttype_request (h0 :: rest) ++ [points_at_head])).
  { unfold w6. rewrite R5. unfold w5, w4, w3, w2, w1. rewrite !noted_noted.
    cbn [app]. rewrite ?app_nil_r. reflexivity. }
  rewrite <- E6. clear E6.
  assert (Hrules :
    obeys_the_rules os (requests w) remaining (h0 :: rest) h0 wt ix
    <-> (forall version, In version remaining -> _version version <> _version h0)
        /\ (_version h0 <= _version (most_recent_version (kind h0) remaining)
            \/ In (_version h0)
                  (successor_keys (kind h0)
                     (_version (most_recent_version (kind h0) remaining))))
        /\ all_annotated os (requests w2) (h0 :: rest)
        /\ (forall head_version,
               In head_version (h0 :: rest) -> _version head_version = _version h0)
        /\ (wt = "" /\ ix = "")
        /\ (exists process_stdout,
               run_shell os (requests w5) "git tag --points-at HEAD"
               = inl (0, process_stdout))
        /\ True).
  { unfold obeys_the_rules. rewrite R2, R5.
    assert (Hskip :
      (exists key,
          most_recent_key (kind h0) remaining key
          /\ (_version h0 <= key
              \/ In (_version h0) (successor_keys (kind h0) key)))
      <-> (_version h0 <= _version (most_recent_version (kind h0) remaining)
           \/ In (_version h0)
                 (successor_keys (kind h0)
                    (_version (most_recent_version (kind h0) remaining))))).
    { split.
      - intros (key & Hkey & H). apply most_recent_key_found in Hkey. subst key.
        exact H.
      - intros H. exists (_version (most_recent_version (kind h0) remaining)).
        split; [apply most_recent_key_found; reflexivity | exact H]. }
    rewrite Hskip. tauto. }
  split.
  - rewrite check_head_in_order. unfold pipeline. rewrite Hrules. exact Hiff.
  - intros H. rewrite check_head_in_order. unfold pipeline.
    apply Hrun. apply Hrules. exact H.
Qed.

End Acceptance.

(** ** Earlier checkout: the run as a whole *)

Section EarlierCheckoutRun.




(** The checks all passed: what they found, and what they left. *)
Lemma check_head_passed (os : OS) (historical rest : list Version) (h : Version)
    (head_sha1 wt ix : string) (w w6 : World) :
  check_head os historical (Some (h :: rest)) head_sha1 wt ix w = (ok tt, w6) ->
  obeys_the_rules os (requests w) historical (h :: rest) h wt ix
  /\ w6 = noted w
            (skip_warning h historical
             ++ stray_warning os (requests w ++ map objecttype_request (h :: rest)))
            check_order
            (map objecttype_request (h :: rest) ++ [points_at_head]).
Proof.
  intros E.
  destruct (check_head_decides os historical rest h head_sha1 wt ix w)
    as [Hiff Hrun].
  assert (Hrules : obeys_the_rules os (requests w) historical (h :: rest) h wt ix)
    by (apply Hiff; rewrite E; reflexivity).
  split; [exact Hrules |].
  rewrite (Hrun Hrules) in E. injection E as <-. reflexivity.
Qed.

End EarlierCheckoutRun.



(** ** How run can end *)

Section RunOutcomes.

Variable os : OS.
Variable target_file : string.

Lemma get_head_sha1_run (w : World) :
  get_head_sha1 os w
  = (match run_argv os (requests w) rev_list_argv with
     | inl process_stdout => ok (Py.strip process_stdout)
     | inr e => raise (LibraryError e)
     end, asked (Program rev_list_argv) w).
Proof.
  unfold get_head_sha1, bind, subprocess_run. fold rev_list_argv.
  destruct (run_argv os (requests w) rev_list_argv); reflexivity.
Qed.

Lemma get_head_has_local_changes_run (w : World) :
  get_head_has_local_changes os w
  = match run_shell os (requests w) "git diff" with
    | inr e => (raise (LibraryError e), asked (CommandLine "git diff") w)
    | inl (returncode, d) =>
        if negb (returncode =? 0) then
          (raise (CommandError "Git failed while running 'diff'"),
           asked (CommandLine "git diff") w)
        else
          (match run_shell os (requests w ++ [CommandLine "git diff"])
                   "git diff --cached" with
           | inr e => raise (LibraryError e)
           | inl (returncode', dc) =>
               if negb (returncode' =? 0) then
                 raise (CommandError "Git failed while running 'diff --cached'")
               else ok (Py.strip d, Py.strip dc)
           end,
           asked (CommandLine "git diff --cached") (asked (CommandLine "git diff") w))
    end.
Proof.
  unfold get_head_has_local_changes.
  unfold bind at 1. rewrite run_git_cmd_run.
  change ("git " ++ "diff") with "git diff".
  destruct (run_shell os (requests w) "git diff") as [[returncode d] | e];
    [| reflexivity].
  destruct (negb (returncode =? 0)); [reflexivity |].
  unfold ok. cbv iota beta zeta.
  unfold bind at 1. rewrite run_git_cmd_run.
  change ("git " ++ "diff --cached") with "git diff --cached".
  cbn [requests asked].
  destruct (run_shell os (requests w ++ [CommandLine "git diff"]) "git diff --cached")
    as [[returncode' dc] | e]; [| reflexivity].
  destruct (negb (returncode' =? 0)); reflexivity.
Qed.

Lemma get_versions_from_tags_raises (w w' : World) (e : exn) :
  get_versions_from_tags os w = (raise e, w') -> passes_through_run e.
Proof.
  rewrite get_versions_from_tags_run. intros E. injection E as E _.
  destruct (run_argv os (requests w) for_each_ref_argv) as [out | l].
  - left. exact (registry_raises_index_error _ _ _ E).
  - injection E as <-. right; right. exists l. reflexivity.
Qed.

Lemma get_head_sha1_raises (w w' : World) (e : exn) :
  get_head_sha1 os w = (raise e, w') -> passes_through_run e.
Proof.
  rewrite get_head_sha1_run. intros E. injection E as E _.
  destruct (run_argv os (requests w) rev_list_argv) as [out | l];
    [discriminate E |].
  injection E as <-. right; right. exists l. reflexivity.
Qed.

Lemma get_head_has_local_changes_raises (w w' : World) (e : exn) :
  get_head_has_local_changes os w = (raise e, w') -> passes_through_run e.
Proof.
  rewrite get_head_has_local_changes_run.
  destruct (run_shell os (requests w) "git diff") as [[returncode d] | l].
  - destruct (negb (returncode =? 0)).
    + intros E. injection E as <- _. right; left. eexists. reflexivity.
    + destruct (run_shell os (requests w ++ [CommandLine "git diff"])
                  "git diff --cached") as [[returncode' dc] | l].
      * destruct (negb (returncode' =? 0)); intros E; [| discriminate E].
        injection E as <- _. right; left. eexists. reflexivity.
      * intros E. injection E as <- _. right; right. exists l. reflexivity.
  - intros E. injection E as <- _. right; right. exists l. reflexivity.
Qed.

(** [get_head_versions] never returns an empty list of head versions. *)
Lemma get_head_versions_some (versions remaining hvs : list Version)
    (head_sha1 : string) :
  get_head_versions versions head_sha1 = ok (Some hvs, remaining) -> hvs <> [].
Proof.
  destruct (get_head_versions_head head_sha1 versions) as (remaining' & E).
  rewrite E. intros H. injection H as H _.
  destruct (filter (fun version => sha1_is version head_sha1) versions);
    [discriminate H |].
  injection H as <-. discriminate.
Qed.

(** What the checks raise. *)
Lemma lightweight_check_raises (head_versions : list Version) (w w' : World)
    (e : exn) :
  check_tag_is_lightweight os head_versions w = (raise e, w') -> check_error e.
Proof.
  unfold check_tag_is_lightweight. rewrite bind_enter.
  generalize (entered_in TagIsLightweight w) as w1. clear w.
  induction head_versions as [| first rest IH]; intros w1.
  - discriminate.
  - rewrite lightweight_loop_step.
    destruct (objecttype_verdict (objecttype_answer os (requests w1) [] first) first)
      as [e' |] eqn:Ev; [| apply IH].
    intros E. injection E as <- _.
    unfold objecttype_verdict in Ev.
    destruct (objecttype_answer os (requests w1) [] first) as [[returncode out] | l].
    + destruct (negb (returncode =? 0)).
      * injection Ev as <-. right; left. eexists. reflexivity.
      * destruct (String.eqb (Py.strip out) "commit"); [| discriminate Ev].
        injection Ev as <-. left. do 2 eexists. split; [| reflexivity]. lia.
    + injection Ev as <-. right; right. exists l. reflexivity.
Qed.

Lemma checks_raise_check_errors (versions hvs : list Version) (h : Version)
    (wt ix : string) :
  Forall (fun c : check * M unit =>
            forall w e w', snd c w = (raise e, w') -> check_error e)
         (pipeline os versions hvs h wt ix).
Proof.
  unfold pipeline. repeat apply Forall_cons; [| | | | | | apply Forall_nil];
    cbn [snd]; intros w e w'.
  - rewrite already_used_run.
    destruct (existsb (fun version => __eq__ version h) versions);
      intros E; [| discriminate E].
    injection E as <- _. left. do 2 eexists. split; [| reflexivity]. lia.
  - rewrite skip_check_run. cbv zeta.
    destruct (__le__ h (most_recent_version (kind h) versions)); [discriminate |].
    destruct (String.eqb (kind h) "release").
    + destruct (negb (contains_version h _)); intros E; [| discriminate E].
      injection E as <- _. left. do 2 eexists. split; [| reflexivity]. lia.
    + destruct (negb (contains_version h _)); intros E; [| discriminate E].
      injection E as <- _. left. do 2 eexists. split; [| reflexivity]. lia.
  - apply lightweight_check_raises.
  - rewrite multiple_versions_check_run.
    destruct hvs as [| h0 rest]; [discriminate |].
    destruct (find (fun version => __ne__ version h0) (h0 :: rest));
      intros E; [| discriminate E].
    injection E as <- _. left. do 2 eexists. split; [| reflexivity]. lia.
  - rewrite local_changes_check_run.
    destruct (negb (String.eqb wt "")).
    + intros E. injection E as <- _. left. do 2 eexists. split; [| reflexivity]. lia.
    + destruct (negb (String.eqb ix "")); intros E; [| discriminate E].
      injection E as <- _. left. do 2 eexists. split; [| reflexivity]. lia.
  - rewrite stray_tag_check_run.
    destruct (run_shell os (requests w) "git tag --points-at HEAD")
      as [[returncode out] | l].
    + destruct (negb (returncode =? 0)); intros E; [| discriminate E].
      injection E as <- _. right; left. eexists. reflexivity.
    + intros E. injection E as <- _. right; right. exists l. reflexivity.
Qed.

Lemma in_order_raises (cs : list (check * M unit)) (w w' : World) (e : exn) :
  Forall (fun c : check * M unit =>
            forall w e w', snd c w = (raise e, w') -> check_error e) cs ->
  in_order cs w = (raise e, w') -> check_error e.
Proof.
  intros Hall. revert w. induction Hall as [| c cs Hc _ IH]; intros w E.
  - discriminate E.
  - cbn [in_order] in E.
    destruct (bind_inv _ _ _ _ _ E) as [(a & w1 & E1 & E2) | (e' & E1 & He)].
    + exact (IH _ E2).
    + injection He as <-. exact (Hc _ _ _ E1).
Qed.

(** The checks as a whole: what they leave alone and what they raise. *)
Lemma check_head_frames (versions : list Version)
    (head_versions : option (list Version)) (head_sha1 wt ix : string)
    (w w' : World) (r : res unit) :
  head_versions <> Some [] ->
  check_head os versions head_versions head_sha1 wt ix w = (r, w') ->
  same_output w w'
  /\ grown_warnings w w'
  /\ (forall e, r = raise e -> check_error e).
Proof.
  intros Hne E.
  destruct head_versions as [[| h0 rest] |]; [congruence | |].
  - rewrite check_head_in_order in E.
    split; [| split].
    + exact (in_order_preserves same_output _ same_output_refl same_output_trans
               (check_keeps_output os versions (h0 :: rest) h0 wt ix) _ _ _ E).
    + exact (in_order_preserves grown_warnings _ grown_warnings_refl
               grown_warnings_trans
               (check_grows_warnings os versions (h0 :: rest) h0 wt ix) _ _ _ E).
    + intros e ->.
      exact (in_order_raises _ _ _ _
               (checks_raise_check_errors versions (h0 :: rest) h0 wt ix) E).
  - injection E as <- <-.
    split; [apply same_output_refl | split; [apply grown_warnings_refl |]].
    discriminate.
Qed.

(** The ways [run] ends once it has read the registry, the commit of HEAD
    and the two diffs. *)
Lemma run_checks_cases (versions : list Version)
    (head_versions : option (list Version)) (head_sha1 wt ix : string) (w : World) :
  head_versions <> Some [] ->
  exists r w6,
    check_head os versions head_versions head_sha1 wt ix w = (r, w6)
    /\ same_output w w6
    /\ match r with
       | inl _ =>
           run_checks_and_write os target_file versions head_versions
             head_sha1 wt ix w
           = write_and_report os target_file
               (version_file_content (fst (header_numbers head_versions))
                  (snd (header_numbers head_versions))
                  (revisionhash head_sha1 wt ix))
               (summary head_versions head_sha1) w6
       | inr (VersionTagError error_code error_msg) =>
           1 <= error_code <= 5
           /\ run_checks_and_write os target_file versions head_versions
                head_sha1 wt ix w
              = (ok (error_code, Some error_msg, warning_msgs w6), w6)
       | inr e =>
           passes_through_run e
           /\ run_checks_and_write os target_file versions head_versions
                head_sha1 wt ix w
              = (raise e, w6)
       end.
Proof.
  intros Hne.
  destruct (check_head os versions head_versions head_sha1 wt ix w) as [r w6] eqn:E.
  exists r, w6. split; [reflexivity |].
  destruct (check_head_frames _ _ _ _ _ _ _ _ Hne E) as (Hout & _ & Hraises).
  split; [exact Hout |].
  destruct r as [[] | e].
  - exact (run_checks_passed os target_file _ _ _ _ _ _ _ Hne E).
  - pose proof (Hraises e eq_refl) as He.
    destruct e as [error_code error_msg | | | | | error_msg | l].
    + split.
      * destruct He as [(c & m & Hc & Ee) | [(m & Ee) | (l & Ee)]];
          [injection Ee as <- _; exact Hc | discriminate Ee | discriminate Ee].
      * exact (run_checks_aborted os target_file _ _ _ _ _ _ _ _ _ E).
    + exfalso.
      destruct He as [(c & m & _ & Ee) | [(m & Ee) | (l & Ee)]]; discriminate Ee.
    + exfalso.
      destruct He as [(c & m & _ & Ee) | [(m & Ee) | (l & Ee)]]; discriminate Ee.
    + exfalso.
      destruct He as [(c & m & _ & Ee) | [(m & Ee) | (l & Ee)]]; discriminate Ee.
    + exfalso.
      destruct He as [(c & m & _ & Ee) | [(m & Ee) | (l & Ee)]]; discriminate Ee.
    + split; [right; left; exists error_msg; reflexivity |].
      exact (run_checks_raised os target_file _ _ _ _ _ _ _ _ E
               ltac:(intros ? ?; discriminate)).
    + split; [right; right; exists l; reflexivity |].
      exact (run_checks_raised os target_file _ _ _ _ _ _ _ _ E
               ltac:(intros ? ?; discriminate)).
Qed.

(** Either reading fails, or [run] comes to the checks. *)
Lemma run_reads (w : World) :
  (exists e w',
      run os target_file w = (raise e, w')
      /\ passes_through_run e /\ same_output w w')
  \/ (exists versions historical head_versions head_sha1 wt ix w1 w2 w3,
         get_versions_from_tags os (snd (reset_warnings w)) = (ok versions, w1)
         /\ get_head_sha1 os w1 = (ok head_sha1, w2)
         /\ get_head_versions versions head_sha1 = ok (head_versions, historical)
         /\ get_head_has_local_changes os w2 = (ok (wt, ix), w3)
         /\ head_versions <> Some []).
Proof.
  destruct (reads_preserve same_output same_output_refl same_output_trans
              asked_same_output os) as (O1 & O2 & O3 & _).
  assert (O0 : same_output w (snd (reset_warnings w))) by (split; reflexivity).
  unfold run. unfold bind at 1. unfold reset_warnings at 1. cbv beta iota.
  change {| warning_msgs := []; files := files w; stdout := stdout w;
            entered := entered w; requests := requests w |}
    with (snd (reset_warnings w)).
  destruct (get_versions_from_tags os (snd (reset_warnings w)))
    as [[versions | e] w1] eqn:Ev.
  2:{ left. exists e, w1. rewrite (bind_raise _ _ _ _ _ Ev).
      split; [reflexivity | split].
      - exact (get_versions_from_tags_raises _ _ _ Ev).
      - exact (same_output_trans _ _ _ O0 (O1 _ _ _ Ev)). }
  rewrite (bind_ok _ _ _ _ _ Ev).
  destruct (get_head_sha1 os w1) as [[head_sha1 | e] w2] eqn:Es.
  2:{ left. exists e, w2. rewrite (bind_raise _ _ _ _ _ Es).
      split; [reflexivity | split].
      - exact (get_head_sha1_raises _ _ _ Es).
      - exact (same_output_trans _ _ _ O0
                 (same_output_trans _ _ _ (O1 _ _ _ Ev) (O2 _ _ _ Es))). }
  rewrite (bind_ok _ _ _ _ _ Es).
  destruct (get_head_versions_head head_sha1 versions) as (historical & Eh).
  set (head_versions :=
         match filter (fun version => sha1_is version head_sha1) versions with
         | [] => None
         | matching => Some matching
         end) in *.
  assert (Hne : head_versions <> Some []).
  { unfold head_versions.
    destruct (filter (fun version => sha1_is version head_sha1) versions);
      discriminate. }
  rewrite Eh, bind_lift_ok. cbv zeta. cbn [fst snd].
  destruct (get_head_has_local_changes os w2) as [[[wt ix] | e] w3] eqn:Ec.
  2:{ left. exists e, w3. rewrite (bind_raise _ _ _ _ _ Ec).
      split; [reflexivity | split].
      - exact (get_head_has_local_changes_raises _ _ _ Ec).
      - exact (same_output_trans _ _ _ O0
                 (same_output_trans _ _ _ (O1 _ _ _ Ev)
                    (same_output_trans _ _ _ (O2 _ _ _ Es) (O3 _ _ _ Ec)))). }
  right. exists versions, historical, head_versions, head_sha1, wt, ix, w1, w2, w3.
  repeat split; try assumption; reflexivity.
Qed.

End RunOutcomes.

(** X14. [run] ends in one of three ways.  It returns code 0 and no
    message, having itself written one file, at the target path, and
    printed one text; or it returns a code from 1 to 5 with a message,
    having written and printed nothing; or it raises IndexError,
    CommandError or an exception of the library, having printed nothing
    and written nothing, or, when it is printing that raised, the one
    file.  The warnings it returns are the global list as it leaves it.
    The files are those the script writes through [open]; what a command
    it runs does to the file system is not among them. *)
Theorem run_outcome_classes (os : OS) (target_file : string) (w : World) :
  let w' := snd (run os target_file w) in
  match fst (run os target_file w) with
  | inl (error_code, error_msg, warnings) =>
      warnings = warning_msgs w'
      /\ ((error_code = 0 /\ error_msg = None
           /\ exists content text,
               files w' = (files w ++ [(target_file, content)])%list
               /\ stdout w' = (stdout w ++ [text])%list)
          \/ (1 <= error_code <= 5 /\ (exists msg, error_msg = Some msg)
              /\ files w' = files w /\ stdout w' = stdout w))
  | inr e =>
      passes_through_run e
      /\ stdout w' = stdout w
      /\ (files w' = files w
          \/ exists l content,
              e = LibraryError l
              /\ files w' = (files w ++ [(target_file, content)])%list)
  end.
Proof.
  cbv zeta.
  destruct (run_reads os target_file w)
    as [(e & w' & Erun & He & Hout)
       | (versions & historical & head_versions & head_sha1 & wt & ix & w1 & w2 & w3
          & Ev & Es & Eh & Ec & Hne)].
  { rewrite Erun. cbn [fst snd]. destruct Hout as [Hf Hs].
    split; [exact He | split; [exact Hs | left; exact Hf]]. }
  rewrite (run_after_reading os target_file versions historical head_versions
             head_sha1 wt ix w w1 w2 w3 Ev Es Eh Ec).
  destruct (reading_keeps os versions head_sha1 wt ix _ w1 w2 w3 Ev Es Ec)
    as (_ & _ & [Hf3 Hs3]).
  cbn [files stdout reset_warnings snd] in Hf3, Hs3.
  destruct (run_checks_cases os target_file historical head_versions head_sha1 wt ix
              w3 Hne) as (r & w6 & Echeck & [Hf6 Hs6] & Hcases).
  destruct r as [[] | e].
  - rewrite Hcases. unfold write_and_report.
    destruct (write_to os (requests w6) target_file _) as [u | l].
    + destruct (print_out os _ _) as [u' | l]; cbn [fst snd].
      * split; [reflexivity |]. left.
        split; [reflexivity | split; [reflexivity |]].
        do 2 eexists. cbn [files stdout printed written].
        rewrite Hf6, Hf3, Hs6, Hs3. split; reflexivity.
      * split; [right; right; exists l; reflexivity |].
        cbn [files stdout asked written].
        split; [rewrite Hs6, Hs3; reflexivity |].
        right. do 2 eexists. split; [reflexivity |].
        rewrite Hf6, Hf3. reflexivity.
    + cbn [fst snd files stdout asked].
      split; [right; right; exists l; reflexivity |].
      split; [rewrite Hs6, Hs3; reflexivity | left; rewrite Hf6, Hf3; reflexivity].
  - destruct e as [error_code error_msg | | | | | error_msg | l];
      destruct Hcases as [H1 H2]; rewrite H2; cbn [fst snd].
    1:{ split; [reflexivity |]. right.
        split; [exact H1 | split; [exists error_msg; reflexivity |]].
        rewrite Hf6, Hf3, Hs6, Hs3. split; reflexivity. }
    all: split; [exact H1 |];
      split; [rewrite Hs6, Hs3; reflexivity | left; rewrite Hf6, Hf3; reflexivity].
Qed.

(** ** run and main *)

Section RunAndMain.

Variable os : OS.
Variable target_file : string.

(** X16. When HEAD carries version tags and [run] returns code 0, working
    tree and index are clean: the header written holds the numbers of the
    first head version and the first twelve characters of the commit id,
    never the form with [+], and the summary printed names that version. *)
Theorem tagged_head_header_has_plain_hash
    (versions head_versions remaining : list Version) (head_sha1 wt ix : string)
    (warnings : list string) (w w1 w2 w3 w' : World) :
  get_versions_from_tags os (snd (reset_warnings w)) = (ok versions, w1) ->
  get_head_sha1 os w1 = (ok head_sha1, w2) ->
  get_head_versions versions head_sha1 = ok (Some head_versions, remaining) ->
  get_head_has_local_changes os w2 = (ok (wt, ix), w3) ->
  run os target_file w = (ok (0, None, warnings), w') ->
  (wt = "" /\ ix = "")
  /\ files w'
     = (files w
        ++ [(target_file,
             version_file_content (fst (header_numbers (Some head_versions)))
               (snd (header_numbers (Some head_versions)))
               (Py.slice_to 12 head_sha1))])%list
  /\ stdout w' = (stdout w ++ [summary (Some head_versions) head_sha1])%list.
Proof.
  intros Ev Es Eh Ec Erun.
  pose proof (get_head_versions_some _ _ _ _ Eh) as Hne.
  destruct head_versions as [| h0 rest]; [contradiction |]. clear Hne.
  rewrite (run_after_reading os target_file versions remaining (Some (h0 :: rest))
             head_sha1 wt ix w w1 w2 w3 Ev Es Eh Ec) in Erun.
  destruct (reading_keeps os versions head_sha1 wt ix _ w1 w2 w3 Ev Es Ec)
    as (_ & _ & [Hf3 Hs3]).
  cbn [files stdout reset_warnings snd] in Hf3, Hs3.
  destruct (run_checks_cases os target_file remaining (Some (h0 :: rest)) head_sha1
              wt ix w3 ltac:(discriminate))
    as (r & w6 & Echeck & [Hf6 Hs6] & Hcases).
  destruct r as [[] | e].
  - destruct (check_head_passed os remaining rest h0 head_sha1 wt ix w3 w6 Echeck)
      as [(_ & _ & _ & _ & [-> ->] & _) _].
    split; [split; reflexivity |].
    rewrite Hcases in Erun. unfold write_and_report in Erun.
    destruct (write_to os (requests w6) target_file _) as [u | l];
      [| discriminate Erun].
    destruct (print_out os _ _) as [u' | l]; [| discriminate Erun].
    injection Erun as _ <-. cbn [files stdout printed written].
    rewrite Hf6, Hf3, Hs6, Hs3. split; reflexivity.
  - exfalso.
    destruct e as [error_code error_msg | | | | | error_msg | l];
      destruct Hcases as [_ H2]; rewrite H2 in Erun; discriminate Erun.
Qed.

Lemma filter_nothing {A : Type} (keep : A -> bool) (l : list A) :
  (forall a, In a l -> keep a = false) -> filter keep l = [].
Proof.
  induction l as [| a l IH]; intros H; [reflexivity |].
  simpl. rewrite (H a (or_introl eq_refl)). apply IH.
  intros a' Ha'. apply H. right; exact Ha'.
Qed.

(** X17. When no version of the registry is on HEAD, [run] enters no
    check and goes on to write the header and to print the summary,
    whatever the state of the working tree: the header holds 90 and 0, and
    as revision hash [+] and the whole commit id when working tree or index
    have changes, the first twelve characters of the commit id when they
    have none; the summary names version 90.00.00.  When the header is
    written and the summary printed, [run] returns code 0 with no warning;
    when writing or printing raises, that exception passes. *)
Theorem untagged_head_gets_placeholder_version
    (versions : list Version) (head_sha1 wt ix : string) (w w1 w2 w3 : World) :
  get_versions_from_tags os (snd (reset_warnings w)) = (ok versions, w1) ->
  get_head_sha1 os w1 = (ok head_sha1, w2) ->
  (forall version, In version versions -> on_head head_sha1 version = false) ->
  get_head_has_local_changes os w2 = (ok (wt, ix), w3) ->
  let content :=
    version_file_content 90 0
      (if Py.truthy wt || Py.truthy ix then "+" ++ head_sha1
       else Py.slice_to 12 head_sha1) in
  let output :=
    "############################################################" ++ Py.nl
    ++ "Software version info." ++ Py.nl
    ++ "Building commit " ++ Py.slice_to 12 head_sha1
    ++ ", tagged with version 90.00.00." ++ Py.nl
    ++ "############################################################" in
  run os target_file w = write_and_report os target_file content output w3
  /\ warning_msgs w3 = [] /\ entered w3 = entered w
  /\ files w3 = files w /\ stdout w3 = stdout w
  /\ (write_to os (requests w3) target_file content = inl tt ->
      print_out os (requests w3 ++ [FileWrite target_file content]) output = inl tt ->
      run os target_file w
      = (ok (0, None, []), printed output (written target_file content w3)))
  /\ (forall l,
         write_to os (requests w3) target_file content = inr l ->
         run os target_file w
         = (raise (LibraryError l), asked (FileWrite target_file content) w3)).
Proof.
  intros Ev Es Hoff Ec content output.
  assert (Eh : get_head_versions versions head_sha1 = ok (None, versions)).
  { unfold get_head_versions. rewrite collect_is_filter. simpl app.
    fold (on_head head_sha1).
    rewrite (filter_nothing _ _ Hoff). reflexivity. }
  destruct (reading_keeps os versions head_sha1 wt ix _ w1 w2 w3 Ev Es Ec)
    as (Hw & He & [Hf3 Hs3]).
  cbn [files stdout warning_msgs entered reset_warnings snd] in Hw, He, Hf3, Hs3.
  assert (Hrun : run os target_file w
                 = write_and_report os target_file content output w3).
  { rewrite (run_after_reading os target_file versions versions None head_sha1
               wt ix w w1 w2 w3 Ev Es Eh Ec).
    exact (run_checks_passed os target_file versions None head_sha1 wt ix w3 w3
             ltac:(discriminate) eq_refl). }
  split; [exact Hrun |].
  split; [exact Hw |]. split; [exact He |]. split; [exact Hf3 |].
  split; [exact Hs3 |]. split.
  - intros Hwrite Hprint. rewrite Hrun. unfold write_and_report.
    rewrite Hwrite, Hprint, Hw. reflexivity.
  - intros l Hwrite. rewrite Hrun. unfold write_and_report.
    rewrite Hwrite. reflexivity.
Qed.

Lemma printed_all_nothing (w : World) : printed_all [] w = w.
Proof. destruct w. unfold printed_all. simpl. rewrite !app_nil_r. reflexivity. Qed.

Lemma printed_all_printed (line : string) (lines : list string) (w : World) :
  printed_all lines (printed line w) = printed_all (line :: lines) w.
Proof. unfold printed_all, printed. simpl. rewrite <- !app_assoc. reflexivity. Qed.

(** Printing lines one after the other, when each is printed. *)
Lemma prints_all_done (lines : list string) (w : World) :
  (forall done line rest,
      lines = (done ++ line :: rest)%list ->
      print_out os (requests w ++ map Output done) line = inl tt) ->
  for_ lines (print os) w = (ok tt, printed_all lines w).
Proof.
  revert w. induction lines as [| first lines IH]; intros w Hall.
  - simpl. rewrite printed_all_nothing. reflexivity.
  - cbn [for_].
    assert (E : print os first w = (ok tt, printed first w)).
    { apply print_done. specialize (Hall [] first lines eq_refl).
      cbn [map] in Hall. rewrite app_nil_r in Hall. exact Hall. }
    rewrite (bind_ok _ _ _ _ _ E), IH, printed_all_printed; [reflexivity |].
    intros done line rest El. cbn [requests printed].
    rewrite <- app_assoc. apply (Hall (first :: done) line rest).
    rewrite El. reflexivity.
Qed.

(** Printing lines one after the other, up to the first that is not
    printed. *)
Lemma prints_first_failure (done : list string) (line : string)
    (rest : list string) (l : library_error) (w : World) :
  (forall done' line' rest',
      done = (done' ++ line' :: rest')%list ->
      print_out os (requests w ++ map Output done') line' = inl tt) ->
  print_out os (requests w ++ map Output done) line = inr l ->
  for_ (done ++ line :: rest) (print os) w
  = (raise (LibraryError l), asked (Output line) (printed_all done w)).
Proof.
  revert w. induction done as [| first done IH]; intros w Hall Hfail.
  - cbn [app for_ map] in *. rewrite app_nil_r in Hfail.
    rewrite (bind_raise _ _ _ _ _ (print_failed os line w l Hfail)).
    rewrite printed_all_nothing. reflexivity.
  - cbn [app for_].
    assert (E : print os first w = (ok tt, printed first w)).
    { apply print_done. specialize (Hall [] first done eq_refl).
      cbn [map] in Hall. rewrite app_nil_r in Hall. exact Hall. }
    rewrite (bind_ok _ _ _ _ _ E), IH, printed_all_printed; [reflexivity | |].
    + intros done' line' rest' El. cbn [requests printed].
      rewrite <- app_assoc. apply (Hall (first :: done') line' rest').
      rewrite El. reflexivity.
    + cbn [requests printed]. rewrite <- app_assoc. exact Hfail.
Qed.

Lemma for_map {A B : Type} (f : A -> B) (l : list A) (body : B -> M unit)
    (w : World) :
  for_ (map f l) body w = for_ l (fun x => body (f x)) w.
Proof.
  revert w. induction l as [| x l IH]; intros w; [reflexivity |].
  cbn [map for_]. unfold bind. destruct (body (f x) w) as [[a | e] w1];
    [apply IH | reflexivity].
Qed.

Lemma for_app {A : Type} (l1 l2 : list A) (body : A -> M unit) (w : World) :
  for_ (l1 ++ l2) body w
  = match for_ l1 body w with
    | (inl _, w') => for_ l2 body w'
    | (inr e, w') => (inr e, w')
    end.
Proof.
  revert w. induction l1 as [| x l1 IH]; intros w; [reflexivity |].
  cbn [app for_]. unfold bind.
  destruct (body x w) as [[a | e] w1]; [apply IH | reflexivity].
Qed.

(** [main] after [run] has returned: it prints the report, line by line. *)
Lemma main_after_run (error_code : Z) (error_msg : option string)
    (warnings : list string) (w w1 : World) :
  run os target_file w = (ok (error_code, error_msg, warnings), w1) ->
  main os target_file w
  = match for_ (report error_code error_msg warnings) (print os) w1 with
    | (inl _, w2) => (if error_code =? 0 then Returned else Exited error_code, w2)
    | (inr e, w2) => (Raised e, w2)
    end.
Proof.
  intros E. unfold main. rewrite (bind_ok _ _ _ _ _ E). cbv zeta. cbn [fst snd].
  unfold report. rewrite for_app, for_map.
  unfold bind at 1.
  destruct (for_ warnings (fun x => print os ("WARNING: " ++ x)) w1)
    as [[[] | e] w2]; [| reflexivity].
  destruct (error_code =? 0); cbn [negb for_].
  - reflexivity.
  - unfold bind. destruct (print os ("ERROR: " ++ Py.str_opt error_msg) w2)
      as [[[] | e] w3]; reflexivity.
Qed.

(** X18. [main] prints every warning of [run] behind [WARNING: ], in
    order, and then, when the code is not 0, the message behind [ERROR: ],
    and leaves through [sys.exit] with the code, which lies between 1 and
    5; with code 0 it returns.  When printing a line raises, that
    exception goes through [main] and the lines after it are not printed.
    An exception of [run], which is an IndexError, a CommandError or an
    exception of the library, goes through [main], which then prints
    nothing. *)
Theorem main_reports_and_exits (w : World) :
  match run os target_file w with
  | (inl (error_code, error_msg, warnings), w1) =>
      0 <= error_code <= 5
      /\ ((forall done line rest,
              report error_code error_msg warnings = (done ++ line :: rest)%list ->
              print_out os (requests w1 ++ map Output done) line = inl tt) ->
          main os target_file w
          = (if error_code =? 0 then Returned else Exited error_code,
             printed_all (report error_code error_msg warnings) w1))
      /\ (forall done line rest l,
             report error_code error_msg warnings = (done ++ line :: rest)%list ->
             (forall done' line' rest',
                 done = (done' ++ line' :: rest')%list ->
                 print_out os (requests w1 ++ map Output done') line' = inl tt) ->
             print_out os (requests w1 ++ map Output done) line = inr l ->
             main os target_file w
             = (Raised (LibraryError l),
                asked (Output line) (printed_all done w1)))
  | (inr e, w1) =>
      main os target_file w = (Raised e, w1) /\ passes_through_run e
  end.
Proof.
  pose proof (run_outcome_classes os target_file w) as Hclass. cbv zeta in Hclass.
  destruct (run os target_file w) as [[[[error_code error_msg] warnings] | e] w1]
    eqn:Erun; cbn [fst snd] in Hclass.
  - split; [| split].
    + destruct Hclass as [_ [(-> & _) | (Hc & _)]]; lia.
    + intros Hall. rewrite (main_after_run _ _ _ _ _ Erun).
      rewrite (prints_all_done _ _ Hall). reflexivity.
    + intros done line rest l Hsplit Hdone Hfail.
      rewrite (main_after_run _ _ _ _ _ Erun), Hsplit.
      rewrite (prints_first_failure _ _ _ _ _ Hdone Hfail). reflexivity.
  - split; [| exact (proj1 Hclass)].
    unfold main. rewrite (bind_raise _ _ _ _ _ Erun). reflexivity.
Qed.

(** X20. For a HEAD that carries version tags, the checks pass exactly
    when the rules hold: no version left in the registry list has the
    order key of the first head version; that version is at or below the
    greatest order key among 0 and the versions left that [is_kind] takes
    for its kind, or its order key is one the successors of that key
    allow; git answers the object-type query for every head version's tag
    with status 0 and never with [commit]; all head versions share one
    order key; working tree and index are clean; and listing the tags on
    HEAD succeeds.  [run] returns code 0 exactly when the rules hold, the
    header is written and the summary is printed. *)
Theorem run_accepts_exactly_heads_that_obey_the_rules
    (versions remaining rest : list Version) (h0 : Version)
    (head_sha1 wt ix : string) (w w1 w2 w3 : World) :
  get_versions_from_tags os (snd (reset_warnings w)) = (ok versions, w1) ->
  get_head_sha1 os w1 = (ok head_sha1, w2) ->
  get_head_versions versions head_sha1 = ok (Some (h0 :: rest), remaining) ->
  get_head_has_local_changes os w2 = (ok (wt, ix), w3) ->
  let past :=
    (requests w3 ++ map objecttype_request (h0 :: rest) ++ [points_at_head])%list in
  let content :=
    version_file_content (_major_ver h0) (_minor_ver h0)
      (revisionhash head_sha1 wt ix) in
  (fst (check_head os remaining (Some (h0 :: rest)) head_sha1 wt ix w3) = ok tt
   <-> obeys_the_rules os (requests w3) remaining (h0 :: rest) h0 wt ix)
  /\ ((exists warnings w', run os target_file w = (ok (0, None, warnings), w'))
      <-> obeys_the_rules os (requests w3) remaining (h0 :: rest) h0 wt ix
          /\ write_to os past target_file content = inl tt
          /\ print_out os (past ++ [FileWrite target_file content])
               (summary (Some (h0 :: rest)) head_sha1)
             = inl tt).
Proof.
  intros Ev Es Eh Ec past content.
  destruct (check_head_decides os remaining rest h0 head_sha1 wt ix w3)
    as [Hiff Hrun].
  split; [exact Hiff |].
  rewrite (run_after_reading os target_file versions remaining (Some (h0 :: rest))
             head_sha1 wt ix w w1 w2 w3 Ev Es Eh Ec).
  destruct (run_checks_cases os target_file remaining (Some (h0 :: rest)) head_sha1
              wt ix w3 ltac:(discriminate))
    as (r & w6 & Echeck & _ & Hcases).
  destruct r as [[] | e].
  - assert (Hrules : obeys_the_rules os (requests w3) remaining (h0 :: rest) h0 wt ix)
      by (apply Hiff; rewrite Echeck; reflexivity).
    assert (E6 : requests w6 = past).
    { rewrite (Hrun Hrules) in Echeck. injection Echeck as <-. reflexivity. }
    rewrite Hcases. unfold write_and_report. rewrite E6.
    cbn [header_numbers fst snd]. fold content.
    destruct (write_to os past target_file content) as [[] | l].
    + destruct (print_out os (past ++ [FileWrite target_file content])
                  (summary (Some (h0 :: rest)) head_sha1)) as [[] | l].
      * split; [intros _; auto |]. intros _. do 2 eexists. reflexivity.
      * split; [intros (ws & w' & E); discriminate E |].
        intros (_ & _ & E). discriminate E.
    + split; [intros (ws & w' & E); discriminate E |].
      intros (_ & E & _). discriminate E.
  - assert (Hno : ~ obeys_the_rules os (requests w3) remaining (h0 :: rest) h0 wt ix).
    { intros H. apply Hiff in H. rewrite Echeck in H. discriminate H. }
    split; [| intros (H & _); contradiction].
    intros (ws & w' & E). exfalso.
    destruct e as [error_code error_msg | | | | | error_msg | l];
      destruct Hcases as [_ H2]; rewrite H2 in E; discriminate E.
Qed.

End RunAndMain.

Lemma tagged_head_header_has_plain_hash_witness :
  files (snd (run sample_annotated_os "SwPackageVersion.h" sample_world))
  = [("SwPackageVersion.h", version_file_content 1 0 "c1")]
  /\ stdout (snd (run sample_annotated_os "SwPackageVersion.h" sample_world))
     = [summary (Some [sample_registered]) "c1"].
Proof.
  refine (proj2 (tagged_head_header_has_plain_hash sample_annotated_os
                   "SwPackageVersion.h" [sample_registered] [sample_registered] []
                   "c1" "" "" [] sample_world
                   (snd (get_versions_from_tags sample_annotated_os
                           (snd (reset_warnings sample_world))))
                   (snd (get_head_sha1 sample_annotated_os
                           (snd (get_versions_from_tags sample_annotated_os
                                   (snd (reset_warnings sample_world))))))
                   (snd (get_head_has_local_changes sample_annotated_os
                           (snd (get_head_sha1 sample_annotated_os
                                   (snd (get_versions_from_tags sample_annotated_os
                                           (snd (reset_warnings sample_world))))))))
                   (snd (run sample_annotated_os "SwPackageVersion.h" sample_world))
                   _ _ _ _ _)); reflexivity.
Defined.

Lemma untagged_head_gets_placeholder_version_witness :
  fst (run sample_untagged_os "SwPackageVersion.h" sample_world) = ok (0, None, [])
  /\ files (snd (run sample_untagged_os "SwPackageVersion.h" sample_world))
     = [("SwPackageVersion.h", version_file_content 90 0 "+c2")].
Proof.
  destruct (untagged_head_gets_placeholder_version sample_untagged_os
              "SwPackageVersion.h" [sample_registered] "c2" "diff --git a/f b/f" ""
              sample_world
              (snd (get_versions_from_tags sample_untagged_os
                      (snd (reset_warnings sample_world))))
              (snd (get_head_sha1 sample_untagged_os
                      (snd (get_versions_from_tags sample_untagged_os
                              (snd (reset_warnings sample_world))))))
              (snd (get_head_has_local_changes sample_untagged_os
                      (snd (get_head_sha1 sample_untagged_os
                              (snd (get_versions_from_tags sample_untagged_os
                                      (snd (reset_warnings sample_world))))))))
              eq_refl eq_refl
              ltac:(intros version [<- | []]; reflexivity) eq_refl)
    as (_ & _ & _ & _ & _ & Hrun & _).
  rewrite (Hrun eq_refl eq_refl). split; reflexivity.
Defined.

Lemma run_accepts_exactly_heads_that_obey_the_rules_witness :
  obeys_the_rules sample_annotated_os
    [Program for_each_ref_argv; Program rev_list_argv; CommandLine "git diff";
     CommandLine "git diff --cached"]
    [] [sample_registered] sample_registered "" "".
Proof.
  refine (proj1 (proj1 (run_accepts_exactly_heads_that_obey_the_rules
                          sample_annotated_os "SwPackageVersion.h"
                          [sample_registered] [] [] sample_registered "c1" "" ""
                          sample_world
                          (snd (get_versions_from_tags sample_annotated_os
                                  (snd (reset_warnings sample_world))))
                          (snd (get_head_sha1 sample_annotated_os
                                  (snd (get_versions_from_tags sample_annotated_os
                                          (snd (reset_warnings sample_world))))))
                          (snd (get_head_has_local_changes sample_annotated_os
                                  (snd (get_head_sha1 sample_annotated_os
                                          (snd (get_versions_from_tags
                                                  sample_annotated_os
                                                  (snd (reset_warnings
                                                          sample_world))))))))
                          eq_refl eq_refl eq_refl eq_refl)) _).
  reflexivity.
Defined.

(** ** What run depends on *)

Section Uniform.

Variables a b : World.

Lemma uniform_ret {A : Type} (x : A) : uniform a b (ret x).
Proof. intros w1 w2 H. split; [reflexivity | exact H]. Qed.

Lemma uniform_throw {A : Type} (e : exn) : uniform a b (@throw A e).
Proof. intros w1 w2 H. split; [reflexivity | exact H]. Qed.

Lemma uniform_lift {A : Type} (r : res A) : uniform a b (lift r).
Proof. intros w1 w2 H. split; [reflexivity | exact H]. Qed.

Lemma uniform_bind {A B : Type} (m : M A) (f : A -> M B) :
  uniform a b m -> (forall x, uniform a b (f x)) -> uniform a b (bind m f).
Proof.
  intros Hm Hf w1 w2 H. destruct (Hm w1 w2 H) as [Er Hw]. unfold bind.
  destruct (m w1) as [[x1 | e1] v1], (m w2) as [[x2 | e2] v2];
    cbn [fst snd] in Er, Hw; try discriminate Er.
  - injection Er as <-. exact (Hf x1 v1 v2 Hw).
  - injection Er as <-. split; [reflexivity | exact Hw].
Qed.

Lemma uniform_for {A : Type} (l : list A) (body : A -> M unit) :
  (forall x, uniform a b (body x)) -> uniform a b (for_ l body).
Proof.
  intros Hbody. induction l as [| x l IH]; cbn [for_].
  - apply uniform_ret.
  - apply uniform_bind; [apply Hbody | intros _; exact IH].
Qed.

Lemma uniform_if {A : Type} (c : bool) (m1 m2 : M A) :
  uniform a b m1 -> uniform a b m2 -> uniform a b (if c then m1 else m2).
Proof. destruct c; auto. Qed.

Lemma uniform_try_except {A : Type} (body : M A) (handler : Z -> string -> M A) :
  uniform a b body ->
  (forall error_code error_msg, uniform a b (handler error_code error_msg)) ->
  uniform a b (try_except body handler).
Proof.
  intros Hb Hh w1 w2 H. destruct (Hb w1 w2 H) as [Er Hw]. unfold try_except.
  destruct (body w1) as [[x1 | e1] v1], (body w2) as [[x2 | e2] v2];
    cbn [fst snd] in Er, Hw; try discriminate Er.
  - injection Er as <-. split; [reflexivity | exact Hw].
  - injection Er as <-.
    destruct e1 as [error_code error_msg | | | | | |];
      try (split; [reflexivity | exact Hw]).
    exact (Hh error_code error_msg v1 v2 Hw).
Qed.

Lemma uniform_warn (msg : string) : uniform a b (warn msg).
Proof.
  intros w1 w2 (Hr & Hw & Hadd). split; [reflexivity |].
  split; [exact Hr | split; [| exact Hadd]].
  cbn [snd warn warning_msgs]. rewrite Hw. reflexivity.
Qed.

Lemma uniform_enter (c : check) : uniform a b (enter c).
Proof.
  intros w1 w2 (Hr & Hw & nf & out & cs & F1 & F2 & S1 & S2 & N1 & N2).
  split; [reflexivity |].
  split; [exact Hr | split; [exact Hw |]].
  exists nf, out, (cs ++ [c])%list. cbn [snd enter files stdout entered].
  rewrite N1, N2, <- !app_assoc. repeat split; assumption.
Qed.

Lemma uniform_get_warnings : uniform a b get_warnings.
Proof.
  intros w1 w2 H. split; [| exact H].
  destruct H as (_ & Hw & _). cbn [fst get_warnings]. rewrite Hw. reflexivity.
Qed.

Lemma alike_asked (r : request) (w1 w2 : World) :
  alike a b w1 w2 -> alike a b (asked r w1) (asked r w2).
Proof.
  intros (Hr & Hw & Hadd). split; [| split; [exact Hw | exact Hadd]].
  cbn [asked requests]. rewrite Hr. reflexivity.
Qed.

Lemma uniform_subprocess_run (os : OS) (argv : list string) :
  uniform a b (subprocess_run os argv).
Proof.
  intros w1 w2 H. unfold subprocess_run. cbn [fst snd].
  split; [| apply alike_asked; exact H].
  destruct H as (Hr & _). rewrite Hr. reflexivity.
Qed.

Lemma uniform_run_git_cmd (os : OS) (command : string) :
  uniform a b (run_git_cmd os command).
Proof.
  intros w1 w2 H. unfold run_git_cmd. cbn [fst snd].
  split; [| apply alike_asked; exact H].
  destruct H as (Hr & _). rewrite Hr. reflexivity.
Qed.

Lemma uniform_write_file (os : OS) (path content : string) :
  uniform a b (write_file os path content).
Proof.
  intros w1 w2 H. unfold write_file.
  pose proof H as (Hr & Hw & nf & out & cs & F1 & F2 & S1 & S2 & N1 & N2).
  rewrite Hr.
  destruct (write_to os (requests w2) path content) as [u | l]; cbn [fst snd].
  - split; [reflexivity |].
    split; [reflexivity | split; [exact Hw |]].
    exists (nf ++ [(path, content)])%list, out, cs. cbn [files stdout entered].
    rewrite F1, F2, <- !app_assoc. repeat split; assumption.
  - split; [reflexivity | apply alike_asked; exact H].
Qed.

Lemma uniform_print (os : OS) (output : string) : uniform a b (print os output).
Proof.
  intros w1 w2 H. unfold print.
  pose proof H as (Hr & Hw & nf & out & cs & F1 & F2 & S1 & S2 & N1 & N2).
  rewrite Hr.
  destruct (print_out os (requests w2) output) as [u | l]; cbn [fst snd].
  - split; [reflexivity |].
    split; [reflexivity | split; [exact Hw |]].
    exists nf, (out ++ [output])%list, cs. cbn [files stdout entered].
    rewrite S1, S2, <- !app_assoc. repeat split; assumption.
  - split; [reflexivity | apply alike_asked; exact H].
Qed.

Ltac uniformly :=
  cbv zeta;
  repeat first
    [ apply uniform_ret | apply uniform_throw | apply uniform_lift
    | apply uniform_warn | apply uniform_enter | apply uniform_get_warnings
    | apply uniform_subprocess_run | apply uniform_run_git_cmd
    | apply uniform_write_file | apply uniform_print
    | apply uniform_if
    | apply uniform_try_except; [| intros ? ?]
    | apply uniform_for; intros ?
    | apply uniform_bind; [| intros ?]
    | match goal with
      | |- uniform _ _ (match ?x with _ => _ end) => destruct x
      end ].

(** All of [run] after the warnings are reset. *)
Lemma run_is_uniform (os : OS) (target_file : string) :
  uniform a b
    (versions <- get_versions_from_tags os ;;
     head_sha1 <- get_head_sha1 os ;;
     split_versions <- lift (get_head_versions versions head_sha1) ;;
     changes <- get_head_has_local_changes os ;;
     run_checks_and_write os target_file (snd split_versions) (fst split_versions)
       head_sha1 (fst changes) (snd changes)).
Proof.
  unfold get_versions_from_tags, get_head_sha1, get_head_has_local_changes,
    run_checks_and_write, check_head, write_version_file,
    print_version_information, check_head_version_already_used,
    check_head_version_skipped_a_version, check_tag_is_lightweight,
    check_head_has_multiple_versions, check_head_has_local_changes,
    check_head_has_version_and_nonversion_tag.
  uniformly.
Qed.

End Uniform.

Lemma run_from_reset (os : OS) (target_file : string) (w : World) :
  run os target_file w
  = (versions <- get_versions_from_tags os ;;
     head_sha1 <- get_head_sha1 os ;;
     split_versions <- lift (get_head_versions versions head_sha1) ;;
     changes <- get_head_has_local_changes os ;;
     run_checks_and_write os target_file (snd split_versions) (fst split_versions)
       head_sha1 (fst changes) (snd changes)) (snd (reset_warnings w)).
Proof. reflexivity. Qed.

(** X15. What [run] returns, the warnings it leaves, the requests it makes
    and what it adds to the files, to the output and to the checks entered
    are the same in two worlds in which the same requests have been made
    before: warnings, files and output of an earlier run play no part.
    The requests made before do: with the header tracked by git, the first
    run returns code 0 and the second, which finds the header changed,
    code 2. *)
Theorem run_does_not_depend_on_earlier_state :
  (forall os target_file a b,
      requests a = requests b ->
      fst (run os target_file a) = fst (run os target_file b)
      /\ warning_msgs (snd (run os target_file a))
         = warning_msgs (snd (run os target_file b))
      /\ requests (snd (run os target_file a))
         = requests (snd (run os target_file b))
      /\ exists new_files output checks,
          files (snd (run os target_file a)) = (files a ++ new_files)%list
          /\ files (snd (run os target_file b)) = (files b ++ new_files)%list
          /\ stdout (snd (run os target_file a)) = (stdout a ++ output)%list
          /\ stdout (snd (run os target_file b)) = (stdout b ++ output)%list
          /\ entered (snd (run os target_file a)) = (entered a ++ checks)%list
          /\ entered (snd (run os target_file b)) = (entered b ++ checks)%list)
  /\ (fst (run sample_tracked_header_os "SwPackageVersion.h" sample_world)
      = ok (0, None, [])
      /\ fst (run sample_tracked_header_os "SwPackageVersion.h"
                (snd (run sample_tracked_header_os "SwPackageVersion.h"
                        sample_world)))
         = ok (2, Some "HEAD is tagged but has local changes. This is not allowed.",
               [])).
Proof.
  split; [| split; vm_compute; reflexivity].
  intros os target_file a b Hr.
  assert (H0 : alike a b (snd (reset_warnings a)) (snd (reset_warnings b))).
  { split; [exact Hr | split; [reflexivity |]].
    exists [], [], []. cbn. rewrite !app_nil_r. repeat split. }
  destruct (run_is_uniform a b os target_file _ _ H0) as [Er (R & W & Hadd)].
  rewrite !run_from_reset.
  exact (conj Er (conj W (conj R Hadd))).
Qed.

(** ** Examples from the test suite *)

Section TestSuite.

(** The pattern of the embedding reads as the text of the source. *)
Example version_tag_regex_text :
  Re.show version_tag_regex
  = "(1000[0-9]{4})/V([1-9]?[0-9]{1})_([0-9]{2})(_([0-9][0-9]))?".
Proof. reflexivity. Qed.

(** test_parse_version_tag *)
Example parse_version_tag_params :
  map parse_version_tag
      ["10006000/V1_00_00"; "10006000/V13_00_00"; "10006000/V1_00";
       "10006000/V91_00_00"; "10009999/V1_00_00"; "10009999/V3_14_15"]
  = map (fun t => ok (Some t))
      [(10006000, 1, 0, 0); (10006000, 13, 0, 0); (10006000, 1, 0, 0);
       (10006000, 91, 0, 0); (10009999, 1, 0, 0); (10009999, 3, 14, 15)].
Proof. reflexivity. Qed.

(** test_fail_if_skipped_version: two earlier versions, then the head. *)
Example skipped_version_params :
  Forall (fun t : Version * Version * Version =>
            let '(a, b, head) := t in
            error_code_of (check_head_version_skipped_a_version head [a; b] sample_world)
            = 5)
    [ (Version3 1 0 0, Version3 1 1 0, Version3 1 3 0);
      (Version3 1 0 0, Version3 1 0 1, Version3 1 0 3);
      (Version3 2 0 0, Version3 3 0 0, Version3 5 0 0);
      (Version3 1 56 0, Version3 1 58 1, Version3 3 0 0);
      (Version3 91 0 0, Version3 91 0 20, Version3 91 2 0);
      (Version3 91 0 0, Version3 91 1 0, Version3 91 3 0);
      (Version3 91 0 10, Version3 91 0 11, Version3 91 0 13);
      (Version3 91 0 0, Version3 92 0 0, Version3 94 0 0);
      (Version3 1 0 98, Version3 1 0 99, Version3 1 2 0);
      (Version3 1 98 0, Version3 1 99 0, Version3 3 0 0) ].
Proof. repeat constructor. Qed.

(** test_accept_skipped_minor_releases_when_new_major *)
Example new_major_params :
  Forall (fun t : Version * Version =>
            check_head_version_skipped_a_version (snd t) [fst t] sample_world
            = (ok tt, entered_in SkippedAVersion sample_world))
    [ (Version3 1 0 0, Version3 2 0 0); (Version3 1 56 0, Version3 2 0 0) ].
Proof. repeat constructor. Qed.

(** test_fail_when_version_already_used, first parameter, as a whole run:
    the version of the earlier commit has left the list, and the duplicate
    check meets the head version itself. *)
Example version_already_used_run :
  fst (run (scripted_os [("10006000/V1_00_00", "c1", true);
                         ("10006001/V1_00_00", "c2", true)] "c2" "" "")
         "SwPackageVersion.h" sample_world)
  = ok (1, Some "The version 1.00.00 has already been used", []).
Proof. reflexivity. Qed.

(** test_fail_if_multiple_versions, first parameter *)
Example multiple_versions_run :
  fst (run (scripted_os [("10006000/V1_00_00", "c1", true);
                         ("10006000/V2_00_00", "c1", true)] "c1" "" "")
         "SwPackageVersion.h" sample_world)
  = ok (3,
        Some "HEAD seems to be tagged with multiple versions. At least the tag 10006000/V2_00_00 and 10006000/V1_00_00 have different versions.",
        []).
Proof. reflexivity. Qed.

(** test_fail_if_lightweight_version_tag *)
Example lightweight_tag_run :
  fst (run (scripted_os [("10006000/V1_00_00", "c1", false)] "c1" "" "")
         "SwPackageVersion.h" sample_world)
  = ok (4,
        Some "You assigned a lightweight tag (10006000/V1_00_00) to HEAD, you should use annotated tags (git tag -a)",
        []).
Proof. reflexivity. Qed.

(** test_fail_if_versioned_and_local_changes *)
Example local_changes_run :
  fst (run (scripted_os [("10006000/V1_00_00", "c1", true)] "c1" "diff --git a/f b/f" "")
         "SwPackageVersion.h" sample_world)
  = ok (2, Some "HEAD is tagged but has local changes. This is not allowed.", []).
Proof. reflexivity. Qed.

(** test_accept_correct_tag_on_earlier_commit, first parameter *)
Example earlier_commit_run :
  fst (run (scripted_os [("10006000/V1_00_00", "c1", true);
                         ("10006000/V2_00_00", "c2", true);
                         ("10006000/V2_05_00", "c3", true);
                         ("10006000/V2_05_01", "c4", true);
                         ("10006000/V3_00_00", "c5", true)] "c3" "" "")
         "SwPackageVersion.h" sample_world)
  = ok (0, None,
        ["HEAD is tagged with version 2.05.00 but the most recent version is 3.00.00. Was this the intention (you might have checked out an earlier commit)?"]).
Proof. reflexivity. Qed.

(** test_warn_when_version_tag_and_non_version_tag *)
Example stray_tags_run :
  fst (run (scripted_os [("10006000/V1_00_00", "c1", true);
                         ("SomeOtherTag", "c1", true);
                         ("SomeTag", "c1", true)] "c1" "" "")
         "SwPackageVersion.h" sample_world)
  = ok (0, None,
        ["HEAD was tagged with both version and non-version tags. Was this the intent? The non-version tags are: ['SomeOtherTag', 'SomeTag']"]).
Proof. reflexivity. Qed.

(** test_no_warnings_when_no_tags_on_head *)
Example no_tags_on_head_run :
  fst (run (scripted_os [("10006000/V1_00_00", "c1", false);
                         ("10006000/V1_00_01", "c2", true);
                         ("10006000/V2_00_00", "c2", false);
                         ("10006001/V3_00_00", "c4", true);
                         ("10006010/V1_10_00", "c4", true);
                         ("10006020/V3_00_00", "c5", false)] "c3" "" "")
         "SwPackageVersion.h" sample_world)
  = ok (0, None, []).
Proof. reflexivity. Qed.

End TestSuite.

